(** * The assessment engine of OOP2N.py: tests, questions, attempts, registry

    A shallow embedding of the classes [Question], [Test], [Student],
    [TestAttempt] and [TestingSystem] of [src/OOP2N.py], and the properties
    of the evaluation engine stated over it.

    Modelling conventions.
    - Python [int] is [Z]; identifiers, point values, time limits and the
      passing threshold are integers in the program.
    - Python numbers that come out of a true division ([/]) or that a caller
      may supply as fractional points (scores, percentages, durations) are
      exact rationals [Q]; rounding of binary floating point is not modelled.
    - A [datetime] is the number of microseconds on its clock, a [Z]; the
      clock reading of [datetime.now()] is an argument of every function that
      calls it.
    - A Python [dict] keeps insertion order and has unique keys: an
      association list maintained by [dict_set].  Keys are integers or
      strings, as in the program.
    - Objects shared by reference ([Student], [Test], [TestAttempt]) live in
      a heap and are named by their location; a [Question] is only reachable
      through the list of its test and is stored there by value.
    - A Python reference always points to a live object.  A location that
      is not allocated has no counterpart in the program; the model treats
      it as an object that matches nothing and cannot be updated.  The
      predicate [well_formed] says that no reference dangles, and it holds in
      every state the application reaches ([reachable_well_formed]).
    - The snapshot file holds a JSON document, or nothing before the first
      save.  Writing it is taken to succeed.  Reading is typed: a field with
      a value of another type than [to_dict] writes there counts as an
      exception of [load_data]. *)

From Stdlib Require Import ZArith QArith String Ascii.
From Stdlib Require Import DecimalString DecimalPos DecimalZ.
From stdpp Require Import base option list gmap strings.

Set Warnings "-register-all".

Local Open Scope string_scope.
Local Open Scope list_scope.
Local Open Scope Z_scope.

(** ** Enumerations *)

Inductive TestStatus := NOT_STARTED | IN_PROGRESS | COMPLETED | EVALUATED.

Inductive QuestionType := SINGLE_CHOICE | MULTIPLE_CHOICE | TEXT_ANSWER.

#[global] Instance TestStatus_eq_dec : EqDecision TestStatus.
Proof. solve_decision. Defined.

#[global] Instance QuestionType_eq_dec : EqDecision QuestionType.
Proof. solve_decision. Defined.

(** [member.name] and [Enum[name]] of the two enumerations. *)
Definition TestStatus_name (s : TestStatus) : string :=
  match s with
  | NOT_STARTED => "NOT_STARTED"
  | IN_PROGRESS => "IN_PROGRESS"
  | COMPLETED => "COMPLETED"
  | EVALUATED => "EVALUATED"
  end.

Definition TestStatus_of_name (n : string) : option TestStatus :=
  if decide (n = "NOT_STARTED") then Some NOT_STARTED
  else if decide (n = "IN_PROGRESS") then Some IN_PROGRESS
  else if decide (n = "COMPLETED") then Some COMPLETED
  else if decide (n = "EVALUATED") then Some EVALUATED
  else None.

Definition QuestionType_name (t : QuestionType) : string :=
  match t with
  | SINGLE_CHOICE => "SINGLE_CHOICE"
  | MULTIPLE_CHOICE => "MULTIPLE_CHOICE"
  | TEXT_ANSWER => "TEXT_ANSWER"
  end.

Definition QuestionType_of_name (n : string) : option QuestionType :=
  if decide (n = "SINGLE_CHOICE") then Some SINGLE_CHOICE
  else if decide (n = "MULTIPLE_CHOICE") then Some MULTIPLE_CHOICE
  else if decide (n = "TEXT_ANSWER") then Some TEXT_ANSWER
  else None.

(** The order of the life cycle of an attempt. *)
Definition status_rank (s : TestStatus) : nat :=
  match s with
  | NOT_STARTED => 0
  | IN_PROGRESS => 1
  | COMPLETED => 2
  | EVALUATED => 3
  end.

(** ** Python dictionaries *)

Inductive key := KInt (z : Z) | KStr (s : string).

#[global] Instance key_eq_dec : EqDecision key.
Proof. solve_decision. Defined.

Definition dict (V : Type) : Type := list (key * V).

(** [d[k] = v]: overwrite in place, or append a new entry. *)
Fixpoint dict_set {V} (k : key) (v : V) (d : dict V) : dict V :=
  match d with
  | [] => [(k, v)]
  | (k', v') :: d' =>
      if decide (k = k') then (k', v) :: d' else (k', v') :: dict_set k v d'
  end.

(** [d[k]], [None] for a [KeyError]. *)
Fixpoint dict_get {V} (k : key) (d : dict V) : option V :=
  match d with
  | [] => None
  | (k', v') :: d' => if decide (k = k') then Some v' else dict_get k d'
  end.

Definition dict_values {V} (d : dict V) : list V := map snd d.

(** [d.update(m)] *)
Definition dict_update {V} (d m : dict V) : dict V :=
  fold_left (fun acc kv => dict_set kv.1 kv.2 acc) m d.

(** The built-in [sum], on integers and on rationals: a left fold from 0. *)
Definition sum_Z (l : list Z) : Z := fold_left Z.add l 0.

Definition sum_Q (l : list Q) : Q := fold_left Qplus l (0 : Q).

(** ** Python values and JSON documents *)

Definition datetime : Type := Z.

Definition str_of_int (z : Z) : string := NilZero.string_of_int (Z.to_int z).

Definition int_of_str (s : string) : option Z :=
  Z.of_int <$> NilZero.int_of_string s.

(** [datetime.isoformat] and [datetime.fromisoformat]: a textual form of the
    clock value that reads back to the same value. *)
Definition isoformat (t : datetime) : string := str_of_int t.

Definition fromisoformat (s : string) : option datetime := int_of_str s.

(** The values [to_dict] builds and [from_dict] reads. *)
Inductive pyval :=
  | PNone
  | PBool (b : bool)
  | PInt (z : Z)
  | PNum (q : Q)
  | PStr (s : string)
  | PList (l : list pyval)
  | PDict (d : list (key * pyval)).

(** A JSON document: the keys of an object are strings. *)
Inductive json :=
  | JNull
  | JBool (b : bool)
  | JInt (z : Z)
  | JNum (q : Q)
  | JStr (s : string)
  | JArr (l : list json)
  | JObj (m : list (string * json)).

(** [json.dump] writes an integer key as its decimal string. *)
Definition key_str (k : key) : string :=
  match k with
  | KInt z => str_of_int z
  | KStr s => s
  end.

Fixpoint json_dump (v : pyval) : json :=
  match v with
  | PNone => JNull
  | PBool b => JBool b
  | PInt z => JInt z
  | PNum q => JNum q
  | PStr s => JStr s
  | PList l => JArr (map json_dump l)
  | PDict d => JObj (map (fun kv => match kv with (k, x) => (key_str k, json_dump x) end) d)
  end.

(** [json.load] builds a dict with string keys; of two members with the same
    name the later one wins. *)
Fixpoint json_load (j : json) : pyval :=
  match j with
  | JNull => PNone
  | JBool b => PBool b
  | JInt z => PInt z
  | JNum q => PNum q
  | JStr s => PStr s
  | JArr l => PList (map json_load l)
  | JObj m =>
      PDict (fold_left
               (fun acc kv => match kv with (k, x) => dict_set (KStr k) (json_load x) acc end)
               m [])
  end.

(** Reading a field of a loaded value; [None] stands for the exception the
    Python expression raises.  The model is typed: a field that holds a value
    of another type than the program writes there is a malformed snapshot. *)
Definition field (name : string) (v : pyval) : option pyval :=
  match v with
  | PDict d => dict_get (KStr name) d
  | _ => None
  end.

Definition as_int (v : pyval) : option Z :=
  match v with PInt z => Some z | _ => None end.

Definition as_num (v : pyval) : option Q :=
  match v with PNum q => Some q | PInt z => Some (inject_Z z) | _ => None end.

Definition as_str (v : pyval) : option string :=
  match v with PStr s => Some s | _ => None end.

Definition as_bool (v : pyval) : option bool :=
  match v with PBool b => Some b | _ => None end.

Definition as_list (v : pyval) : option (list pyval) :=
  match v with PList l => Some l | _ => None end.

Definition as_dict (v : pyval) : option (dict pyval) :=
  match v with PDict d => Some d | _ => None end.

Definition as_str_list (v : pyval) : option (list string) :=
  l ← as_list v; mapM as_str l.

Definition as_dict_of {V} (f : pyval → option V) (v : pyval) : option (dict V) :=
  d ← as_dict v; mapM (fun kv => x ← f kv.2; Some (kv.1, x)) d.

Definition field_as {A} (f : pyval → option A) (name : string) (v : pyval)
    : option A :=
  match field name v with
  | Some x => f x
  | None => None
  end.

Definition str_dict (l : list (string * pyval)) : pyval :=
  PDict (map (fun kv => (KStr kv.1, kv.2)) l).

(** ** Question *)

Module Question.

Record t := mk {
  question_id : Z;
  text : string;
  question_type : QuestionType;
  options : list string;
  correct_answers : list string;
  max_points : Z;
  is_active : bool
}.

(** [Question(question_id, text, question_type, options, correct_answers,
    max_points)]; an absent list is the empty list. *)
Definition new (question_id : Z) (text : string) (question_type : QuestionType)
    (options correct_answers : option (list string)) (max_points : Z) : t :=
  mk question_id text question_type
     (default [] options) (default [] correct_answers) max_points true.

Definition toggle_active (q : t) : t :=
  mk (question_id q) (text q) (question_type q) (options q)
     (correct_answers q) (max_points q) (negb (is_active q)).

Definition check_answer (q : t) (user_answers : list string) : bool :=
  match question_type q with
  | SINGLE_CHOICE =>
      match user_answers with
      | first :: _ => bool_decide (first ∈ correct_answers q)
      | [] => false
      end
  | MULTIPLE_CHOICE =>
      bool_decide (list_to_set user_answers =@{gset string}
                   list_to_set (correct_answers q))
  | TEXT_ANSWER => true
  end.

Definition to_dict (q : t) : pyval :=
  str_dict [
    ("question_id", PInt (question_id q));
    ("text", PStr (text q));
    ("question_type", PStr (QuestionType_name (question_type q)));
    ("options", PList (PStr <$> options q));
    ("correct_answers", PList (PStr <$> correct_answers q));
    ("max_points", PInt (max_points q));
    ("is_active", PBool (is_active q))
  ].

Definition from_dict (data : pyval) : option t :=
  qid ← field_as as_int "question_id" data;
  txt ← field_as as_str "text" data;
  qt ← field_as (fun v => n ← as_str v; QuestionType_of_name n) "question_type" data;
  opts ← field_as as_str_list "options" data;
  corr ← field_as as_str_list "correct_answers" data;
  pts ← field_as as_int "max_points" data;
  act ← field_as as_bool "is_active" data;
  Some (mk qid txt qt opts corr pts act).

End Question.

(** ** Test *)

Module Test.

Record t := mk {
  test_id : Z;
  title : string;
  subject : string;
  time_limit : Z;
  questions : list Question.t;
  is_active : bool;
  passing_score : Z
}.

Definition new (test_id : Z) (title subject : string) (time_limit : Z) : t :=
  mk test_id title subject time_limit [] true 60.

Definition set_questions (qs : list Question.t) (x : t) : t :=
  mk (test_id x) (title x) (subject x) (time_limit x) qs
     (is_active x) (passing_score x).

Definition add_question (q : Question.t) (x : t) : t :=
  set_questions (questions x ++ [q]) x.

Definition remove_question (question_id : Z) (x : t) : t :=
  set_questions
    (filter (fun q => Question.question_id q ≠ question_id) (questions x)) x.

Definition get_active_questions (x : t) : list Question.t :=
  filter (fun q => Question.is_active q = true) (questions x).

Definition get_max_score (x : t) : Z :=
  sum_Z (Question.max_points <$> get_active_questions x).

Definition toggle_active (x : t) : t :=
  mk (test_id x) (title x) (subject x) (time_limit x) (questions x)
     (negb (is_active x)) (passing_score x).

(** [next((q for q in self.questions if q.question_id == question_id), None)] *)
Definition find_question (question_id : Z) (x : t) : option Question.t :=
  head (filter (fun q => Question.question_id q = question_id) (questions x)).

(** [question.toggle_active()] on the question that [find_question] yields:
    the object sits in the list of the test, the first one with that id. *)
Fixpoint toggle_first (question_id : Z) (qs : list Question.t) : list Question.t :=
  match qs with
  | [] => []
  | q :: qs' =>
      if decide (Question.question_id q = question_id)
      then Question.toggle_active q :: qs'
      else q :: toggle_first question_id qs'
  end.

Definition toggle_question (question_id : Z) (x : t) : t :=
  set_questions (toggle_first question_id (questions x)) x.

Definition to_dict (x : t) : pyval :=
  str_dict [
    ("test_id", PInt (test_id x));
    ("title", PStr (title x));
    ("subject", PStr (subject x));
    ("time_limit", PInt (time_limit x));
    ("questions", PList (Question.to_dict <$> questions x));
    ("is_active", PBool (is_active x));
    ("passing_score", PInt (passing_score x))
  ].

Definition from_dict (data : pyval) : option t :=
  tid ← field_as as_int "test_id" data;
  ttl ← field_as as_str "title" data;
  sbj ← field_as as_str "subject" data;
  lim ← field_as as_int "time_limit" data;
  qs ← field_as (fun v => l ← as_list v; mapM Question.from_dict l) "questions" data;
  act ← field_as as_bool "is_active" data;
  pass ← match field "passing_score" data with
         | Some v => as_int v
         | None => Some 60
         end;
  Some (mk tid ttl sbj lim qs act pass).

End Test.

(** ** Student *)

(** A location of the heap. *)
Abbreviation loc := nat.

Module Student.

Record t := mk {
  student_id : Z;
  full_name : string;
  group : string;
  email : string;
  test_attempts : list loc
}.

Definition new (student_id : Z) (full_name group email : string) : t :=
  mk student_id full_name group email [].

Definition add_attempt (attempt : loc) (s : t) : t :=
  mk (student_id s) (full_name s) (group s) (email s)
     (test_attempts s ++ [attempt]).

Definition get_attempts_count (s : t) : nat := length (test_attempts s).

Definition to_dict (s : t) : pyval :=
  str_dict [
    ("student_id", PInt (student_id s));
    ("full_name", PStr (full_name s));
    ("group", PStr (group s));
    ("email", PStr (email s))
  ].

Definition from_dict (data : pyval) : option t :=
  sid ← field_as as_int "student_id" data;
  name ← field_as as_str "full_name" data;
  grp ← field_as as_str "group" data;
  mail ← field_as as_str "email" data;
  Some (new sid name grp mail).

End Student.

(** ** TestAttempt

    The methods take the attempt ([self]) and, where they read it, the test
    object that [self.test] points to at the moment of the call. *)

Module TestAttempt.

Record t := mk {
  attempt_id : Z;
  student : loc;
  test : loc;
  start_time : datetime;
  end_time : option datetime;
  status : TestStatus;
  answers : dict (list string);
  scores : dict Q;
  final_score : Q;
  percentage : Q;
  is_passed : bool
}.

Definition new (now : datetime) (attempt_id : Z) (student test : loc) : t :=
  mk attempt_id student test now None NOT_STARTED [] [] 0 0 false.

Definition with_status (s : TestStatus) (a : t) : t :=
  mk (attempt_id a) (student a) (test a) (start_time a) (end_time a) s
     (answers a) (scores a) (final_score a) (percentage a) (is_passed a).

Definition with_start_time (now : datetime) (a : t) : t :=
  mk (attempt_id a) (student a) (test a) now (end_time a) (status a)
     (answers a) (scores a) (final_score a) (percentage a) (is_passed a).

Definition with_end_time (e : option datetime) (a : t) : t :=
  mk (attempt_id a) (student a) (test a) (start_time a) e (status a)
     (answers a) (scores a) (final_score a) (percentage a) (is_passed a).

Definition with_answers (d : dict (list string)) (a : t) : t :=
  mk (attempt_id a) (student a) (test a) (start_time a) (end_time a) (status a)
     d (scores a) (final_score a) (percentage a) (is_passed a).

Definition with_scores (d : dict Q) (a : t) : t :=
  mk (attempt_id a) (student a) (test a) (start_time a) (end_time a) (status a)
     (answers a) d (final_score a) (percentage a) (is_passed a).

Definition with_outcome (total pct : Q) (passed : bool) (a : t) : t :=
  mk (attempt_id a) (student a) (test a) (start_time a) (end_time a) (status a)
     (answers a) (scores a) total pct passed.

Definition start_attempt (now : datetime) (a : t) : t :=
  with_start_time now (with_status IN_PROGRESS a).

Definition submit_answer (tst : Test.t) (question_id : Z)
    (user_answers : list string) (a : t) : t :=
  let a1 := with_answers (dict_set (KInt question_id) user_answers (answers a)) a in
  match Test.find_question question_id tst with
  | Some question =>
      match Question.question_type question with
      | SINGLE_CHOICE | MULTIPLE_CHOICE =>
          if Question.check_answer question user_answers
          then with_scores (dict_set (KInt question_id)
                              (inject_Z (Question.max_points question)) (scores a1)) a1
          else with_scores (dict_set (KInt question_id) 0%Q (scores a1)) a1
      | TEXT_ANSWER => a1
      end
  | None => a1
  end.

Definition calculate_score (tst : Test.t) (a : t) : t :=
  let total_score := sum_Q (dict_values (scores a)) in
  let max_score := Test.get_max_score tst in
  let pct := if bool_decide (0 < max_score)
             then (total_score / inject_Z max_score * 100)%Q
             else 0%Q in
  with_outcome total_score pct
    (Qle_bool (inject_Z (Test.passing_score tst)) pct) a.

Definition finish_attempt (now : datetime) (tst : Test.t) (a : t) : t :=
  calculate_score tst (with_end_time (Some now) (with_status COMPLETED a)).

(** [if manual_scores:] holds for a dict that is given and not empty. *)
Definition evaluate_attempt (tst : Test.t) (manual_scores : option (dict Q))
    (a : t) : t :=
  let a1 := with_status EVALUATED a in
  let a2 := match manual_scores with
            | Some (kv :: m) => with_scores (dict_update (scores a1) (kv :: m)) a1
            | _ => a1
            end in
  calculate_score tst a2.

(** Minutes between start and end; a [datetime] is never false. *)
Definition get_duration (a : t) : Q :=
  match end_time a with
  | Some e => (inject_Z (e - start_time a) / 1000000 / 60)%Q
  | None => 0%Q
  end.

Definition to_dict (s : Student.t) (tst : Test.t) (a : t) : pyval :=
  str_dict [
    ("attempt_id", PInt (attempt_id a));
    ("student_id", PInt (Student.student_id s));
    ("test_id", PInt (Test.test_id tst));
    ("start_time", PStr (isoformat (start_time a)));
    ("end_time", match end_time a with
                 | Some e => PStr (isoformat e)
                 | None => PNone
                 end);
    ("status", PStr (TestStatus_name (status a)));
    ("answers", PDict (prod_map id (fun l => PList (PStr <$> l)) <$> answers a));
    ("scores", PDict (prod_map id PNum <$> scores a));
    ("final_score", PNum (final_score a));
    ("percentage", PNum (percentage a));
    ("is_passed", PBool (is_passed a))
  ].

(** A method call on an attempt, as a value. *)
Inductive call :=
  | Start (now : datetime)
  | SubmitAnswer (question_id : Z) (user_answers : list string)
  | Finish (now : datetime)
  | Evaluate (manual_scores : option (dict Q)).

Definition run_call (tst : Test.t) (c : call) (a : t) : t :=
  match c with
  | Start now => start_attempt now a
  | SubmitAnswer question_id user_answers => submit_answer tst question_id user_answers a
  | Finish now => finish_attempt now tst a
  | Evaluate manual_scores => evaluate_attempt tst manual_scores a
  end.

End TestAttempt.

(** ** The object heap *)

Module Heap.

Record t := mk {
  students : list Student.t;
  tests : list Test.t;
  attempts : list TestAttempt.t
}.

Definition empty : t := mk [] [] [].

Definition alloc_student (s : Student.t) (h : t) : loc * t :=
  (length (students h), mk (students h ++ [s]) (tests h) (attempts h)).

Definition alloc_test (x : Test.t) (h : t) : loc * t :=
  (length (tests h), mk (students h) (tests h ++ [x]) (attempts h)).

Definition alloc_attempt (a : TestAttempt.t) (h : t) : loc * t :=
  (length (attempts h), mk (students h) (tests h) (attempts h ++ [a])).

Definition update_student (l : loc) (f : Student.t → Student.t) (h : t) : t :=
  mk (alter f l (students h)) (tests h) (attempts h).

Definition update_test (l : loc) (f : Test.t → Test.t) (h : t) : t :=
  mk (students h) (alter f l (tests h)) (attempts h).

(** A method call on the attempt at [l] that reads the test it refers to. *)
Definition call_attempt (l : loc) (m : Test.t → TestAttempt.t → TestAttempt.t)
    (h : t) : t :=
  match attempts h !! l with
  | Some a =>
      match tests h !! TestAttempt.test a with
      | Some tst => mk (students h) (tests h) (<[l := m tst a]> (attempts h))
      | None => h
      end
  | None => h
  end.

Definition start_attempt (now : datetime) (l : loc) : t → t :=
  call_attempt l (fun _ => TestAttempt.start_attempt now).

Definition submit_answer (l : loc) (question_id : Z) (user_answers : list string)
    : t → t :=
  call_attempt l (fun tst => TestAttempt.submit_answer tst question_id user_answers).

Definition finish_attempt (now : datetime) (l : loc) : t → t :=
  call_attempt l (TestAttempt.finish_attempt now).

Definition evaluate_attempt (l : loc) (manual_scores : option (dict Q)) : t → t :=
  call_attempt l (fun tst => TestAttempt.evaluate_attempt tst manual_scores).

Definition run_call (l : loc) (c : TestAttempt.call) : t → t :=
  call_attempt l (fun tst => TestAttempt.run_call tst c).

(** [a.student.student_id] and [a.test.test_id] of the attempt at [l]. *)
Definition attempt_student_id (h : t) (l : loc) : option Z :=
  a ← attempts h !! l;
  Student.student_id <$> students h !! TestAttempt.student a.

Definition attempt_test_id (h : t) (l : loc) : option Z :=
  a ← attempts h !! l;
  Test.test_id <$> tests h !! TestAttempt.test a.

Definition attempt_to_dict (h : t) (l : loc) : option pyval :=
  a ← attempts h !! l;
  s ← students h !! TestAttempt.student a;
  x ← tests h !! TestAttempt.test a;
  Some (TestAttempt.to_dict s x a).

End Heap.

(** ** TestingSystem

    The registry object together with the world it acts on: the heap of the
    objects it refers to, the snapshot file [testing_system_data.json] and
    the warnings shown through [messagebox.showwarning]. *)

Inductive Warning :=
  | WarnTestInUse (count : nat)
  | WarnAttemptLimit.

Record Statistics := mkStatistics {
  total_attempts : nat;
  passed_attempts : nat;
  success_rate : Q;
  avg_score : Q;
  avg_time : Q
}.

Module TestingSystem.

Record t := mk {
  system_name : string;
  students : list loc;
  tests : list loc;
  attempts : list loc;
  next_student_id : Z;
  next_test_id : Z;
  next_attempt_id : Z;
  next_question_id : Z;
  heap : Heap.t;
  disk : option json;
  shown : list Warning
}.

Definition with_heap (h : Heap.t) (st : t) : t :=
  mk (system_name st) (students st) (tests st) (attempts st)
     (next_student_id st) (next_test_id st) (next_attempt_id st)
     (next_question_id st) h (disk st) (shown st).

Definition with_students (l : list loc) (st : t) : t :=
  mk (system_name st) l (tests st) (attempts st)
     (next_student_id st) (next_test_id st) (next_attempt_id st)
     (next_question_id st) (heap st) (disk st) (shown st).

Definition with_tests (l : list loc) (st : t) : t :=
  mk (system_name st) (students st) l (attempts st)
     (next_student_id st) (next_test_id st) (next_attempt_id st)
     (next_question_id st) (heap st) (disk st) (shown st).

Definition with_attempts (l : list loc) (st : t) : t :=
  mk (system_name st) (students st) (tests st) l
     (next_student_id st) (next_test_id st) (next_attempt_id st)
     (next_question_id st) (heap st) (disk st) (shown st).

Definition with_counters (s x a q : Z) (st : t) : t :=
  mk (system_name st) (students st) (tests st) (attempts st)
     s x a q (heap st) (disk st) (shown st).

Definition with_disk (d : option json) (st : t) : t :=
  mk (system_name st) (students st) (tests st) (attempts st)
     (next_student_id st) (next_test_id st) (next_attempt_id st)
     (next_question_id st) (heap st) d (shown st).

(** [messagebox.showwarning] *)
Definition showwarning (w : Warning) (st : t) : t :=
  mk (system_name st) (students st) (tests st) (attempts st)
     (next_student_id st) (next_test_id st) (next_attempt_id st)
     (next_question_id st) (heap st) (disk st) (shown st ++ [w]).

(** The value [save_data] hands to [json.dump]. *)
Definition snapshot (st : t) : pyval :=
  let h := heap st in
  str_dict [
    ("students",
      PList (omap (fun l => Student.to_dict <$> Heap.students h !! l) (students st)));
    ("tests",
      PList (omap (fun l => Test.to_dict <$> Heap.tests h !! l) (tests st)));
    ("attempts", PList (omap (Heap.attempt_to_dict h) (attempts st)));
    ("counters", str_dict [
      ("student", PInt (next_student_id st));
      ("test", PInt (next_test_id st));
      ("attempt", PInt (next_attempt_id st));
      ("question", PInt (next_question_id st))
    ])
  ].

(** The write is taken to succeed; the [except] branch only prints. *)
Definition save_data (st : t) : t :=
  with_disk (Some (json_dump (snapshot st))) st.

Definition add_student (full_name group email : string) (st : t) : loc * t :=
  let (l, h) := Heap.alloc_student
                  (Student.new (next_student_id st) full_name group email)
                  (heap st) in
  let st1 := with_students (students st ++ [l]) (with_heap h st) in
  let st2 := with_counters (next_student_id st1 + 1) (next_test_id st1)
               (next_attempt_id st1) (next_question_id st1) st1 in
  (l, save_data st2).

Definition find_student_by_id (student_id : Z) (st : t) : option loc :=
  head (filter
          (fun l => Student.student_id <$> Heap.students (heap st) !! l = Some student_id)
          (students st)).

Definition find_students_by_group (group : string) (st : t) : list loc :=
  filter (fun l => Student.group <$> Heap.students (heap st) !! l = Some group)
         (students st).

Definition add_test (title subject : string) (time_limit : Z) (st : t) : loc * t :=
  let (l, h) := Heap.alloc_test
                  (Test.new (next_test_id st) title subject time_limit)
                  (heap st) in
  let st1 := with_tests (tests st ++ [l]) (with_heap h st) in
  let st2 := with_counters (next_student_id st1) (next_test_id st1 + 1)
               (next_attempt_id st1) (next_question_id st1) st1 in
  (l, save_data st2).

Definition find_test_by_id (test_id : Z) (st : t) : option loc :=
  head (filter
          (fun l => Test.test_id <$> Heap.tests (heap st) !! l = Some test_id)
          (tests st)).

(** [list.remove(x)]: drop the first occurrence of the object. *)
Fixpoint list_remove (x : loc) (l : list loc) : list loc :=
  match l with
  | [] => []
  | y :: l' => if decide (y = x) then l' else y :: list_remove x l'
  end.

(** [[a for a in self.attempts if a.test.test_id == test_id]] *)
Definition attempts_of_test (test_id : Z) (st : t) : list loc :=
  filter (fun a => Heap.attempt_test_id (heap st) a = Some test_id) (attempts st).

Definition delete_test (test_id : Z) (st : t) : bool * t :=
  match find_test_by_id test_id st with
  | Some test =>
      let test_attempts := attempts_of_test test_id st in
      match test_attempts with
      | _ :: _ => (false, showwarning (WarnTestInUse (length test_attempts)) st)
      | [] => (true, save_data (with_tests (list_remove test (tests st)) st))
      end
  | None => (false, st)
  end.

Definition add_question_to_test (test_id : Z) (text : string)
    (question_type : QuestionType) (options correct_answers : option (list string))
    (max_points : Z) (st : t) : option Question.t * t :=
  match find_test_by_id test_id st with
  | Some test =>
      let question := Question.new (next_question_id st) text question_type
                        options correct_answers max_points in
      let st1 := with_heap (Heap.update_test test (Test.add_question question) (heap st)) st in
      let st2 := with_counters (next_student_id st1) (next_test_id st1)
                   (next_attempt_id st1) (next_question_id st1 + 1) st1 in
      (Some question, save_data st2)
  | None => (None, st)
  end.

Definition delete_question (test_id question_id : Z) (st : t) : bool * t :=
  match find_test_by_id test_id st with
  | Some test =>
      (true, save_data (with_heap
               (Heap.update_test test (Test.remove_question question_id) (heap st)) st))
  | None => (false, st)
  end.

(** [[a for a in self.attempts if a.student.student_id == student_id
    and a.test.test_id == test_id]] *)
Definition attempts_of_student_on_test (student_id test_id : Z) (st : t)
    : list loc :=
  filter (fun a => Heap.attempt_student_id (heap st) a = Some student_id
                   ∧ Heap.attempt_test_id (heap st) a = Some test_id)
         (attempts st).

Definition create_attempt (now : datetime) (student_id test_id : Z) (st : t)
    : option loc * t :=
  match find_student_by_id student_id st, find_test_by_id test_id st with
  | Some student, Some test =>
      let student_attempts := attempts_of_student_on_test student_id test_id st in
      if bool_decide (3 ≤ length student_attempts)%nat
      then (None, showwarning WarnAttemptLimit st)
      else
        let (attempt, h) := Heap.alloc_attempt
                              (TestAttempt.new now (next_attempt_id st) student test)
                              (heap st) in
        let st1 := with_attempts (attempts st ++ [attempt]) (with_heap h st) in
        let st2 := with_heap (Heap.update_student student
                                (Student.add_attempt attempt) (heap st1)) st1 in
        let st3 := with_counters (next_student_id st2) (next_test_id st2)
                     (next_attempt_id st2 + 1) (next_question_id st2) st2 in
        (Some attempt, save_data st3)
  | _, _ => (None, st)
  end.

(** [if test_id:] is false for an absent id and for the id 0. *)
Definition get_student_attempts (student_id : Z) (test_id : option Z) (st : t)
    : list loc :=
  match test_id with
  | Some tid =>
      if decide (tid = 0)
      then filter (fun a => Heap.attempt_student_id (heap st) a = Some student_id)
                  (attempts st)
      else attempts_of_student_on_test student_id tid st
  | None =>
      filter (fun a => Heap.attempt_student_id (heap st) a = Some student_id)
             (attempts st)
  end.

(** The attempts a statistic is computed from: those of the test that are
    evaluated, as objects. *)
Definition evaluated_attempts (test_id : Z) (st : t) : list TestAttempt.t :=
  omap (fun a => Heap.attempts (heap st) !! a)
       (filter (fun a => Heap.attempt_test_id (heap st) a = Some test_id
                         ∧ TestAttempt.status <$> Heap.attempts (heap st) !! a
                           = Some EVALUATED)
               (attempts st)).

Definition get_test_statistics (test_id : Z) (st : t) : option Statistics :=
  let test_attempts := evaluated_attempts test_id st in
  match test_attempts with
  | [] => None
  | _ :: _ =>
      let total_attempts := length test_attempts in
      let passed_attempts :=
        length (filter (fun a => TestAttempt.is_passed a = true) test_attempts) in
      let avg_score :=
        (sum_Q (TestAttempt.percentage <$> test_attempts)
         / inject_Z (Z.of_nat total_attempts))%Q in
      let avg_time :=
        (sum_Q (TestAttempt.get_duration <$> test_attempts)
         / inject_Z (Z.of_nat total_attempts))%Q in
      Some (mkStatistics total_attempts passed_attempts
              (if bool_decide (0 < total_attempts)%nat
               then (inject_Z (Z.of_nat passed_attempts)
                     / inject_Z (Z.of_nat total_attempts) * 100)%Q
               else 0%Q)
              avg_score avg_time)
  end.

(** [test.test_id] of the object a call has just returned. *)
Definition test_id_of (l : loc) (st : t) : Z :=
  default 0 (Test.test_id <$> Heap.tests (heap st) !! l).

Definition create_sample_data (st : t) : t :=
  let st := (add_student "Иванов Алексей" "Группа 101" "ivanov@edu.ru" st).2 in
  let st := (add_student "Петрова Мария" "Группа 101" "petrova@edu.ru" st).2 in
  let st := (add_student "Сидоров Дмитрий" "Группа 102" "sidorov@edu.ru" st).2 in
  let (math_test, st) := add_test "Математика - базовый уровень" "Математика" 45 st in
  let (prog_test, st) := add_test "Основы программирования" "Информатика" 60 st in
  let st := (add_question_to_test (test_id_of math_test st)
               "Чему равно 2 + 2 × 2?" SINGLE_CHOICE
               (Some ["6"; "8"; "10"]) (Some ["6"]) 1 st).2 in
  let st := (add_question_to_test (test_id_of math_test st)
               "Какие из перечисленных чисел являются простыми?" MULTIPLE_CHOICE
               (Some ["2"; "4"; "7"; "9"; "11"]) (Some ["2"; "7"; "11"]) 1 st).2 in
  let st := (add_question_to_test (test_id_of math_test st)
               "Сформулируйте теорему Пифагора" TEXT_ANSWER None None 3 st).2 in
  let st := (add_question_to_test (test_id_of prog_test st)
               "Что такое переменная в программировании?" SINGLE_CHOICE
               (Some ["Место в памяти для хранения данных"; "Тип данных"; "Функция"])
               (Some ["Место в памяти для хранения данных"]) 1 st).2 in
  let st := (add_question_to_test (test_id_of prog_test st)
               "Какие языки программирования являются объектно-ориентированными?"
               MULTIPLE_CHOICE
               (Some ["Python"; "C++"; "Java"; "HTML"])
               (Some ["Python"; "C++"; "Java"]) 1 st).2 in
  st.

Fixpoint alloc_students (l : list Student.t) (h : Heap.t) : list loc * Heap.t :=
  match l with
  | [] => ([], h)
  | s :: l' =>
      let (x, h1) := Heap.alloc_student s h in
      let (xs, h2) := alloc_students l' h1 in
      (x :: xs, h2)
  end.

Fixpoint alloc_tests (l : list Test.t) (h : Heap.t) : list loc * Heap.t :=
  match l with
  | [] => ([], h)
  | s :: l' =>
      let (x, h1) := Heap.alloc_test s h in
      let (xs, h2) := alloc_tests l' h1 in
      (x :: xs, h2)
  end.

(** [attempt_data['end_time']], absent when it is [None] or empty. *)
Definition as_end_time (v : pyval) : option (option datetime) :=
  match v with
  | PNone => Some None
  | PStr s => if decide (s = "") then Some None else Some <$> fromisoformat s
  | _ => None
  end.

(** One round of the loop that restores the attempts; [None] when the body
    raises.  The attempt is linked only after all its fields are read. *)
Definition load_attempt (attempt_data : pyval) (st : t) : option t :=
  sid ← field_as as_int "student_id" attempt_data;
  tid ← field_as as_int "test_id" attempt_data;
  match find_student_by_id sid st, find_test_by_id tid st with
  | Some student, Some test =>
      aid ← field_as as_int "attempt_id" attempt_data;
      start ← field_as (fun v => s ← as_str v; fromisoformat s) "start_time" attempt_data;
      stop ← field_as as_end_time "end_time" attempt_data;
      status ← field_as (fun v => n ← as_str v; TestStatus_of_name n) "status" attempt_data;
      answers ← field_as (as_dict_of as_str_list) "answers" attempt_data;
      scores ← field_as (as_dict_of as_num) "scores" attempt_data;
      final_score ← field_as as_num "final_score" attempt_data;
      percentage ← field_as as_num "percentage" attempt_data;
      is_passed ← field_as as_bool "is_passed" attempt_data;
      let attempt := TestAttempt.mk aid student test start stop status answers
                       scores final_score percentage is_passed in
      let (l, h) := Heap.alloc_attempt attempt (heap st) in
      let st1 := with_attempts (attempts st ++ [l]) (with_heap h st) in
      Some (with_heap (Heap.update_student student (Student.add_attempt l) (heap st1)) st1)
  | _, _ => Some st
  end.

Fixpoint load_attempts (l : list pyval) (st : t) : t * bool :=
  match l with
  | [] => (st, true)
  | attempt_data :: l' =>
      match load_attempt attempt_data st with
      | Some st' => load_attempts l' st'
      | None => (st, false)
      end
  end.

Definition load_counters (data : pyval) (st : t) : t * bool :=
  match field "counters" data with
  | None => (st, false)
  | Some counters =>
      match field_as as_int "student" counters with
      | None => (st, false)
      | Some s =>
          let st := with_counters s (next_test_id st) (next_attempt_id st)
                      (next_question_id st) st in
          match field_as as_int "test" counters with
          | None => (st, false)
          | Some x =>
              let st := with_counters (next_student_id st) x (next_attempt_id st)
                          (next_question_id st) st in
              match field_as as_int "attempt" counters with
              | None => (st, false)
              | Some a =>
                  let st := with_counters (next_student_id st) (next_test_id st) a
                              (next_question_id st) st in
                  match field_as as_int "question" counters with
                  | None => (st, false)
                  | Some q =>
                      (with_counters (next_student_id st) (next_test_id st)
                         (next_attempt_id st) q st, true)
                  end
              end
          end
      end
  end.

(** The body of the [try] of [load_data]; the flag is false when it raised,
    and the state is then the one reached at that point. *)
Definition load_snapshot (data : pyval) (st : t) : t * bool :=
  match field_as (fun v => l ← as_list v; mapM Student.from_dict l) "students" data with
  | None => (st, false)
  | Some ss =>
      let (ls, h) := alloc_students ss (heap st) in
      let st := with_students ls (with_heap h st) in
      match field_as (fun v => l ← as_list v; mapM Test.from_dict l) "tests" data with
      | None => (st, false)
      | Some xs =>
          let (lx, h) := alloc_tests xs (heap st) in
          let st := with_tests lx (with_heap h st) in
          match field_as as_list "attempts" data with
          | None => (st, false)
          | Some l =>
              match load_attempts l st with
              | (st, true) => load_counters data st
              | (st, false) => (st, false)
              end
          end
      end
  end.

Definition load_data (st : t) : t :=
  match disk st with
  | None => create_sample_data st
  | Some doc =>
      match load_snapshot (json_load doc) st with
      | (st', true) => st'
      | (st', false) => create_sample_data st'
      end
  end.

(** [TestingSystem(system_name)], started on a given snapshot file. *)
Definition new (system_name : string) (file : option json) : t :=
  load_data (mk system_name [] [] [] 1 1 1 1 Heap.empty file []).

(** A method call on an object of the heap. *)
Definition on_heap (f : Heap.t → Heap.t) (st : t) : t :=
  with_heap (f (heap st)) st.

End TestingSystem.

(** ** TestingSystemApp: the handlers that change the model *)

Module TestingSystemApp.

Definition toggle_test_status (test_id : Z) (st : TestingSystem.t) : TestingSystem.t :=
  match TestingSystem.find_test_by_id test_id st with
  | Some test =>
      TestingSystem.save_data
        (TestingSystem.on_heap (Heap.update_test test Test.toggle_active) st)
  | None => st
  end.

Definition toggle_question_status (test_id question_id : Z) (st : TestingSystem.t)
    : TestingSystem.t :=
  match TestingSystem.find_test_by_id test_id st with
  | Some test =>
      match Heap.tests (TestingSystem.heap st) !! test
            ≫= Test.find_question question_id with
      | Some _ =>
          TestingSystem.save_data
            (TestingSystem.on_heap
               (Heap.update_test test (Test.toggle_question question_id)) st)
      | None => st
      end
  | None => st
  end.

End TestingSystemApp.

(** ** The properties as the specification words them *)

(** The score recomputation rule, on an attempt [a] whose test is [tst]. *)
Definition score_rule (tst : Test.t) (a : TestAttempt.t) : Prop :=
  TestAttempt.final_score a = sum_Q (dict_values (TestAttempt.scores a))
  ∧ (0 < Test.get_max_score tst →
     TestAttempt.percentage a
     = (TestAttempt.final_score a / inject_Z (Test.get_max_score tst) * 100)%Q)
  ∧ (Test.get_max_score tst ≤ 0 → TestAttempt.percentage a = 0%Q)
  ∧ (TestAttempt.is_passed a = true
     ↔ (inject_Z (Test.passing_score tst) <= TestAttempt.percentage a)%Q).

(** The sum of the points of the active questions, question by question. *)
Fixpoint active_points (qs : list Question.t) : Z :=
  match qs with
  | [] => 0
  | q :: qs' =>
      (if Question.is_active q then Question.max_points q else 0) + active_points qs'
  end.

(** Every reference points to an allocated object: the lists of the registry,
    the references of the attempts and the attempt lists of the students; and
    no list of the registry holds an object twice. *)
Definition well_formed (st : TestingSystem.t) : Prop :=
  let h := TestingSystem.heap st in
  Forall (fun l => (l < length (Heap.students h))%nat) (TestingSystem.students st)
  ∧ Forall (fun l => (l < length (Heap.tests h))%nat) (TestingSystem.tests st)
  ∧ Forall (fun l => (l < length (Heap.attempts h))%nat) (TestingSystem.attempts st)
  ∧ Forall (fun a => (TestAttempt.student a < length (Heap.students h))%nat
                     ∧ (TestAttempt.test a < length (Heap.tests h))%nat)
           (Heap.attempts h)
  ∧ Forall (fun s => Forall (fun l => (l < length (Heap.attempts h))%nat)
                            (Student.test_attempts s))
           (Heap.students h)
  ∧ NoDup (TestingSystem.students st)
  ∧ NoDup (TestingSystem.tests st)
  ∧ NoDup (TestingSystem.attempts st).

#[global] Instance well_formed_dec st : Decision (well_formed st).
Proof. unfold well_formed. apply _. Defined.

(** The snapshot file holds the current state. *)
Definition persisted (st : TestingSystem.t) : Prop :=
  TestingSystem.disk st = Some (json_dump (TestingSystem.snapshot st)).

(** The unweighted arithmetic mean. *)
Definition mean (l : list Q) : Q := (sum_Q l / inject_Z (Z.of_nat (length l)))%Q.

(** The statuses an attempt goes through under a sequence of calls, the
    status before the first call included. *)
Fixpoint statuses (tst : Test.t) (calls : list TestAttempt.call) (a : TestAttempt.t)
    : list TestStatus :=
  match calls with
  | [] => [TestAttempt.status a]
  | c :: calls' =>
      TestAttempt.status a :: statuses tst calls' (TestAttempt.run_call tst c a)
  end.

(** No step of a sequence of statuses leads to an earlier state. *)
Fixpoint never_back (l : list TestStatus) : Prop :=
  match l with
  | s1 :: l' =>
      match l' with
      | s2 :: _ => (status_rank s1 ≤ status_rank s2)%nat ∧ never_back l'
      | [] => True
      end
  | [] => True
  end.

(** The status a call is meant to lead to; [submit_answer] has none. *)
Definition call_target (c : TestAttempt.call) : option TestStatus :=
  match c with
  | TestAttempt.Start _ => Some IN_PROGRESS
  | TestAttempt.SubmitAnswer _ _ => None
  | TestAttempt.Finish _ => Some COMPLETED
  | TestAttempt.Evaluate _ => Some EVALUATED
  end.

(** A sequence of calls made in the order of the life cycle, from an attempt
    in state [current]: no [start] after a [finish] or an [evaluate], no
    [finish] after an [evaluate]. *)
Fixpoint in_life_cycle_order (current : TestStatus) (calls : list TestAttempt.call)
    : Prop :=
  match calls with
  | [] => True
  | c :: calls' =>
      match call_target c with
      | Some s => (status_rank current ≤ status_rank s)%nat
                  ∧ in_life_cycle_order s calls'
      | None => in_life_cycle_order current calls'
      end
  end.

(** The states of the registry a run of the application can reach from its
    first start, when there is no snapshot file. *)
Inductive reachable : TestingSystem.t → Prop :=
  | reach_new name :
      reachable (TestingSystem.new name None)
  | reach_add_student st full_name group email :
      reachable st →
      reachable (TestingSystem.add_student full_name group email st).2
  | reach_add_test st title subject time_limit :
      reachable st →
      reachable (TestingSystem.add_test title subject time_limit st).2
  | reach_add_question st test_id text question_type options correct_answers max_points :
      reachable st →
      reachable (TestingSystem.add_question_to_test test_id text question_type
                   options correct_answers max_points st).2
  | reach_delete_test st test_id :
      reachable st → reachable (TestingSystem.delete_test test_id st).2
  | reach_delete_question st test_id question_id :
      reachable st → reachable (TestingSystem.delete_question test_id question_id st).2
  | reach_toggle_test st test_id :
      reachable st → reachable (TestingSystemApp.toggle_test_status test_id st)
  | reach_toggle_question st test_id question_id :
      reachable st →
      reachable (TestingSystemApp.toggle_question_status test_id question_id st)
  | reach_create_attempt st now student_id test_id :
      reachable st →
      reachable (TestingSystem.create_attempt now student_id test_id st).2
  | reach_call st l c :
      reachable st → l ∈ TestingSystem.attempts st →
      reachable (TestingSystem.on_heap (Heap.run_call l c) st).

(** ** The snapshot file, as the format lays it out

    The document [save_data] is to leave in the file, written down member by
    member: an object with the students, the tests with their questions, the
    attempts with the ids of their student and test, and the four counters. *)

Fixpoint member_of (name : string) (m : list (string * json)) : option json :=
  match m with
  | [] => None
  | (k, v) :: m' => if decide (k = name) then Some v else member_of name m'
  end.

(** The member [name] of a JSON object. *)
Definition json_member (name : string) (j : json) : option json :=
  match j with
  | JObj m => member_of name m
  | _ => None
  end.

Definition student_record (s : Student.t) : json :=
  JObj [
    ("student_id", JInt (Student.student_id s));
    ("full_name", JStr (Student.full_name s));
    ("group", JStr (Student.group s));
    ("email", JStr (Student.email s))
  ].

Definition question_record (q : Question.t) : json :=
  JObj [
    ("question_id", JInt (Question.question_id q));
    ("text", JStr (Question.text q));
    ("question_type", JStr (QuestionType_name (Question.question_type q)));
    ("options", JArr (JStr <$> Question.options q));
    ("correct_answers", JArr (JStr <$> Question.correct_answers q));
    ("max_points", JInt (Question.max_points q));
    ("is_active", JBool (Question.is_active q))
  ].

Definition test_record (x : Test.t) : json :=
  JObj [
    ("test_id", JInt (Test.test_id x));
    ("title", JStr (Test.title x));
    ("subject", JStr (Test.subject x));
    ("time_limit", JInt (Test.time_limit x));
    ("questions", JArr (question_record <$> Test.questions x));
    ("is_active", JBool (Test.is_active x));
    ("passing_score", JInt (Test.passing_score x))
  ].

Definition attempt_record (student_id test_id : Z) (a : TestAttempt.t) : json :=
  JObj [
    ("attempt_id", JInt (TestAttempt.attempt_id a));
    ("student_id", JInt student_id);
    ("test_id", JInt test_id);
    ("start_time", JStr (isoformat (TestAttempt.start_time a)));
    ("end_time", match TestAttempt.end_time a with
                 | Some e => JStr (isoformat e)
                 | None => JNull
                 end);
    ("status", JStr (TestStatus_name (TestAttempt.status a)));
    ("answers", JObj ((fun kv => (key_str kv.1, JArr (JStr <$> kv.2)))
                      <$> TestAttempt.answers a));
    ("scores", JObj ((fun kv => (key_str kv.1, JNum kv.2)) <$> TestAttempt.scores a));
    ("final_score", JNum (TestAttempt.final_score a));
    ("percentage", JNum (TestAttempt.percentage a));
    ("is_passed", JBool (TestAttempt.is_passed a))
  ].

(** The record of the attempt at [l], with the ids its references lead to. *)
Definition attempt_record_at (h : Heap.t) (l : loc) : option json :=
  a ← Heap.attempts h !! l;
  s ← Heap.students h !! TestAttempt.student a;
  x ← Heap.tests h !! TestAttempt.test a;
  Some (attempt_record (Student.student_id s) (Test.test_id x) a).

Definition snapshot_file (st : TestingSystem.t) : json :=
  let h := TestingSystem.heap st in
  JObj [
    ("students",
      JArr (omap (fun l => student_record <$> Heap.students h !! l)
                 (TestingSystem.students st)));
    ("tests",
      JArr (omap (fun l => test_record <$> Heap.tests h !! l)
                 (TestingSystem.tests st)));
    ("attempts", JArr (omap (attempt_record_at h) (TestingSystem.attempts st)));
    ("counters", JObj [
      ("student", JInt (TestingSystem.next_student_id st));
      ("test", JInt (TestingSystem.next_test_id st));
      ("attempt", JInt (TestingSystem.next_attempt_id st));
      ("question", JInt (TestingSystem.next_question_id st))
    ])
  ].

(** The file holds the whole current state. *)
Definition saved (st : TestingSystem.t) : Prop :=
  TestingSystem.disk st = Some (snapshot_file st).

(** ** What every state of a run satisfies *)

(** The questions of all tests that were ever created. *)
Definition all_questions (h : Heap.t) : list Question.t :=
  concat (Test.questions <$> Heap.tests h).

(** Identifiers come from the counters: every identifier handed out is below
    the counter of its kind, and no two objects of a kind share one. *)
Definition ids_in_use (st : TestingSystem.t) : Prop :=
  let h := TestingSystem.heap st in
  Forall (fun s => Student.student_id s < TestingSystem.next_student_id st)
         (Heap.students h)
  ∧ NoDup (Student.student_id <$> Heap.students h)
  ∧ Forall (fun x => Test.test_id x < TestingSystem.next_test_id st) (Heap.tests h)
  ∧ NoDup (Test.test_id <$> Heap.tests h)
  ∧ Forall (fun a => TestAttempt.attempt_id a < TestingSystem.next_attempt_id st)
           (Heap.attempts h)
  ∧ NoDup (TestAttempt.attempt_id <$> Heap.attempts h)
  ∧ Forall (fun q => Question.question_id q < TestingSystem.next_question_id st)
           (all_questions h)
  ∧ NoDup (Question.question_id <$> all_questions h).

(** The attempt list of a student holds the attempts of the registry that
    refer to that student, in the order of the registry. *)
Definition back_linked (st : TestingSystem.t) : Prop :=
  ∀ s so,
    Heap.students (TestingSystem.heap st) !! s = Some so →
    Student.test_attempts so
    = filter (fun a => TestAttempt.student
                       <$> Heap.attempts (TestingSystem.heap st) !! a = Some s)
             (TestingSystem.attempts st).

(** The student and the test of every attempt of the registry are in the
    lists of the registry. *)
Definition registered (st : TestingSystem.t) : Prop :=
  ∀ a ao,
    a ∈ TestingSystem.attempts st →
    Heap.attempts (TestingSystem.heap st) !! a = Some ao →
    TestAttempt.student ao ∈ TestingSystem.students st
    ∧ TestAttempt.test ao ∈ TestingSystem.tests st.

(** No student has more than three attempts on a test. *)
Definition capped (st : TestingSystem.t) : Prop :=
  ∀ student_id test_id,
    (length (TestingSystem.attempts_of_student_on_test student_id test_id st) ≤ 3)%nat.

(** Nothing was ever removed from the heap: the registry lists every student
    and every attempt that was created, in the order of creation. *)
Definition all_listed (st : TestingSystem.t) : Prop :=
  TestingSystem.students st = seq 0 (length (Heap.students (TestingSystem.heap st)))
  ∧ TestingSystem.attempts st = seq 0 (length (Heap.attempts (TestingSystem.heap st))).

(** All of it together. *)
Definition run_invariant (st : TestingSystem.t) : Prop :=
  well_formed st ∧ ids_in_use st ∧ back_linked st ∧ registered st
  ∧ capped st ∧ all_listed st.

(** ** Scores and the points of the questions *)

(** The entries of a dictionary of scores belong to distinct questions of the
    list, each with a score between 0 and the points of its question. *)
Definition scored_by (qs : list Question.t) (d : dict Q) : Prop :=
  NoDup d.*1
  ∧ Forall (fun kv => ∃ q, q ∈ qs ∧ kv.1 = KInt (Question.question_id q)
                          ∧ (0 <= kv.2)%Q
                          ∧ (kv.2 <= inject_Z (Question.max_points q))%Q) d.

(** The attempt after a sequence of method calls, the test staying as it is. *)
Definition run_calls (tst : Test.t) (calls : list TestAttempt.call)
    (a : TestAttempt.t) : TestAttempt.t :=
  fold_left (fun a c => TestAttempt.run_call tst c a) calls a.

(** A call that brings no score from outside: every call but an evaluation
    with manual scores. *)
Definition automatic (c : TestAttempt.call) : Prop :=
  match c with
  | TestAttempt.Evaluate (Some (_ :: _)) => False
  | _ => True
  end.

(** ** Runs of the program used as examples

    [demo] is the registry the application starts with when there is no
    snapshot file: the sample data of [create_sample_data]. *)

Definition demo : TestingSystem.t := TestingSystem.new "Учебный портал" None.

(** Student 1 opens an attempt on test 1 (mathematics), starts it and answers
    the first two questions correctly. *)
Definition demo_answered : TestingSystem.t :=
  let st := (TestingSystem.create_attempt 1000 1 1 demo).2 in
  let st := TestingSystem.on_heap (Heap.start_attempt 2000 0%nat) st in
  let st := TestingSystem.on_heap (Heap.submit_answer 0%nat 1 ["6"]) st in
  TestingSystem.on_heap (Heap.submit_answer 0%nat 2 ["7"; "2"; "11"]) st.

Definition demo_attempt : TestAttempt.t :=
  default (TestAttempt.new 0 0 0%nat 0%nat)
          (Heap.attempts (TestingSystem.heap demo_answered) !! 0%nat).

Definition demo_test : Test.t :=
  default (Test.new 0 "" "" 0)
          (Heap.tests (TestingSystem.heap demo_answered) !! 0%nat).

(** The same run after the second and the third question of the test were
    deactivated: the maximum score of the test is then 1. *)
Definition demo_deactivated : TestingSystem.t :=
  let st := TestingSystemApp.toggle_question_status 1 2 demo in
  let st := TestingSystemApp.toggle_question_status 1 3 st in
  let st := (TestingSystem.create_attempt 1000 1 1 st).2 in
  let st := TestingSystem.on_heap (Heap.run_call 0%nat (TestAttempt.Start 2000)) st in
  let st := TestingSystem.on_heap
              (Heap.run_call 0%nat (TestAttempt.SubmitAnswer 1 ["6"])) st in
  TestingSystem.on_heap
    (Heap.run_call 0%nat (TestAttempt.SubmitAnswer 2 ["7"; "2"; "11"])) st.

(** Two evaluated attempts on test 1 and an attempt that is only finished. *)
Definition demo_evaluated : TestingSystem.t :=
  let st := TestingSystem.on_heap (Heap.finish_attempt 62000000 0%nat) demo_answered in
  let st := TestingSystem.on_heap (Heap.evaluate_attempt 0%nat (Some [(KInt 3, 3%Q)])) st in
  let st := (TestingSystem.create_attempt 70000000 2 1 st).2 in
  let st := TestingSystem.on_heap (Heap.start_attempt 70000000 1%nat) st in
  let st := TestingSystem.on_heap (Heap.submit_answer 1%nat 1 ["8"]) st in
  let st := TestingSystem.on_heap (Heap.finish_attempt 250000000 1%nat) st in
  let st := TestingSystem.on_heap (Heap.evaluate_attempt 1%nat None) st in
  let st := (TestingSystem.create_attempt 300000000 3 1 st).2 in
  TestingSystem.on_heap (Heap.finish_attempt 400000000 2%nat) st.

Definition q_sum : Question.t :=
  Question.new 1 "Чему равно 2 + 2 × 2?" SINGLE_CHOICE
    (Some ["6"; "8"; "10"]) (Some ["6"]) 1.

Definition q_primes : Question.t :=
  Question.new 2 "Какие из перечисленных чисел являются простыми?" MULTIPLE_CHOICE
    (Some ["2"; "4"; "7"; "9"; "11"]) (Some ["2"; "7"; "11"]) 1.

(** A test with two active questions worth 6 and 3 points. *)
Definition test_6_3 : Test.t :=
  Test.add_question (Question.new 2 "b" TEXT_ANSWER None None 3)
    (Test.add_question (Question.new 1 "a" TEXT_ANSWER None None 6)
       (Test.new 1 "t" "s" 60)).

(** * Lemmas on the containers *)

Section Containers.
Context {V : Type}.
Implicit Types (d : dict V) (k : key) (v : V).

Lemma dict_get_set_eq d k v : dict_get k (dict_set k v d) = Some v.
Proof.
  induction d as [|[k' v'] d IH]; simpl.
  - by rewrite decide_True.
  - destruct (decide (k = k')) as [->|Hne]; simpl.
    + by rewrite decide_True.
    + by rewrite decide_False.
Qed.

Lemma dict_get_set_ne d k k' v :
  k ≠ k' → dict_get k' (dict_set k v d) = dict_get k' d.
Proof.
  intros Hne. induction d as [|[k0 v0] d IH]; simpl.
  - by rewrite decide_False.
  - destruct (decide (k = k0)) as [->|Hk]; simpl.
    + by rewrite !decide_False.
    + destruct (decide (k' = k0)); [done | apply IH].
Qed.

Lemma dict_update_nil d : dict_update d [] = d.
Proof. reflexivity. Qed.
End Containers.

Lemma sum_Z_from (l : list Z) (z : Z) : fold_left Z.add l z = z + sum_Z l.
Proof.
  unfold sum_Z. revert z. induction l as [|x l IH]; intros z; simpl.
  - lia.
  - rewrite (IH (z + x)), (IH (0 + x)). lia.
Qed.

Lemma sum_Z_cons (x : Z) (l : list Z) : sum_Z (x :: l) = x + sum_Z l.
Proof. unfold sum_Z at 1. simpl. apply sum_Z_from. Qed.

(** * Lemmas on method calls through the heap *)

Section HeapCalls.
Variables (h : Heap.t) (l : loc) (a : TestAttempt.t) (tst : Test.t).
Hypothesis Hattempt : Heap.attempts h !! l = Some a.
Hypothesis Htest : Heap.tests h !! TestAttempt.test a = Some tst.

Lemma call_attempt_result m :
  Heap.attempts (Heap.call_attempt l m h) !! l = Some (m tst a).
Proof.
  unfold Heap.call_attempt. rewrite Hattempt, Htest. simpl.
  apply list_lookup_insert_eq. by eapply lookup_lt_Some.
Qed.

Lemma call_attempt_other m l' :
  l ≠ l' → Heap.attempts (Heap.call_attempt l m h) !! l' = Heap.attempts h !! l'.
Proof.
  intros Hne. unfold Heap.call_attempt. rewrite Hattempt, Htest. simpl.
  by apply list_lookup_insert_ne.
Qed.
End HeapCalls.

Lemma call_attempt_tests h l m :
  Heap.tests (Heap.call_attempt l m h) = Heap.tests h.
Proof. unfold Heap.call_attempt. by repeat case_match. Qed.

Lemma call_attempt_students h l m :
  Heap.students (Heap.call_attempt l m h) = Heap.students h.
Proof. unfold Heap.call_attempt. by repeat case_match. Qed.

Lemma calculate_score_rule tst a : score_rule tst (TestAttempt.calculate_score tst a).
Proof.
  unfold score_rule, TestAttempt.calculate_score. simpl.
  split; [done|]. split; [|split].
  - intros Hpos. by rewrite bool_decide_eq_true_2.
  - intros Hle. rewrite bool_decide_eq_false_2; [done | lia].
  - apply Qle_bool_iff.
Qed.

Lemma calculate_score_scores tst a :
  TestAttempt.scores (TestAttempt.calculate_score tst a) = TestAttempt.scores a.
Proof. reflexivity. Qed.

(** * Scoring *)

(** C1. [finish_attempt] and [evaluate_attempt] both end in the same
    recomputation: the final score is the sum of the recorded scores (after
    the manual scores, if any, were merged), the percentage is the final score
    over the current maximum score of the test times 100 when that maximum is
    positive and 0 otherwise, and the attempt is passed exactly when the
    percentage reaches the passing score of the test. *)
Theorem finish_evaluate_recompute (h : Heap.t) (l : loc) (a : TestAttempt.t)
    (tst : Test.t) (now : datetime) (manual_scores : option (dict Q)) :
  Heap.attempts h !! l = Some a →
  Heap.tests h !! TestAttempt.test a = Some tst →
  (∃ a', Heap.attempts (Heap.finish_attempt now l h) !! l = Some a'
         ∧ TestAttempt.scores a' = TestAttempt.scores a
         ∧ score_rule tst a'
         ∧ (Test.get_max_score tst = 0 → TestAttempt.percentage a' = 0%Q))
  ∧ (∃ a', Heap.attempts (Heap.evaluate_attempt l manual_scores h) !! l = Some a'
           ∧ TestAttempt.scores a'
             = dict_update (TestAttempt.scores a) (default [] manual_scores)
           ∧ score_rule tst a'
           ∧ (Test.get_max_score tst = 0 → TestAttempt.percentage a' = 0%Q)).
Proof.
  intros Ha Ht. split.
  - eexists. split; [by eapply call_attempt_result|].
    split; [done|]. split; [apply calculate_score_rule|].
    intros H0. apply calculate_score_rule. lia.
  - eexists. split; [by eapply call_attempt_result|].
    split; [|split; [apply calculate_score_rule|]].
    + unfold TestAttempt.evaluate_attempt. rewrite calculate_score_scores.
      by destruct manual_scores as [[|kv m]|].
    + intros H0. apply calculate_score_rule. lia.
Qed.

Lemma finish_evaluate_recompute_witness :
  (∃ a', Heap.attempts (Heap.finish_attempt 3000 0%nat (TestingSystem.heap demo_answered))
           !! 0%nat = Some a'
         ∧ TestAttempt.scores a' = TestAttempt.scores demo_attempt
         ∧ score_rule demo_test a'
         ∧ (Test.get_max_score demo_test = 0 → TestAttempt.percentage a' = 0%Q))
  ∧ (∃ a', Heap.attempts
             (Heap.evaluate_attempt 0%nat (Some [(KInt 3, 3%Q)])
                (TestingSystem.heap demo_answered)) !! 0%nat = Some a'
           ∧ TestAttempt.scores a'
             = dict_update (TestAttempt.scores demo_attempt)
                 (default [] (Some [(KInt 3, 3%Q)]))
           ∧ score_rule demo_test a'
           ∧ (Test.get_max_score demo_test = 0 → TestAttempt.percentage a' = 0%Q)).
Proof.
  apply (finish_evaluate_recompute (TestingSystem.heap demo_answered) 0%nat
           demo_attempt demo_test 3000 (Some [(KInt 3, 3%Q)])).
  - vm_compute. reflexivity.
  - vm_compute. reflexivity.
Defined.

(** The scenario of the specification: a maximum of 9 and a passing score
    of 60; 6 points are 66.7 % and pass, 5 points are 55.6 % and fail. *)
Example percentage_of_6_and_5_out_of_9 :
  let a := TestAttempt.new 0 1 0%nat 0%nat in
  let six := TestAttempt.evaluate_attempt test_6_3 (Some [(KInt 1, 6%Q)]) a in
  let five := TestAttempt.evaluate_attempt test_6_3 (Some [(KInt 1, 5%Q)]) a in
  Test.get_max_score test_6_3 = 9
  ∧ (TestAttempt.percentage six == 200 # 3)%Q ∧ TestAttempt.is_passed six = true
  ∧ (TestAttempt.percentage five == 500 # 9)%Q ∧ TestAttempt.is_passed five = false.
Proof. vm_compute. by repeat split. Qed.

(** * Answer checking *)

(** C2. A multiple-choice question accepts a submission exactly when the
    submitted values and the correct answers are the same set: every
    submitted value is correct and every correct value is submitted, in any
    order and any multiplicity. *)
Theorem check_answer_multiple_choice (q : Question.t) (user_answers : list string) :
  Question.question_type q = MULTIPLE_CHOICE →
  Question.check_answer q user_answers = true
  ↔ (∀ x, x ∈ user_answers ↔ x ∈ Question.correct_answers q).
Proof.
  intros Hty. unfold Question.check_answer. rewrite Hty.
  rewrite bool_decide_eq_true. split.
  - intros Heq x. rewrite <- !(elem_of_list_to_set (C := gset string)).
    by rewrite Heq.
  - intros Hmem. apply set_eq. intros x.
    rewrite !elem_of_list_to_set. apply Hmem.
Qed.

Lemma check_answer_multiple_choice_witness :
  Question.check_answer q_primes ["7"; "2"; "11"; "7"] = true
  ↔ (∀ x, x ∈ ["7"; "2"; "11"; "7"] ↔ x ∈ Question.correct_answers q_primes).
Proof.
  apply (check_answer_multiple_choice q_primes ["7"; "2"; "11"; "7"]).
  reflexivity.
Defined.

(** The scenario of the specification for a multiple-choice question, and
    the cases that earn nothing: a strict subset and a strict superset. *)
Example check_answer_primes :
  Question.check_answer q_primes ["7"; "2"; "11"] = true
  ∧ Question.check_answer q_primes ["2"; "7"] = false
  ∧ Question.check_answer q_primes ["2"; "7"; "11"; "4"] = false.
Proof. by vm_compute. Qed.

(** C3. A single-choice question accepts a submission exactly when it is
    not empty and its first value is one of the correct answers; an empty
    submission is rejected.  Hence [submit_answer] on such a question records
    its full [max_points] for a correct option and 0 for a wrong one. *)
Theorem check_answer_single_choice (q : Question.t) (h : Heap.t) (l : loc)
    (a : TestAttempt.t) (tst : Test.t) (question_id : Z) (x : string) :
  Question.question_type q = SINGLE_CHOICE →
  Heap.attempts h !! l = Some a →
  Heap.tests h !! TestAttempt.test a = Some tst →
  Test.find_question question_id tst = Some q →
  (∀ user_answers,
     Question.check_answer q user_answers = true
     ↔ ∃ first rest, user_answers = first :: rest
                     ∧ first ∈ Question.correct_answers q)
  ∧ Question.check_answer q [] = false
  ∧ ∃ a', Heap.attempts (Heap.submit_answer l question_id [x] h) !! l = Some a'
          ∧ dict_get (KInt question_id) (TestAttempt.scores a')
            = Some (if bool_decide (x ∈ Question.correct_answers q)
                    then inject_Z (Question.max_points q) else 0%Q).
Proof.
  intros Hty Ha Ht Hq. split; [|split].
  - intros ua. unfold Question.check_answer. rewrite Hty.
    destruct ua as [|first rest].
    + split; [done | by intros (? & ? & ? & _)].
    + rewrite bool_decide_eq_true. split.
      * intros Hin. by exists first, rest.
      * intros (f & r & Heq & Hin). by simplify_eq.
  - unfold Question.check_answer. by rewrite Hty.
  - eexists. split; [by eapply call_attempt_result|].
    unfold TestAttempt.submit_answer. rewrite Hq, Hty.
    unfold Question.check_answer. rewrite Hty.
    case_bool_decide; simpl; apply dict_get_set_eq.
Qed.

Lemma check_answer_single_choice_witness :
  let h := TestingSystem.heap (TestingSystem.create_attempt 1000 1 1 demo).2 in
  (∀ user_answers,
     Question.check_answer q_sum user_answers = true
     ↔ ∃ first rest, user_answers = first :: rest
                     ∧ first ∈ Question.correct_answers q_sum)
  ∧ Question.check_answer q_sum [] = false
  ∧ ∃ a', Heap.attempts (Heap.submit_answer 0%nat 1 ["6"] h) !! 0%nat = Some a'
          ∧ dict_get (KInt 1) (TestAttempt.scores a')
            = Some (if bool_decide ("6" ∈ Question.correct_answers q_sum)
                    then inject_Z (Question.max_points q_sum) else 0%Q).
Proof.
  apply (check_answer_single_choice q_sum
           (TestingSystem.heap (TestingSystem.create_attempt 1000 1 1 demo).2)
           0%nat (TestAttempt.new 1000 1 0%nat 0%nat) demo_test 1 "6").
  - reflexivity.
  - vm_compute. reflexivity.
  - vm_compute. reflexivity.
  - vm_compute. reflexivity.
Defined.

(** The scenario of the specification: options 6, 8, 10 with 6 correct. *)
Example submit_answer_sum :
  let h := TestingSystem.heap (TestingSystem.create_attempt 1000 1 1 demo).2 in
  (TestAttempt.scores <$> Heap.attempts (Heap.submit_answer 0%nat 1 ["6"] h) !! 0%nat)
  = Some [(KInt 1, 1%Q)]
  ∧ (TestAttempt.scores <$> Heap.attempts (Heap.submit_answer 0%nat 1 ["8"] h) !! 0%nat)
    = Some [(KInt 1, 0%Q)].
Proof. by vm_compute. Qed.

(** * The registry: lookups and the invariant *)

Lemma filter_ext_in {A} (P1 P2 : A → Prop) `{!∀ x, Decision (P1 x)}
    `{!∀ x, Decision (P2 x)} (l : list A) :
  (∀ x, x ∈ l → P1 x ↔ P2 x) → filter P1 l = filter P2 l.
Proof.
  induction l as [|x l IH]; intros Hext; [done|].
  rewrite !filter_cons.
  rewrite IH by (intros y Hy; apply Hext; by right).
  destruct (decide (P1 x)) as [H1|H1], (decide (P2 x)) as [H2|H2]; try done.
  - destruct H2. apply Hext; [left | done].
  - destruct H1. apply Hext; [left | done].
Qed.


Lemma find_student_by_id_Some sid st s :
  TestingSystem.find_student_by_id sid st = Some s →
  s ∈ TestingSystem.students st
  ∧ ∃ so, Heap.students (TestingSystem.heap st) !! s = Some so
          ∧ Student.student_id so = sid.
Proof.
  intros Hf. apply head_Some_elem_of, list_elem_of_filter in Hf as [Hid Hin].
  split; [done|].
  destruct (Heap.students (TestingSystem.heap st) !! s) as [so|]; simplify_eq/=.
  eauto.
Qed.

Lemma find_test_by_id_Some tid st x :
  TestingSystem.find_test_by_id tid st = Some x →
  x ∈ TestingSystem.tests st
  ∧ ∃ xo, Heap.tests (TestingSystem.heap st) !! x = Some xo
          ∧ Test.test_id xo = tid.
Proof.
  intros Hf. apply head_Some_elem_of, list_elem_of_filter in Hf as [Hid Hin].
  split; [done|].
  destruct (Heap.tests (TestingSystem.heap st) !! x) as [xo|]; simplify_eq/=.
  eauto.
Qed.

Lemma student_id_alter_add_attempt (ss : list Student.t) (s j : loc) (l : loc) :
  Student.student_id <$> alter (Student.add_attempt l) s ss !! j
  = Student.student_id <$> ss !! j.
Proof.
  rewrite list_lookup_alter. case_decide; [subst|done].
  by destruct (ss !! j).
Qed.

(** The state [create_attempt] reaches when it accepts the request. *)
Section CreateAttempt.
Variables (now : datetime) (sid tid : Z) (st : TestingSystem.t) (s x : loc).
Hypothesis Hwf : well_formed st.
Hypothesis Hstudent : TestingSystem.find_student_by_id sid st = Some s.
Hypothesis Htest : TestingSystem.find_test_by_id tid st = Some x.

Let n := length (TestingSystem.attempts_of_student_on_test sid tid st).
Let l : loc := length (Heap.attempts (TestingSystem.heap st)).
Let st' := (TestingSystem.create_attempt now sid tid st).2.

Lemma create_attempt_refused :
  (3 ≤ n)%nat →
  TestingSystem.create_attempt now sid tid st
  = (None, TestingSystem.showwarning WarnAttemptLimit st).
Proof.
  intros Hn. unfold TestingSystem.create_attempt. rewrite Hstudent, Htest.
  by rewrite bool_decide_eq_true_2.
Qed.

Hypothesis Hn : (n < 3)%nat.

Lemma create_attempt_accepted :
  TestingSystem.create_attempt now sid tid st = (Some l, st').
Proof.
  unfold st'. unfold TestingSystem.create_attempt. rewrite Hstudent, Htest.
  rewrite bool_decide_eq_false_2 by (fold n; lia). reflexivity.
Qed.

Lemma create_attempt_fields :
  TestingSystem.attempts st' = TestingSystem.attempts st ++ [l]
  ∧ TestingSystem.students st' = TestingSystem.students st
  ∧ TestingSystem.tests st' = TestingSystem.tests st
  ∧ TestingSystem.next_attempt_id st' = TestingSystem.next_attempt_id st + 1
  ∧ Heap.attempts (TestingSystem.heap st')
    = Heap.attempts (TestingSystem.heap st)
      ++ [TestAttempt.new now (TestingSystem.next_attempt_id st) s x]
  ∧ Heap.students (TestingSystem.heap st')
    = alter (Student.add_attempt l) s (Heap.students (TestingSystem.heap st))
  ∧ Heap.tests (TestingSystem.heap st') = Heap.tests (TestingSystem.heap st)
  ∧ persisted st'.
Proof.
  unfold st'. unfold TestingSystem.create_attempt. rewrite Hstudent, Htest.
  rewrite bool_decide_eq_false_2 by (fold n; lia). simpl.
  repeat split; reflexivity.
Qed.

Lemma create_attempt_old_ids a :
  (a < l)%nat →
  Heap.attempt_student_id (TestingSystem.heap st') a
  = Heap.attempt_student_id (TestingSystem.heap st) a
  ∧ Heap.attempt_test_id (TestingSystem.heap st') a
    = Heap.attempt_test_id (TestingSystem.heap st) a.
Proof.
  intros Ha. destruct create_attempt_fields as (_ & _ & _ & _ & Hha & Hhs & Hht & _).
  unfold Heap.attempt_student_id, Heap.attempt_test_id.
  rewrite Hha, Hhs, Hht, lookup_app_l by done.
  destruct (Heap.attempts (TestingSystem.heap st) !! a) as [ao|]; simpl; [|done].
  split; [|done].
  apply student_id_alter_add_attempt.
Qed.

Lemma create_attempt_new_ids :
  Heap.attempt_student_id (TestingSystem.heap st') l = Some sid
  ∧ Heap.attempt_test_id (TestingSystem.heap st') l = Some tid.
Proof.
  destruct create_attempt_fields as (_ & _ & _ & _ & Hha & Hhs & Hht & _).
  apply find_student_by_id_Some in Hstudent as (_ & so & Hso & Hsid).
  apply find_test_by_id_Some in Htest as (_ & xo & Hxo & Htid).
  unfold Heap.attempt_student_id, Heap.attempt_test_id.
  rewrite Hha, Hhs, Hht. unfold l. rewrite list_lookup_middle by done. simpl.
  rewrite list_lookup_alter_eq, Hso, Hxo. simpl. by subst.
Qed.

Lemma create_attempt_count :
  length (TestingSystem.attempts_of_student_on_test sid tid st') = S n.
Proof.
  destruct Hwf as (_ & _ & Hwa & _).
  destruct create_attempt_fields as (Hat & _).
  destruct create_attempt_new_ids as [Hns Hnt].
  unfold TestingSystem.attempts_of_student_on_test. rewrite Hat, filter_app.
  rewrite filter_cons_True, filter_nil by done.
  rewrite length_app. simpl. unfold n.
  unfold TestingSystem.attempts_of_student_on_test.
  rewrite (filter_ext_in _
             (λ a, Heap.attempt_student_id (TestingSystem.heap st) a = Some sid
                   ∧ Heap.attempt_test_id (TestingSystem.heap st) a = Some tid)).
  - lia.
  - intros a Ha. rewrite Forall_forall in Hwa.
    destruct (create_attempt_old_ids a (Hwa a Ha)) as [-> ->]. done.
Qed.

Lemma create_attempt_finds :
  TestingSystem.find_student_by_id sid st' = Some s
  ∧ TestingSystem.find_test_by_id tid st' = Some x.
Proof.
  destruct create_attempt_fields as (_ & Hss & Hts & _ & _ & Hhs & Hht & _).
  split.
  - rewrite <- Hstudent. unfold TestingSystem.find_student_by_id.
    rewrite Hss, Hhs. f_equal. apply list_filter_iff. intros j.
    by rewrite student_id_alter_add_attempt.
  - rewrite <- Htest. unfold TestingSystem.find_test_by_id. by rewrite Hts, Hht.
Qed.

Lemma create_attempt_well_formed : well_formed st'.
Proof.
  destruct Hwf as (Hws & Hwt & Hwa & Hwr & Hwsr & Hns & Hnt & Hna).
  destruct create_attempt_fields as (Hat & Hss & Hts & _ & Hha & Hhs & Hht & _).
  apply find_student_by_id_Some in Hstudent as (_ & so & Hso & _).
  apply find_test_by_id_Some in Htest as (_ & xo & Hxo & _).
  apply lookup_lt_Some in Hso, Hxo.
  unfold well_formed. simpl.
  rewrite Hat, Hss, Hts, Hha, Hhs, Hht, length_alter, length_app. simpl.
  split_and!; try done.
  - apply Forall_app. split.
    + eapply Forall_impl; [done|]. simpl. lia.
    + apply Forall_singleton. lia.
  - apply Forall_app. split; [done|]. by apply Forall_singleton.
  - apply Forall_alter.
    + eapply Forall_impl; [done|]. intros so' Hso'. simpl in *.
      eapply Forall_impl; [done|]. simpl. lia.
    + intros so' Hso' Hold. simpl. apply Forall_app. split; [done|].
      apply Forall_singleton. lia.
  - apply NoDup_app. split_and!; [done| |apply NoDup_singleton].
    intros a Ha Hal. apply list_elem_of_singleton in Hal. subst a.
    rewrite Forall_forall in Hwa. specialize (Hwa _ Ha). unfold l in Hwa. lia.
Qed.
End CreateAttempt.

Lemma create_attempt_step now sid tid st s x k :
  well_formed st →
  TestingSystem.find_student_by_id sid st = Some s →
  TestingSystem.find_test_by_id tid st = Some x →
  length (TestingSystem.attempts_of_student_on_test sid tid st) = k →
  (k < 3)%nat →
  let r := TestingSystem.create_attempt now sid tid st in
  is_Some r.1
  ∧ well_formed r.2
  ∧ TestingSystem.find_student_by_id sid r.2 = Some s
  ∧ TestingSystem.find_test_by_id tid r.2 = Some x
  ∧ length (TestingSystem.attempts_of_student_on_test sid tid r.2) = S k.
Proof.
  intros Hwf Hs Hx Hk Hlt r. subst k.
  pose proof (create_attempt_accepted now sid tid st s x Hs Hx Hlt) as Hacc.
  pose proof (create_attempt_finds now sid tid st s x Hs Hx Hlt) as [Hs' Hx'].
  pose proof (create_attempt_well_formed now sid tid st s x Hwf Hs Hx Hlt) as Hwf'.
  pose proof (create_attempt_count now sid tid st s x Hwf Hs Hx Hlt) as Hcount.
  subst r. split_and!; try done. rewrite Hacc. simpl. eauto.
Qed.

(** * What [save_data] writes *)

Lemma json_dump_strs (l : list string) :
  map json_dump (PStr <$> l) = JStr <$> l.
Proof. induction l as [|s l IH]; [done|]. rewrite !fmap_cons. simpl. by f_equal. Qed.

Lemma json_dump_student (s : Student.t) :
  json_dump (Student.to_dict s) = student_record s.
Proof. reflexivity. Qed.

Lemma json_dump_question (q : Question.t) :
  json_dump (Question.to_dict q) = question_record q.
Proof.
  unfold Question.to_dict, question_record, str_dict.
  cbn [map json_dump key_str fst snd]. by rewrite !json_dump_strs.
Qed.

Lemma json_dump_questions (qs : list Question.t) :
  map json_dump (Question.to_dict <$> qs) = question_record <$> qs.
Proof.
  induction qs as [|q qs IH]; [done|]. rewrite !fmap_cons.
  change (json_dump (Question.to_dict q) :: map json_dump (Question.to_dict <$> qs)
          = question_record q :: (question_record <$> qs)).
  by rewrite json_dump_question, IH.
Qed.

Lemma json_dump_test (x : Test.t) :
  json_dump (Test.to_dict x) = test_record x.
Proof.
  unfold Test.to_dict, test_record, str_dict.
  cbn [map json_dump key_str fst snd]. by rewrite json_dump_questions.
Qed.

Lemma json_dump_answers (d : dict (list string)) :
  map (λ kv : key * pyval, match kv with (k, x) => (key_str k, json_dump x) end)
      (prod_map id (λ l, PList (PStr <$> l)) <$> d)
  = (λ kv, (key_str kv.1, JArr (JStr <$> kv.2))) <$> d.
Proof.
  induction d as [|[k l] d IH]; [done|]. simpl. f_equal; [|apply IH].
  do 2 f_equal. apply json_dump_strs.
Qed.

Lemma json_dump_scores (d : dict Q) :
  map (λ kv : key * pyval, match kv with (k, x) => (key_str k, json_dump x) end)
      (prod_map id PNum <$> d)
  = (λ kv, (key_str kv.1, JNum kv.2)) <$> d.
Proof.
  induction d as [|[k q] d IH]; [done|]. simpl. f_equal. apply IH.
Qed.

Lemma json_dump_attempt (s : Student.t) (x : Test.t) (a : TestAttempt.t) :
  json_dump (TestAttempt.to_dict s x a)
  = attempt_record (Student.student_id s) (Test.test_id x) a.
Proof.
  unfold TestAttempt.to_dict, attempt_record, str_dict.
  cbn [map json_dump key_str fst snd].
  rewrite json_dump_answers, json_dump_scores. by destruct (TestAttempt.end_time a).
Qed.

Lemma map_omap_dump {A} (f : A → option pyval) (g : A → option json) (l : list A) :
  (∀ a, json_dump <$> f a = g a) → map json_dump (omap f l) = omap g l.
Proof.
  intros Hfg. induction l as [|a l IH]; [done|]. simpl.
  rewrite <- Hfg. destruct (f a); simpl; [f_equal|]; apply IH.
Qed.

(** The document [save_data] computes is the one the format lays out. *)
Lemma json_dump_snapshot (st : TestingSystem.t) :
  json_dump (TestingSystem.snapshot st) = snapshot_file st.
Proof.
  unfold TestingSystem.snapshot, snapshot_file, str_dict.
  cbn [map json_dump key_str fst snd]. repeat f_equal.
  - apply map_omap_dump. intros l.
    by destruct (Heap.students (TestingSystem.heap st) !! l).
  - apply map_omap_dump. intros l.
    destruct (Heap.tests (TestingSystem.heap st) !! l) as [x|]; [|done].
    exact (f_equal Some (json_dump_test x)).
  - apply map_omap_dump. intros l.
    unfold Heap.attempt_to_dict, attempt_record_at.
    destruct (Heap.attempts (TestingSystem.heap st) !! l) as [a|]; [|done].
    cbn [mbind option_bind].
    destruct (Heap.students (TestingSystem.heap st) !! _) as [s|]; [|done].
    cbn [mbind option_bind].
    destruct (Heap.tests (TestingSystem.heap st) !! _) as [x|]; [|done].
    exact (f_equal Some (json_dump_attempt s x a)).
Qed.

Lemma persisted_saved (st : TestingSystem.t) : persisted st → saved st.
Proof. unfold persisted, saved. intros ->. by rewrite json_dump_snapshot. Qed.

Lemma save_data_saved (st : TestingSystem.t) : saved (TestingSystem.save_data st).
Proof. by apply persisted_saved. Qed.

Lemma snapshot_file_members (st : TestingSystem.t) :
  json_member "students" (snapshot_file st)
  = Some (JArr (omap (λ l, student_record <$> Heap.students (TestingSystem.heap st) !! l)
                     (TestingSystem.students st)))
  ∧ json_member "tests" (snapshot_file st)
    = Some (JArr (omap (λ l, test_record <$> Heap.tests (TestingSystem.heap st) !! l)
                       (TestingSystem.tests st)))
  ∧ json_member "attempts" (snapshot_file st)
    = Some (JArr (omap (attempt_record_at (TestingSystem.heap st))
                       (TestingSystem.attempts st)))
  ∧ json_member "counters" (snapshot_file st)
    = Some (JObj [
        ("student", JInt (TestingSystem.next_student_id st));
        ("test", JInt (TestingSystem.next_test_id st));
        ("attempt", JInt (TestingSystem.next_attempt_id st));
        ("question", JInt (TestingSystem.next_question_id st))
      ]).
Proof. by split_and!. Qed.

Lemma create_attempt_old_records now sid tid st s x a :
  TestingSystem.find_student_by_id sid st = Some s →
  TestingSystem.find_test_by_id tid st = Some x →
  (length (TestingSystem.attempts_of_student_on_test sid tid st) < 3)%nat →
  (a < length (Heap.attempts (TestingSystem.heap st)))%nat →
  attempt_record_at (TestingSystem.heap (TestingSystem.create_attempt now sid tid st).2) a
  = attempt_record_at (TestingSystem.heap st) a.
Proof.
  intros Hs Hx Hn Ha.
  destruct (create_attempt_fields now sid tid st s x Hs Hx Hn)
    as (_ & _ & _ & _ & Hha & Hhs & Hht & _).
  unfold attempt_record_at. rewrite Hha, Hhs, Hht, lookup_app_l by done.
  destruct (Heap.attempts (TestingSystem.heap st) !! a) as [ao|]; [|done].
  cbn [mbind option_bind]. rewrite list_lookup_alter.
  case_decide as Heq; [|done]. rewrite <- Heq.
  by destruct (Heap.students (TestingSystem.heap st) !! s).
Qed.

(** * Attempt creation and test deletion *)



Lemma list_remove_length (x : loc) (l : list loc) :
  x ∈ l → S (length (TestingSystem.list_remove x l)) = length l.
Proof.
  induction l as [|y l IH]; intros Hin; [by apply elem_of_nil in Hin|].
  simpl. case_decide; [done|]. simpl. f_equal. apply IH.
  apply elem_of_cons in Hin as [?|?]; [congruence | done].
Qed.

Lemma list_remove_subset (x y : loc) (l : list loc) :
  y ∈ TestingSystem.list_remove x l → y ∈ l.
Proof.
  induction l as [|z l IH]; simpl; [done|].
  case_decide; intros Hy; [by right|].
  apply elem_of_cons in Hy as [->|Hy]; [left | right; by apply IH].
Qed.

Lemma list_remove_NoDup (x : loc) (l : list loc) :
  NoDup l → x ∉ TestingSystem.list_remove x l.
Proof.
  induction 1 as [|y l Hy Hl IH]; simpl; [apply not_elem_of_nil|].
  case_decide; [by subst|]. rewrite not_elem_of_cons. split; [congruence | done].
Qed.

(** C5. [delete_test] refuses, and leaves the tests of the registry, the
    heap and the file as they are, as soon as one attempt of the registry
    refers to a test with the given id, whatever the status of that attempt.
    When there is no such attempt and the id resolves, the test is taken out
    of the list, and the file then holds the whole new state: the students,
    the attempts and the counters as they were and, as tests, the records of
    the tests that remain. *)
Theorem delete_test_guard (test_id : Z) (st : TestingSystem.t) :
  (∀ a, a ∈ TestingSystem.attempts st →
        Heap.attempt_test_id (TestingSystem.heap st) a = Some test_id →
        ∃ st', TestingSystem.delete_test test_id st = (false, st')
               ∧ TestingSystem.tests st' = TestingSystem.tests st
               ∧ TestingSystem.heap st' = TestingSystem.heap st
               ∧ TestingSystem.disk st' = TestingSystem.disk st)
  ∧ (∀ x, TestingSystem.find_test_by_id test_id st = Some x →
          (∀ a, a ∈ TestingSystem.attempts st →
                Heap.attempt_test_id (TestingSystem.heap st) a ≠ Some test_id) →
          ∃ st', TestingSystem.delete_test test_id st = (true, st')
                 ∧ TestingSystem.tests st' = TestingSystem.list_remove x (TestingSystem.tests st)
                 ∧ S (length (TestingSystem.tests st')) = length (TestingSystem.tests st)
                 ∧ (NoDup (TestingSystem.tests st) → x ∉ TestingSystem.tests st')
                 ∧ TestingSystem.heap st' = TestingSystem.heap st
                 ∧ persisted st'
                 ∧ ∃ doc,
                     TestingSystem.disk st' = Some doc
                     ∧ doc = snapshot_file st'
                     ∧ json_member "tests" doc
                       = Some (JArr
                           (omap (λ l, test_record
                                       <$> Heap.tests (TestingSystem.heap st) !! l)
                                 (TestingSystem.list_remove x (TestingSystem.tests st))))
                     ∧ json_member "students" doc
                       = json_member "students" (snapshot_file st)
                     ∧ json_member "attempts" doc
                       = json_member "attempts" (snapshot_file st)
                     ∧ json_member "counters" doc
                       = json_member "counters" (snapshot_file st)).
Proof.
  split.
  - intros a Ha Hid. unfold TestingSystem.delete_test.
    destruct (TestingSystem.find_test_by_id test_id st) as [x|]; [|by eexists].
    assert (a ∈ TestingSystem.attempts_of_test test_id st) as Hin
      by by apply list_elem_of_filter.
    destruct (TestingSystem.attempts_of_test test_id st) as [|a0 rest];
      [by apply elem_of_nil in Hin|].
    by eexists.
  - intros x Hx Hfree. unfold TestingSystem.delete_test. rewrite Hx.
    assert (TestingSystem.attempts_of_test test_id st = []) as ->.
    { destruct (TestingSystem.attempts_of_test test_id st) as [|a rest] eqn:Hf; [done|].
      assert (a ∈ TestingSystem.attempts_of_test test_id st) as Hin
        by (rewrite Hf; left).
      apply list_elem_of_filter in Hin as [Hid Hin]. by destruct (Hfree a Hin). }
    apply find_test_by_id_Some in Hx as [Hin _].
    eexists. split; [done|]. cbn [snd]. split_and!; try done.
    + by apply list_remove_length.
    + apply list_remove_NoDup.
    + eexists. split; [apply save_data_saved|]. by split_and!.
Qed.

Lemma delete_test_guard_witness :
  (∃ st', TestingSystem.delete_test 1 demo_answered = (false, st')
          ∧ TestingSystem.tests st' = TestingSystem.tests demo_answered
          ∧ TestingSystem.heap st' = TestingSystem.heap demo_answered
          ∧ TestingSystem.disk st' = TestingSystem.disk demo_answered)
  ∧ (∃ st', TestingSystem.delete_test 2 demo_answered = (true, st')
            ∧ TestingSystem.tests st' = [0%nat]
            ∧ (TestingSystem.disk st' ≫= json_member "tests")
              = Some (JArr [test_record demo_test])).
Proof.
  split.
  - apply (proj1 (delete_test_guard 1 demo_answered) 0%nat).
    + vm_compute. left.
    + vm_compute. reflexivity.
  - destruct (proj2 (delete_test_guard 2 demo_answered) 1%nat)
      as (st' & Hdel & Htests & _ & _ & _ & _ & doc & Hdisk & _ & Hfile & _).
    + vm_compute. reflexivity.
    + intros a Ha. vm_compute in Ha. apply list_elem_of_singleton in Ha. subst a.
      vm_compute. discriminate.
    + exists st'. split; [exact Hdel|]. split; [by rewrite Htests|].
      rewrite Hdisk. cbn [mbind option_bind]. rewrite Hfile.
      vm_compute. reflexivity.
Defined.

(** * The maximum score of a test *)

Lemma get_max_score_active_points (tst : Test.t) :
  Test.get_max_score tst = active_points (Test.questions tst).
Proof.
  unfold Test.get_max_score, Test.get_active_questions.
  induction (Test.questions tst) as [|q qs IH]; [done|].
  simpl. destruct (Question.is_active q) eqn:Hact.
  - rewrite filter_cons_True by done. rewrite fmap_cons, sum_Z_cons. by rewrite IH.
  - rewrite filter_cons_False by (by rewrite Hact). rewrite IH. lia.
Qed.

Lemma active_points_toggle_first (qid : Z) (qs : list Question.t) (q : Question.t) :
  head (filter (λ q, Question.question_id q = qid) qs) = Some q →
  active_points (Test.toggle_first qid qs)
  = active_points qs
    + (if Question.is_active q then - Question.max_points q else Question.max_points q).
Proof.
  induction qs as [|q0 qs IH]; [done|].
  rewrite filter_cons. simpl. case_decide as Hid.
  - intros [= ->]. simpl. destruct (Question.is_active q); simpl; lia.
  - intros Hq. simpl. rewrite (IH Hq). lia.
Qed.

Lemma update_test_lookup (h : Heap.t) (x : loc) (f : Test.t → Test.t) (tst : Test.t) :
  Heap.tests h !! x = Some tst →
  Heap.tests (Heap.update_test x f h) !! x = Some (f tst).
Proof. intros Hx. simpl. by rewrite list_lookup_alter_eq, Hx. Qed.

(** C6. The maximum score of a test is the sum of the points of the
    questions that are active when it is asked for.  Toggling a question, or
    deleting it, changes the maximum score the test reports from then on, and
    with it the outcome of an evaluation made afterwards; it changes no stored
    attempt: percentage, final score and pass flag of an attempt evaluated
    before stay as they were. *)
Theorem max_score_is_dynamic (st : TestingSystem.t) (test_id question_id : Z)
    (x : loc) (tst : Test.t) (q : Question.t) :
  TestingSystem.find_test_by_id test_id st = Some x →
  Heap.tests (TestingSystem.heap st) !! x = Some tst →
  Test.find_question question_id tst = Some q →
  let toggled := TestingSystemApp.toggle_question_status test_id question_id st in
  let deleted := (TestingSystem.delete_question test_id question_id st).2 in
  Test.get_max_score tst = active_points (Test.questions tst)
  ∧ (∃ tst', Heap.tests (TestingSystem.heap toggled) !! x = Some tst'
             ∧ Test.get_max_score tst'
               = Test.get_max_score tst
                 + (if Question.is_active q then - Question.max_points q
                    else Question.max_points q)
             ∧ ∀ l a manual_scores,
                 Heap.attempts (TestingSystem.heap st) !! l = Some a →
                 TestAttempt.test a = x →
                 ∃ a', Heap.attempts
                         (Heap.evaluate_attempt l manual_scores (TestingSystem.heap toggled))
                         !! l = Some a'
                       ∧ score_rule tst' a')
  ∧ (∃ tst', Heap.tests (TestingSystem.heap deleted) !! x = Some tst'
             ∧ Test.get_max_score tst'
               = active_points
                   (filter (λ q', Question.question_id q' ≠ question_id)
                           (Test.questions tst)))
  ∧ Heap.attempts (TestingSystem.heap toggled) = Heap.attempts (TestingSystem.heap st)
  ∧ Heap.attempts (TestingSystem.heap deleted) = Heap.attempts (TestingSystem.heap st).
Proof.
  intros Hx Htst Hq toggled deleted.
  assert (toggled = TestingSystem.save_data
            (TestingSystem.on_heap
               (Heap.update_test x (Test.toggle_question question_id)) st)) as Htog.
  { unfold toggled, TestingSystemApp.toggle_question_status.
    rewrite Hx, Htst. simpl. by rewrite Hq. }
  assert (deleted = TestingSystem.save_data
            (TestingSystem.with_heap
               (Heap.update_test x (Test.remove_question question_id)
                  (TestingSystem.heap st)) st)) as Hdel.
  { unfold deleted, TestingSystem.delete_question. by rewrite Hx. }
  split_and!.
  - apply get_max_score_active_points.
  - exists (Test.toggle_question question_id tst). split_and!.
    + rewrite Htog. simpl. by rewrite list_lookup_alter_eq, Htst.
    + rewrite !get_max_score_active_points. simpl.
      by apply active_points_toggle_first.
    + intros l a manual Ha Hax.
      exists (TestAttempt.evaluate_attempt
                (Test.toggle_question question_id tst) manual a).
      split; [|apply calculate_score_rule].
      assert (Heap.attempts (TestingSystem.heap toggled) !! l = Some a) as Ha'
        by by rewrite Htog.
      assert (Heap.tests (TestingSystem.heap toggled) !! TestAttempt.test a
              = Some (Test.toggle_question question_id tst)) as Ht'.
      { rewrite Htog. simpl. by rewrite Hax, list_lookup_alter_eq, Htst. }
      exact (call_attempt_result _ l a _ Ha' Ht'
               (λ t, TestAttempt.evaluate_attempt t manual)).
  - exists (Test.remove_question question_id tst). split.
    + rewrite Hdel. simpl. by rewrite list_lookup_alter_eq, Htst.
    + by rewrite get_max_score_active_points.
  - by rewrite Htog.
  - by rewrite Hdel.
Qed.

Lemma max_score_is_dynamic_witness :
  let toggled := TestingSystemApp.toggle_question_status 1 2 demo_evaluated in
  (∃ tst', Heap.tests (TestingSystem.heap toggled) !! 0%nat = Some tst'
           ∧ Test.get_max_score tst' = Test.get_max_score demo_test + - 1
           ∧ ∀ l a manual_scores,
               Heap.attempts (TestingSystem.heap demo_evaluated) !! l = Some a →
               TestAttempt.test a = 0%nat →
               ∃ a', Heap.attempts
                       (Heap.evaluate_attempt l manual_scores (TestingSystem.heap toggled))
                       !! l = Some a'
                     ∧ score_rule tst' a')
  ∧ Heap.attempts (TestingSystem.heap toggled)
    = Heap.attempts (TestingSystem.heap demo_evaluated).
Proof.
  destruct (max_score_is_dynamic demo_evaluated 1 2 0%nat demo_test q_primes)
    as (_ & Htoggled & _ & Hframe & _).
  - vm_compute. reflexivity.
  - vm_compute. reflexivity.
  - vm_compute. reflexivity.
  - split; [exact Htoggled | exact Hframe].
Defined.

(** The run of the specification: the maximum score of the mathematics test
    falls from 5 to 4 when its second question is deactivated; the attempt
    evaluated before keeps its percentage, and evaluating it again gives the
    percentage over the new maximum. *)
Example deactivation_rebases_later_evaluations :
  let toggled := TestingSystemApp.toggle_question_status 1 2 demo_evaluated in
  let again := Heap.evaluate_attempt 0%nat None (TestingSystem.heap toggled) in
  (Test.get_max_score <$> Heap.tests (TestingSystem.heap demo_evaluated) !! 0%nat) = Some 5
  ∧ (Test.get_max_score <$> Heap.tests (TestingSystem.heap toggled) !! 0%nat) = Some 4
  ∧ (TestAttempt.percentage <$> Heap.attempts (TestingSystem.heap demo_evaluated) !! 0%nat)
    = Some (5 / 5 * 100)%Q
  ∧ (TestAttempt.percentage <$> Heap.attempts (TestingSystem.heap toggled) !! 0%nat)
    = Some (5 / 5 * 100)%Q
  ∧ (TestAttempt.percentage <$> Heap.attempts again !! 0%nat) = Some (5 / 4 * 100)%Q.
Proof. vm_compute. by repeat split. Qed.

(** * The life cycle of an attempt *)

(** The status after a call is the target of the call, or the status
    before when the call has none. *)
Lemma run_call_status (tst : Test.t) (c : TestAttempt.call) (a : TestAttempt.t) :
  TestAttempt.status (TestAttempt.run_call tst c a)
  = default (TestAttempt.status a) (call_target c).
Proof.
  destruct c as [now|qid ua|now|manual]; simpl; try done.
  - unfold TestAttempt.submit_answer.
    destruct (Test.find_question qid tst) as [q|]; [|done].
    destruct (Question.question_type q); try done;
      by destruct (Question.check_answer q ua).
  - by destruct manual as [[|kv m]|].
Qed.

(** C7, as the code has it.  No method looks at the status of the attempt:
    whatever the status is, [start_attempt] sets IN_PROGRESS,
    [finish_attempt] sets COMPLETED and [evaluate_attempt] sets EVALUATED,
    and [submit_answer] leaves the status as it is.  Hence the status never
    moves back along a sequence of calls made in the order of the life
    cycle. *)
Theorem status_forward_in_order (tst : Test.t) (calls : list TestAttempt.call)
    (a : TestAttempt.t) :
  (∀ now, TestAttempt.status (TestAttempt.start_attempt now a) = IN_PROGRESS)
  ∧ (∀ question_id user_answers,
       TestAttempt.status (TestAttempt.submit_answer tst question_id user_answers a)
       = TestAttempt.status a)
  ∧ (∀ now, TestAttempt.status (TestAttempt.finish_attempt now tst a) = COMPLETED)
  ∧ (∀ manual_scores,
       TestAttempt.status (TestAttempt.evaluate_attempt tst manual_scores a) = EVALUATED)
  ∧ (in_life_cycle_order (TestAttempt.status a) calls →
     never_back (statuses tst calls a)).
Proof.
  split_and!.
  - intros now. exact (run_call_status tst (TestAttempt.Start now) a).
  - intros qid ua. exact (run_call_status tst (TestAttempt.SubmitAnswer qid ua) a).
  - intros now. exact (run_call_status tst (TestAttempt.Finish now) a).
  - intros ms. exact (run_call_status tst (TestAttempt.Evaluate ms) a).
  - revert a. induction calls as [|c calls IH]; intros a Hord; [done|].
    simpl in *. pose proof (run_call_status tst c a) as Hst.
    assert (never_back (statuses tst calls (TestAttempt.run_call tst c a))
            ∧ (status_rank (TestAttempt.status a)
               ≤ status_rank (TestAttempt.status (TestAttempt.run_call tst c a)))%nat)
      as [Hrest Hstep].
    { destruct (call_target c) as [s|]; simpl in Hst.
      - destruct Hord as [Hle Hord]. split; [|by rewrite Hst].
        apply IH. by rewrite Hst.
      - split; [|by rewrite Hst]. apply IH. by rewrite Hst. }
    destruct calls; simpl in *; done.
Qed.

Lemma status_forward_in_order_witness :
  let a := TestAttempt.new 1000 1 0%nat 0%nat in
  let calls := [TestAttempt.Start 2000; TestAttempt.SubmitAnswer 1 ["6"];
                TestAttempt.Finish 3000; TestAttempt.SubmitAnswer 2 ["2"];
                TestAttempt.Evaluate None; TestAttempt.Evaluate (Some [(KInt 3, 3%Q)])] in
  never_back (statuses demo_test calls a)
  ∧ statuses demo_test calls a
    = [NOT_STARTED; IN_PROGRESS; IN_PROGRESS; COMPLETED; COMPLETED; EVALUATED; EVALUATED].
Proof.
  intros a calls. split; [|reflexivity].
  apply (status_forward_in_order demo_test calls a).
  simpl. repeat split; lia.
Defined.

(** The claim as it is worded fails: [start_attempt] on a finished attempt
    takes it from COMPLETED back to IN_PROGRESS. *)
Lemma status_moves_back_out_of_order :
  ¬ (∀ (tst : Test.t) (calls : list TestAttempt.call) (a : TestAttempt.t),
       never_back (statuses tst calls a)).
Proof.
  intros Hall.
  specialize (Hall demo_test [TestAttempt.Finish 3000; TestAttempt.Start 4000]
                (TestAttempt.new 1000 1 0%nat 0%nat)).
  simpl in Hall. destruct Hall as (_ & Hback & _). lia.
Qed.

Example statuses_finish_then_start :
  statuses demo_test [TestAttempt.Finish 3000; TestAttempt.Start 4000]
    (TestAttempt.new 1000 1 0%nat 0%nat)
  = [NOT_STARTED; COMPLETED; IN_PROGRESS].
Proof. reflexivity. Qed.

(** * Statistics of a test *)

Lemma evaluated_attempts_elem (test_id : Z) (st : TestingSystem.t) (ao : TestAttempt.t) :
  ao ∈ TestingSystem.evaluated_attempts test_id st
  ↔ ∃ a, a ∈ TestingSystem.attempts st
         ∧ Heap.attempts (TestingSystem.heap st) !! a = Some ao
         ∧ TestAttempt.status ao = EVALUATED
         ∧ Heap.attempt_test_id (TestingSystem.heap st) a = Some test_id.
Proof.
  unfold TestingSystem.evaluated_attempts. rewrite list_elem_of_omap. split.
  - intros (a & Hin & Hao). apply list_elem_of_filter in Hin as [[Hid Hst] Hin].
    exists a. rewrite Hao in Hst. by simplify_eq/=.
  - intros (a & Hin & Hao & Hst & Hid). exists a. split; [|done].
    apply list_elem_of_filter. rewrite Hao. simpl. by rewrite Hst.
Qed.

(** C9. The statistics of a test are computed from the attempts of the
    registry that refer to a test with that id and are evaluated, and from no
    other.  Without such an attempt there is no result.  Otherwise the result
    holds their number, the number of those that passed, the pass rate
    passed / evaluated × 100, the plain mean of their percentages and the
    plain mean of their durations, a duration being end − start in minutes. *)
Theorem test_statistics_over_evaluated (test_id : Z) (st : TestingSystem.t) :
  let evaluated := TestingSystem.evaluated_attempts test_id st in
  (∀ ao, ao ∈ evaluated
         ↔ ∃ a, a ∈ TestingSystem.attempts st
                ∧ Heap.attempts (TestingSystem.heap st) !! a = Some ao
                ∧ TestAttempt.status ao = EVALUATED
                ∧ Heap.attempt_test_id (TestingSystem.heap st) a = Some test_id)
  ∧ (evaluated = [] → TestingSystem.get_test_statistics test_id st = None)
  ∧ (evaluated ≠ [] →
     ∃ r, TestingSystem.get_test_statistics test_id st = Some r
          ∧ total_attempts r = length evaluated
          ∧ passed_attempts r
            = length (filter (λ a, TestAttempt.is_passed a = true) evaluated)
          ∧ success_rate r
            = (inject_Z (Z.of_nat (passed_attempts r))
               / inject_Z (Z.of_nat (total_attempts r)) * 100)%Q
          ∧ avg_score r = mean (TestAttempt.percentage <$> evaluated)
          ∧ avg_time r = mean (TestAttempt.get_duration <$> evaluated))
  ∧ (∀ a e, TestAttempt.end_time a = Some e →
            TestAttempt.get_duration a
            = (inject_Z (e - TestAttempt.start_time a) / 1000000 / 60)%Q).
Proof.
  intros evaluated. split_and!.
  - apply evaluated_attempts_elem.
  - intros Hnil. unfold TestingSystem.get_test_statistics.
    fold evaluated. by rewrite Hnil.
  - intros Hne. unfold TestingSystem.get_test_statistics. fold evaluated.
    destruct evaluated as [|a0 rest] eqn:Hev; [done|].
    eexists. split; [done|]. unfold mean.
    rewrite !length_fmap. by split_and!.
  - intros a e He. unfold TestAttempt.get_duration. by rewrite He.
Qed.

Lemma test_statistics_over_evaluated_witness :
  ∃ r, TestingSystem.get_test_statistics 1 demo_evaluated = Some r
       ∧ total_attempts r = 2%nat
       ∧ passed_attempts r = 1%nat
       ∧ success_rate r
         = (inject_Z (Z.of_nat (passed_attempts r))
            / inject_Z (Z.of_nat (total_attempts r)) * 100)%Q
       ∧ avg_score r
         = mean (TestAttempt.percentage
                 <$> TestingSystem.evaluated_attempts 1 demo_evaluated).
Proof.
  destruct (test_statistics_over_evaluated 1 demo_evaluated)
    as (_ & _ & Hsome & _).
  destruct Hsome as (r & Hr & Htotal & Hpassed & Hrate & Havg & _).
  - vm_compute. discriminate.
  - exists r. by split_and!.
Defined.

(** The statistics of the mathematics test in [demo_evaluated]: two evaluated
    attempts, one passed with 100 %, one failed with 0 %; the attempt that is
    only finished does not count. *)
Example statistics_of_demo :
  ∃ r, TestingSystem.get_test_statistics 1 demo_evaluated = Some r
       ∧ total_attempts r = 2%nat ∧ passed_attempts r = 1%nat
       ∧ (success_rate r == 50)%Q ∧ (avg_score r == 50)%Q
       ∧ (avg_time r == 120999 # 60000)%Q
       ∧ length (TestingSystem.attempts demo_evaluated) = 3%nat.
Proof. eexists. split; [vm_compute; reflexivity|]. vm_compute. by repeat split. Qed.

(** * Scores for deactivated questions *)

Lemma demo_deactivated_reachable : reachable demo_deactivated.
Proof.
  unfold demo_deactivated. cbv zeta.
  do 3 (apply reach_call; [|vm_compute; left]).
  apply reach_create_attempt. do 2 apply reach_toggle_question.
  apply reach_new.
Qed.

(** C10. [submit_answer] looks the question up among all the questions of
    the test.  For a deactivated single-choice or multiple-choice question a
    correct submission records the full [max_points], although the question
    is not among the active questions that [get_max_score] sums.  There is a
    state the program reaches in which an attempt has a percentage above 100,
    after [finish_attempt] and after [evaluate_attempt]. *)
Theorem inactive_question_scores_above_maximum :
  (∀ (h : Heap.t) (l : loc) (a : TestAttempt.t) (tst : Test.t) (question_id : Z)
     (q : Question.t) (user_answers : list string),
     Heap.attempts h !! l = Some a →
     Heap.tests h !! TestAttempt.test a = Some tst →
     Test.find_question question_id tst = Some q →
     Question.is_active q = false →
     Question.question_type q ≠ TEXT_ANSWER →
     Question.check_answer q user_answers = true →
     (∃ a', Heap.attempts (Heap.submit_answer l question_id user_answers h) !! l = Some a'
            ∧ dict_get (KInt question_id) (TestAttempt.scores a')
              = Some (inject_Z (Question.max_points q)))
     ∧ (q ∉ Test.get_active_questions tst)
     ∧ Test.get_max_score tst
       = sum_Z (Question.max_points <$> Test.get_active_questions tst))
  ∧ (∃ st l a,
       reachable st
       ∧ l ∈ TestingSystem.attempts st
       ∧ Heap.attempts (TestingSystem.heap
                          (TestingSystem.on_heap (Heap.finish_attempt 3000 l) st)) !! l
         = Some a
       ∧ (100 < TestAttempt.percentage a)%Q)
  ∧ (∃ st l a,
       reachable st
       ∧ l ∈ TestingSystem.attempts st
       ∧ Heap.attempts (TestingSystem.heap
                          (TestingSystem.on_heap (Heap.evaluate_attempt l None) st)) !! l
         = Some a
       ∧ (100 < TestAttempt.percentage a)%Q).
Proof.
  split_and!.
  - intros h l a tst qid q ua Ha Ht Hq Hact Hty Hok. split_and!.
    + eexists. split; [by eapply call_attempt_result|].
      unfold TestAttempt.submit_answer. rewrite Hq, Hok.
      destruct (Question.question_type q); try done; apply dict_get_set_eq.
    + unfold Test.get_active_questions. rewrite list_elem_of_filter.
      intros [Hon _]. congruence.
    + reflexivity.
  - exists demo_deactivated, 0%nat. eexists.
    split; [apply demo_deactivated_reachable|].
    split; [vm_compute; left|]. split; vm_compute; reflexivity.
  - exists demo_deactivated, 0%nat. eexists.
    split; [apply demo_deactivated_reachable|].
    split; [vm_compute; left|]. split; vm_compute; reflexivity.
Qed.

Lemma inactive_question_scores_above_maximum_witness :
  (∃ a', Heap.attempts
           (Heap.submit_answer 0%nat 2 ["2"; "7"; "11"]
              (TestingSystem.heap demo_deactivated)) !! 0%nat = Some a'
         ∧ dict_get (KInt 2) (TestAttempt.scores a') = Some 1%Q)
  ∧ Question.toggle_active q_primes
    ∉ Test.get_active_questions
        (default demo_test (Heap.tests (TestingSystem.heap demo_deactivated) !! 0%nat)).
Proof.
  destruct (proj1 inactive_question_scores_above_maximum
              (TestingSystem.heap demo_deactivated) 0%nat
              (default (TestAttempt.new 0 0 0%nat 0%nat)
                 (Heap.attempts (TestingSystem.heap demo_deactivated) !! 0%nat))
              (default demo_test (Heap.tests (TestingSystem.heap demo_deactivated) !! 0%nat))
              2 (Question.toggle_active q_primes) ["2"; "7"; "11"])
    as (Hscore & Hout & _).
  - vm_compute. reflexivity.
  - vm_compute. reflexivity.
  - vm_compute. reflexivity.
  - reflexivity.
  - discriminate.
  - vm_compute. reflexivity.
  - split; [exact Hscore | exact Hout].
Defined.

(** The run in numbers: two points recorded against a maximum of one. *)
Example demo_deactivated_percentage :
  let h := Heap.finish_attempt 3000 0%nat (TestingSystem.heap demo_deactivated) in
  (Test.get_max_score <$> Heap.tests h !! 0%nat) = Some 1
  ∧ (TestAttempt.scores <$> Heap.attempts h !! 0%nat)
    = Some [(KInt 1, 1%Q); (KInt 2, 1%Q)]
  ∧ (TestAttempt.percentage <$> Heap.attempts h !! 0%nat) = Some (2 / 1 * 100)%Q
  ∧ (TestAttempt.is_passed <$> Heap.attempts h !! 0%nat) = Some true.
Proof. vm_compute. by repeat split. Qed.

(** * The invariant of the registry

    Every state the application reaches is well formed, so the properties
    proved for well-formed states hold along every run. *)

Lemma well_formed_same_shape (st st' : TestingSystem.t) :
  TestingSystem.students st' = TestingSystem.students st →
  TestingSystem.tests st' = TestingSystem.tests st →
  TestingSystem.attempts st' = TestingSystem.attempts st →
  Heap.students (TestingSystem.heap st') = Heap.students (TestingSystem.heap st) →
  length (Heap.tests (TestingSystem.heap st')) = length (Heap.tests (TestingSystem.heap st)) →
  Heap.attempts (TestingSystem.heap st') = Heap.attempts (TestingSystem.heap st) →
  well_formed st → well_formed st'.
Proof.
  unfold well_formed. simpl. intros -> -> -> -> -> ->. done.
Qed.

Lemma list_remove_NoDup_keep (x : loc) (l : list loc) :
  NoDup l → NoDup (TestingSystem.list_remove x l).
Proof.
  induction 1 as [|y l Hy Hl IH]; simpl; [constructor|].
  case_decide; [done|]. constructor; [|done].
  intros Hin. by apply list_remove_subset in Hin.
Qed.

Lemma run_call_refs (tst : Test.t) (c : TestAttempt.call) (a : TestAttempt.t) :
  TestAttempt.student (TestAttempt.run_call tst c a) = TestAttempt.student a
  ∧ TestAttempt.test (TestAttempt.run_call tst c a) = TestAttempt.test a.
Proof.
  destruct c as [now|qid ua|now|manual]; simpl; try done.
  - unfold TestAttempt.submit_answer.
    destruct (Test.find_question qid tst) as [q|]; [|done].
    destruct (Question.question_type q); try done;
      by destruct (Question.check_answer q ua).
  - by destruct manual as [[|kv m]|].
Qed.

Lemma add_student_well_formed full_name group email st :
  well_formed st → well_formed (TestingSystem.add_student full_name group email st).2.
Proof.
  intros (Hws & Hwt & Hwa & Hwr & Hwsr & Hns & Hnt & Hna).
  unfold well_formed. simpl. rewrite length_app. simpl. split_and!; try done.
  - apply Forall_app. split.
    + eapply Forall_impl; [done|]. simpl. lia.
    + apply Forall_singleton. lia.
  - eapply Forall_impl; [done|]. simpl. lia.
  - apply Forall_app. split; [done|]. by apply Forall_singleton.
  - apply NoDup_app. split_and!; [done| |apply NoDup_singleton].
    intros l Hl Hl'. apply list_elem_of_singleton in Hl'. subst l.
    rewrite Forall_forall in Hws. specialize (Hws _ Hl). lia.
Qed.

Lemma add_test_well_formed title subject time_limit st :
  well_formed st → well_formed (TestingSystem.add_test title subject time_limit st).2.
Proof.
  intros (Hws & Hwt & Hwa & Hwr & Hwsr & Hns & Hnt & Hna).
  unfold well_formed. simpl. rewrite length_app. simpl. split_and!; try done.
  - apply Forall_app. split.
    + eapply Forall_impl; [done|]. simpl. lia.
    + apply Forall_singleton. lia.
  - eapply Forall_impl; [done|]. simpl. lia.
  - apply NoDup_app. split_and!; [done| |apply NoDup_singleton].
    intros l Hl Hl'. apply list_elem_of_singleton in Hl'. subst l.
    rewrite Forall_forall in Hwt. specialize (Hwt _ Hl). lia.
Qed.

Lemma delete_test_well_formed test_id st :
  well_formed st → well_formed (TestingSystem.delete_test test_id st).2.
Proof.
  intros Hwf. unfold TestingSystem.delete_test.
  destruct (TestingSystem.find_test_by_id test_id st) as [x|]; [|done].
  destruct (TestingSystem.attempts_of_test test_id st); [|done].
  destruct Hwf as (Hws & Hwt & Hwa & Hwr & Hwsr & Hns & Hnt & Hna).
  unfold well_formed. simpl. split_and!; try done.
  - rewrite Forall_forall in Hwt. apply Forall_forall. intros l Hl.
    by apply Hwt, (list_remove_subset x).
  - by apply list_remove_NoDup_keep.
Qed.

Lemma create_attempt_any_well_formed now sid tid st :
  well_formed st → well_formed (TestingSystem.create_attempt now sid tid st).2.
Proof.
  intros Hwf.
  destruct (TestingSystem.find_student_by_id sid st) as [s|] eqn:Hs;
    [|by unfold TestingSystem.create_attempt; rewrite Hs].
  destruct (TestingSystem.find_test_by_id tid st) as [x|] eqn:Hx;
    [|by unfold TestingSystem.create_attempt; rewrite Hs, Hx].
  destruct (decide (length (TestingSystem.attempts_of_student_on_test sid tid st) < 3)%nat)
    as [Hlt|Hge].
  - by eapply create_attempt_well_formed.
  - rewrite (create_attempt_refused now sid tid st s x Hs Hx) by lia. done.
Qed.

Lemma run_call_well_formed l c st :
  well_formed st → well_formed (TestingSystem.on_heap (Heap.run_call l c) st).
Proof.
  intros Hwf. unfold TestingSystem.on_heap, Heap.run_call, Heap.call_attempt.
  destruct (Heap.attempts (TestingSystem.heap st) !! l) as [a|] eqn:Ha;
    [|by destruct st as [? ? ? ? ? ? ? ? [] ? ?]].
  destruct (Heap.tests (TestingSystem.heap st) !! TestAttempt.test a) as [tst|];
    [|by destruct st as [? ? ? ? ? ? ? ? [] ? ?]].
  destruct Hwf as (Hws & Hwt & Hwa & Hwr & Hwsr & Hns & Hnt & Hna).
  unfold well_formed. simpl. rewrite length_insert. split_and!; try done.
  apply Forall_insert; [done|].
  destruct (run_call_refs tst c a) as [-> ->].
  by eapply Forall_lookup_1 in Hwr.
Qed.

Theorem reachable_well_formed (st : TestingSystem.t) : reachable st → well_formed st.
Proof.
  induction 1 as [name | st ? ? ? _ IH | st ? ? ? _ IH | st tid ? ? ? ? ? _ IH
                 | st ? _ IH | st tid qid _ IH | st tid _ IH | st tid qid _ IH
                 | st ? ? ? _ IH | st l c _ IH Hl].
  - apply (bool_decide_unpack _). vm_compute. exact I.
  - by apply add_student_well_formed.
  - by apply add_test_well_formed.
  - unfold TestingSystem.add_question_to_test.
    destruct (TestingSystem.find_test_by_id tid st); [|done].
    eapply well_formed_same_shape; [..|exact IH]; try done.
    simpl. apply length_alter.
  - by apply delete_test_well_formed.
  - unfold TestingSystem.delete_question.
    destruct (TestingSystem.find_test_by_id tid st); [|done].
    eapply well_formed_same_shape; [..|exact IH]; try done.
    simpl. apply length_alter.
  - unfold TestingSystemApp.toggle_test_status.
    destruct (TestingSystem.find_test_by_id tid st); [|done].
    eapply well_formed_same_shape; [..|exact IH]; try done.
    simpl. apply length_alter.
  - unfold TestingSystemApp.toggle_question_status.
    destruct (TestingSystem.find_test_by_id tid st); [|done].
    destruct (_ ≫= _); [|done].
    eapply well_formed_same_shape; [..|exact IH]; try done.
    simpl. apply length_alter.
  - by apply create_attempt_any_well_formed.
  - by apply run_call_well_formed.
Qed.

(** * Saving and loading: what comes back from the snapshot file

    Everything but the keys of dictionaries: timestamps, lists of strings and
    whole students, questions and tests read back as they were written. *)

Lemma fromisoformat_isoformat (t : datetime) : fromisoformat (isoformat t) = Some t.
Proof.
  unfold fromisoformat, isoformat, int_of_str, str_of_int.
  rewrite NilZero.isi.
  - simpl. by rewrite DecimalZ.of_to.
  - destruct t as [|p|p]; simpl; try done.
    intros [= Hp]. by apply DecimalPos.Unsigned.to_uint_nonnil in Hp.
  - destruct t as [|p|p]; simpl; try done.
    intros [= Hp]. by apply DecimalPos.Unsigned.to_uint_nonnil in Hp.
Qed.

#[local] Instance KStr_inj : Inj (=) (=) KStr.
Proof. by intros s1 s2 [= ->]. Qed.

Lemma dict_set_fresh {V} (k : key) (v : V) (d : dict V) :
  k ∉ d.*1 → dict_set k v d = d ++ [(k, v)].
Proof.
  induction d as [|[k' v'] d IH]; simpl; [done|].
  rewrite not_elem_of_cons. intros [Hne Hnin].
  rewrite decide_False by done. by rewrite IH.
Qed.

Lemma json_load_members (m : list (string * json)) (acc : dict pyval) :
  NoDup (acc.*1 ++ (KStr <$> m.*1)) →
  fold_left (λ acc kv, match kv with (k, x) => dict_set (KStr k) (json_load x) acc end)
            m acc
  = acc ++ ((λ kv, (KStr kv.1, json_load kv.2)) <$> m).
Proof.
  revert acc. induction m as [|[k x] m IH]; intros acc Hnd; simpl.
  - by rewrite app_nil_r.
  - simpl in Hnd. rewrite dict_set_fresh.
    + rewrite IH.
      * by rewrite <- app_assoc.
      * rewrite fmap_app. simpl. by rewrite <- app_assoc.
    + apply NoDup_app in Hnd as (_ & Hdisj & _). intros Hin.
      apply (Hdisj _ Hin). left.
Qed.

(** A dictionary with distinct string keys keeps its keys and its order. *)
Lemma json_str_dict (l : list (string * pyval)) :
  NoDup l.*1 →
  json_load (json_dump (str_dict l))
  = str_dict ((λ kv, (kv.1, json_load (json_dump kv.2))) <$> l).
Proof.
  intros Hnd. unfold str_dict. simpl. rewrite json_load_members.
  - simpl. f_equal. rewrite <- !list_fmap_compose.
    apply list_fmap_ext. by intros i [k v] _.
  - simpl. rewrite <- !list_fmap_compose.
    apply (NoDup_fmap_2 KStr) in Hnd.
    rewrite <- list_fmap_compose in Hnd.
    erewrite list_fmap_ext; [exact Hnd|]. by intros i [k v] _.
Qed.

Lemma json_str_list (l : list string) :
  json_load (json_dump (PList (PStr <$> l))) = PList (PStr <$> l).
Proof.
  simpl. f_equal. induction l as [|s l IH]; simpl; [done|]. by f_equal.
Qed.

Lemma as_str_list_strs (l : list string) : as_str_list (PList (PStr <$> l)) = Some l.
Proof.
  unfold as_str_list. simpl. induction l as [|s l IH]; [done|].
  rewrite fmap_cons. simpl in *. by rewrite IH.
Qed.

Lemma QuestionType_of_name_name (t : QuestionType) :
  QuestionType_of_name (QuestionType_name t) = Some t.
Proof. by destruct t. Qed.

Lemma TestStatus_of_name_name (s : TestStatus) :
  TestStatus_of_name (TestStatus_name s) = Some s.
Proof. by destruct s. Qed.

Lemma field_here (name : string) (v : pyval) (rest : dict pyval) :
  field name (PDict ((KStr name, v) :: rest)) = Some v.
Proof. unfold field. simpl. by rewrite decide_True. Qed.

Lemma field_next (name name' : string) (v : pyval) (rest : dict pyval) :
  name ≠ name' →
  field name (PDict ((KStr name', v) :: rest)) = field name (PDict rest).
Proof.
  intros Hne. unfold field. simpl. rewrite decide_False; [done|]. by intros [= ?].
Qed.

Lemma field_as_here {A} (f : pyval → option A) (name : string) (v : pyval)
    (rest : dict pyval) :
  field_as f name (PDict ((KStr name, v) :: rest)) = f v.
Proof. unfold field_as. by rewrite field_here. Qed.

Lemma field_as_next {A} (f : pyval → option A) (name name' : string) (v : pyval)
    (rest : dict pyval) :
  name ≠ name' →
  field_as f name (PDict ((KStr name', v) :: rest)) = field_as f name (PDict rest).
Proof. intros Hne. unfold field_as. by rewrite field_next. Qed.

(** Reads the fields of a dictionary with literal keys, one after the other. *)
Ltac read_fields :=
  repeat first
    [ rewrite field_as_here
    | rewrite field_as_next by done
    | rewrite field_here
    | rewrite field_next by done
    | rewrite as_str_list_strs
    | progress cbn [mbind option_bind as_int as_str as_bool as_list] ].

Lemma Student_roundtrip (s : Student.t) :
  Student.from_dict (json_load (json_dump (Student.to_dict s)))
  = Some (Student.new (Student.student_id s) (Student.full_name s)
            (Student.group s) (Student.email s)).
Proof.
  unfold Student.to_dict. rewrite json_str_dict by compute_done.
  cbn [fmap list_fmap fst snd json_dump json_load].
  unfold Student.from_dict, str_dict. cbn [map fst snd].
  by read_fields.
Qed.

Lemma Question_roundtrip (q : Question.t) :
  Question.from_dict (json_load (json_dump (Question.to_dict q))) = Some q.
Proof.
  unfold Question.to_dict. rewrite json_str_dict by compute_done.
  cbn [fmap list_fmap fst snd]. rewrite !json_str_list. cbn [json_dump json_load].
  unfold Question.from_dict, str_dict. cbn [map fst snd].
  destruct q as [qid txt qt opts corr pts act].
  cbn [Question.question_id Question.text Question.question_type Question.options
       Question.correct_answers Question.max_points Question.is_active].
  read_fields. by rewrite QuestionType_of_name_name.
Qed.

Lemma Questions_roundtrip (qs : list Question.t) :
  mapM Question.from_dict (map json_load (map json_dump (Question.to_dict <$> qs)))
  = Some qs.
Proof.
  induction qs as [|q qs IH]; [done|].
  rewrite fmap_cons. cbn [map]. cbn [mapM].
  rewrite Question_roundtrip. cbn [mbind option_bind]. rewrite IH. done.
Qed.

Lemma Test_roundtrip (x : Test.t) :
  Test.from_dict (json_load (json_dump (Test.to_dict x))) = Some x.
Proof.
  unfold Test.to_dict. rewrite json_str_dict by compute_done.
  cbn [fmap list_fmap fst snd json_dump json_load].
  unfold Test.from_dict, str_dict. cbn [map fst snd].
  destruct x as [tid ttl sbj lim qs act pass].
  cbn [Test.test_id Test.title Test.subject Test.time_limit Test.questions
       Test.is_active Test.passing_score].
  read_fields. fold (fmap (M := list) Question.to_dict qs).
  by rewrite Questions_roundtrip.
Qed.

Lemma dict_set_keys {V} (k k0 : key) (v : V) (d : dict V) :
  k0 ∈ (dict_set k v d).*1 → k0 = k ∨ k0 ∈ d.*1.
Proof.
  induction d as [|[k' v'] d IH]; simpl.
  - intros Hin. apply list_elem_of_singleton in Hin. by left.
  - case_decide; simpl; rewrite !elem_of_cons; intros [->|Hin]; auto.
    destruct (IH Hin); auto.
Qed.

(** The keys of a dictionary that went through the file are strings. *)
Lemma json_dict_keys_are_strings (d d' : dict pyval) :
  json_load (json_dump (PDict d)) = PDict d' →
  ∀ k, k ∈ d'.*1 → ∃ s, k = KStr s.
Proof.
  simpl. intros [= <-].
  generalize (map (λ kv : key * pyval,
                     match kv with (k, x) => (key_str k, json_dump x) end) d).
  intros m. assert (∀ k, k ∈ ([] : dict pyval).*1 → ∃ s, k = KStr s) as Hacc
    by (intros k Hk; by apply elem_of_nil in Hk).
  revert Hacc. generalize ([] : dict pyval).
  induction m as [|[s x] m IH]; intros acc Hacc; simpl; [done|].
  apply IH. intros k Hk. apply dict_set_keys in Hk as [->|Hk]; eauto.
Qed.

(** * Saving and loading: the whole registry *)

(** A state whose attempts hold no answers comes back from the snapshot file
    as it was saved: entities, references and counters. *)
Example reload_without_answers :
  let st := (TestingSystem.create_attempt 1000 1 1 demo).2 in
  persisted st
  ∧ TestingSystem.new "Учебный портал" (TestingSystem.disk st) = st.
Proof. vm_compute. by split. Qed.

(** C8 fails on the code.  [json.dump] writes the integer keys of the
    [answers] and [scores] dictionaries as strings and [load_data] keeps them
    as strings: the attempt that comes back differs from the one saved, and
    an answer submitted again after the restart is counted a second time. *)
Theorem reload_turns_question_ids_into_strings :
  let saved := TestingSystem.save_data demo_answered in
  let reloaded := TestingSystem.new "Учебный портал" (TestingSystem.disk saved) in
  let resubmit_and_finish st :=
    Heap.finish_attempt 3000 0%nat
      (Heap.submit_answer 0%nat 1 ["6"] (TestingSystem.heap st)) in
  persisted saved
  ∧ (TestAttempt.scores <$> Heap.attempts (TestingSystem.heap saved) !! 0%nat)
    = Some [(KInt 1, 1%Q); (KInt 2, 1%Q)]
  ∧ (TestAttempt.scores <$> Heap.attempts (TestingSystem.heap reloaded) !! 0%nat)
    = Some [(KStr "1", 1%Q); (KStr "2", 1%Q)]
  ∧ (TestAttempt.answers <$> Heap.attempts (TestingSystem.heap saved) !! 0%nat)
    = Some [(KInt 1, ["6"]); (KInt 2, ["7"; "2"; "11"])]
  ∧ (TestAttempt.answers <$> Heap.attempts (TestingSystem.heap reloaded) !! 0%nat)
    = Some [(KStr "1", ["6"]); (KStr "2", ["7"; "2"; "11"])]
  ∧ TestingSystem.heap reloaded ≠ TestingSystem.heap saved
  ∧ (TestAttempt.final_score <$> Heap.attempts (resubmit_and_finish saved) !! 0%nat)
    = Some (0 + 1 + 1)%Q
  ∧ (TestAttempt.final_score <$> Heap.attempts (resubmit_and_finish reloaded) !! 0%nat)
    = Some (0 + 1 + 1 + 1)%Q.
Proof.
  vm_compute. split_and!; try reflexivity. intros Heq. discriminate Heq.
Qed.

(** * What every state of a run satisfies: the proofs *)

Lemma list_remove_keeps (x y : loc) (l : list loc) :
  y ∈ l → y ≠ x → y ∈ TestingSystem.list_remove x l.
Proof.
  induction l as [|z l IH]; simpl; [done|].
  intros Hin Hne. case_decide as Hz.
  - apply elem_of_cons in Hin as [->|Hin]; [congruence | done].
  - apply elem_of_cons in Hin as [->|Hin]; [left | right; by apply IH].
Qed.

Lemma alter_split {A} (f : A → A) (l : list A) (i : nat) (x : A) :
  l !! i = Some x →
  ∃ l1 l2, l = l1 ++ x :: l2 ∧ alter f i l = l1 ++ f x :: l2.
Proof.
  revert i. induction l as [|y l IH]; intros [|i] Hi; simplify_eq/=.
  - by exists [], l.
  - destruct (IH i Hi) as (l1 & l2 & -> & ->). by exists (y :: l1), l2.
Qed.

Lemma alter_fmap_same {A B} (g : A → B) (f : A → A) (l : list A) (i : nat) :
  (∀ x, g (f x) = g x) → g <$> alter f i l = g <$> l.
Proof.
  intros Hg. revert i. induction l as [|y l IH]; intros [|i]; simpl; [done..| |].
  - by rewrite Hg.
  - f_equal. apply IH.
Qed.

Lemma NoDup_snoc_fresh (l : list Z) (n : Z) :
  Forall (λ z, z < n) l → NoDup l → NoDup (l ++ [n]).
Proof.
  intros Hlt Hnd. apply NoDup_app. split_and!; [done| |apply NoDup_singleton].
  intros z Hz Hn. apply list_elem_of_singleton in Hn. subst z.
  rewrite Forall_forall in Hlt. specialize (Hlt _ Hz). lia.
Qed.

Lemma Forall_lt_succ {A} (g : A → Z) (n : Z) (l : list A) :
  Forall (λ a, g a < n) l → Forall (λ a, g a < n + 1) l.
Proof. intros H. eapply Forall_impl; [done|]. simpl. lia. Qed.

Lemma Forall_ids {A} (g : A → Z) (n : Z) (l : list A) :
  Forall (λ a, g a < n) l ↔ Forall (λ z, z < n) (g <$> l).
Proof. by rewrite Forall_fmap. Qed.

(** ** Operations that change the content of one test *)

Section TestUpdate.
Variables (st st' : TestingSystem.t) (x : loc) (f : Test.t → Test.t).
Hypothesis Hstudents : TestingSystem.students st' = TestingSystem.students st.
Hypothesis Htests : TestingSystem.tests st' = TestingSystem.tests st.
Hypothesis Hattempts : TestingSystem.attempts st' = TestingSystem.attempts st.
Hypothesis Hhs :
  Heap.students (TestingSystem.heap st') = Heap.students (TestingSystem.heap st).
Hypothesis Hha :
  Heap.attempts (TestingSystem.heap st') = Heap.attempts (TestingSystem.heap st).
Hypothesis Hht :
  Heap.tests (TestingSystem.heap st') = alter f x (Heap.tests (TestingSystem.heap st)).
Hypothesis Hid : ∀ t, Test.test_id (f t) = Test.test_id t.

Lemma test_update_test_id (j : loc) :
  Test.test_id <$> Heap.tests (TestingSystem.heap st') !! j
  = Test.test_id <$> Heap.tests (TestingSystem.heap st) !! j.
Proof.
  rewrite Hht, list_lookup_alter. case_decide; [subst|done].
  destruct (Heap.tests (TestingSystem.heap st) !! j); simpl; [|done].
  by rewrite Hid.
Qed.

Lemma test_update_attempt_ids (a : loc) :
  Heap.attempt_student_id (TestingSystem.heap st') a
  = Heap.attempt_student_id (TestingSystem.heap st) a
  ∧ Heap.attempt_test_id (TestingSystem.heap st') a
    = Heap.attempt_test_id (TestingSystem.heap st) a.
Proof.
  unfold Heap.attempt_student_id, Heap.attempt_test_id. rewrite Hha, Hhs.
  split; [done|].
  destruct (Heap.attempts (TestingSystem.heap st) !! a); simpl; [|done].
  apply test_update_test_id.
Qed.

Lemma test_update_well_formed : well_formed st → well_formed st'.
Proof.
  apply well_formed_same_shape; try done. rewrite Hht. apply length_alter.
Qed.

Lemma test_update_back_linked : back_linked st → back_linked st'.
Proof. unfold back_linked. rewrite Hhs, Hha, Hattempts. done. Qed.

Lemma test_update_registered : registered st → registered st'.
Proof. unfold registered. rewrite Hha, Hattempts, Hstudents, Htests. done. Qed.

Lemma test_update_capped : capped st → capped st'.
Proof.
  intros Hcap sid tid. specialize (Hcap sid tid).
  unfold TestingSystem.attempts_of_student_on_test in *. rewrite Hattempts.
  erewrite list_filter_iff; [exact Hcap|].
  intros a. simpl. by destruct (test_update_attempt_ids a) as [-> ->].
Qed.

Lemma test_update_all_listed : all_listed st → all_listed st'.
Proof. unfold all_listed. by rewrite Hstudents, Hattempts, Hhs, Hha. Qed.
End TestUpdate.

(** ** The identifiers of the questions under an update of one test *)

Lemma all_questions_update (h : Heap.t) (x : loc) (f : Test.t → Test.t) (t : Test.t) :
  Heap.tests h !! x = Some t →
  ∃ before after,
    all_questions h = before ++ Test.questions t ++ after
    ∧ all_questions (Heap.update_test x f h)
      = before ++ Test.questions (f t) ++ after.
Proof.
  intros Hx. destruct (alter_split f _ _ _ Hx) as (l1 & l2 & Hl & Hl').
  exists (concat (Test.questions <$> l1)), (concat (Test.questions <$> l2)).
  unfold all_questions. simpl. rewrite Hl', Hl.
  by rewrite !fmap_app, !fmap_cons, !concat_app.
Qed.

Lemma Forall_sublist_of {A} (P : A → Prop) (l1 l2 : list A) :
  l1 `sublist_of` l2 → Forall P l2 → Forall P l1.
Proof.
  rewrite !Forall_forall. intros Hsub HP y Hy. by eapply HP, elem_of_sublist.
Qed.

Lemma toggle_first_ids (qid : Z) (qs : list Question.t) :
  Question.question_id <$> Test.toggle_first qid qs = Question.question_id <$> qs.
Proof.
  induction qs as [|q qs IH]; [done|]. cbn [Test.toggle_first].
  case_decide; rewrite !fmap_cons; [done|]. by rewrite IH.
Qed.

Section QuestionIds.
Variables (st st' : TestingSystem.t) (x : loc) (f : Test.t → Test.t) (t : Test.t).
Hypothesis Hx : Heap.tests (TestingSystem.heap st) !! x = Some t.
Hypothesis Hheap :
  TestingSystem.heap st' = Heap.update_test x f (TestingSystem.heap st).
Hypothesis Hbound :
  Forall (λ q, Question.question_id q < TestingSystem.next_question_id st)
         (all_questions (TestingSystem.heap st)).
Hypothesis Hnodup :
  NoDup (Question.question_id <$> all_questions (TestingSystem.heap st)).

(** Questions are dropped from the test, or change only in their flag. *)
Lemma question_ids_shrink :
  (Question.question_id <$> Test.questions (f t))
    `sublist_of` (Question.question_id <$> Test.questions t) →
  TestingSystem.next_question_id st' = TestingSystem.next_question_id st →
  Forall (λ q, Question.question_id q < TestingSystem.next_question_id st')
         (all_questions (TestingSystem.heap st'))
  ∧ NoDup (Question.question_id <$> all_questions (TestingSystem.heap st')).
Proof.
  intros Hsub Hnext.
  destruct (all_questions_update _ x f t Hx) as (A & B & HA & HB).
  rewrite Hheap, HB, Hnext.
  assert ((Question.question_id <$> A ++ Test.questions (f t) ++ B)
            `sublist_of` (Question.question_id <$> all_questions (TestingSystem.heap st)))
    as Hall.
  { rewrite HA, !fmap_app. apply sublist_app; [done|]. by apply sublist_app. }
  split.
  - apply Forall_ids. eapply Forall_sublist_of; [exact Hall|].
    exact (proj1 (Forall_ids _ _ _) Hbound).
  - by eapply sublist_NoDup.
Qed.

(** One question is appended, with the next identifier. *)
Lemma question_ids_grow (q : Question.t) :
  Test.questions (f t) = Test.questions t ++ [q] →
  Question.question_id q = TestingSystem.next_question_id st →
  TestingSystem.next_question_id st' = TestingSystem.next_question_id st + 1 →
  Forall (λ q, Question.question_id q < TestingSystem.next_question_id st')
         (all_questions (TestingSystem.heap st'))
  ∧ NoDup (Question.question_id <$> all_questions (TestingSystem.heap st')).
Proof.
  intros Hq Hqid Hnext.
  destruct (all_questions_update _ x f t Hx) as (A & B & HA & HB).
  rewrite Hheap, HB, Hnext, Hq.
  assert (A ++ (Test.questions t ++ [q]) ++ B
          ≡ₚ all_questions (TestingSystem.heap st) ++ [q]) as Hperm.
  { rewrite HA. rewrite <- !app_assoc. apply Permutation_app_head.
    apply Permutation_app_head. apply Permutation_app_comm. }
  split.
  - rewrite Hperm. apply Forall_app. split.
    + by apply Forall_lt_succ.
    + apply Forall_singleton. lia.
  - rewrite Hperm, fmap_app. simpl. rewrite Hqid.
    apply NoDup_snoc_fresh; [|done]. exact (proj1 (Forall_ids _ _ _) Hbound).
Qed.
End QuestionIds.

(** ** Each operation keeps the invariant *)

Lemma test_update_invariant (st st' : TestingSystem.t) (x : loc) (f : Test.t → Test.t) :
  TestingSystem.students st' = TestingSystem.students st →
  TestingSystem.tests st' = TestingSystem.tests st →
  TestingSystem.attempts st' = TestingSystem.attempts st →
  TestingSystem.heap st' = Heap.update_test x f (TestingSystem.heap st) →
  (∀ t, Test.test_id (f t) = Test.test_id t) →
  TestingSystem.next_student_id st' = TestingSystem.next_student_id st →
  TestingSystem.next_test_id st' = TestingSystem.next_test_id st →
  TestingSystem.next_attempt_id st' = TestingSystem.next_attempt_id st →
  (Forall (λ q, Question.question_id q < TestingSystem.next_question_id st')
          (all_questions (TestingSystem.heap st'))
   ∧ NoDup (Question.question_id <$> all_questions (TestingSystem.heap st'))) →
  run_invariant st → run_invariant st'.
Proof.
  intros Hs Ht Ha Hh Hid Hns Hnt Hna [Hqb Hqn] (Hwf & Hids & Hback & Hreg & Hcap & Hall).
  assert (Heap.students (TestingSystem.heap st') = Heap.students (TestingSystem.heap st))
    as Hhs by by rewrite Hh.
  assert (Heap.attempts (TestingSystem.heap st') = Heap.attempts (TestingSystem.heap st))
    as Hha by by rewrite Hh.
  assert (Heap.tests (TestingSystem.heap st')
          = alter f x (Heap.tests (TestingSystem.heap st))) as Hht by by rewrite Hh.
  split_and!.
  - by eapply test_update_well_formed.
  - destruct Hids as (I1 & I2 & I3 & I4 & I5 & I6 & _ & _).
    unfold ids_in_use. simpl. rewrite Hhs, Hha, Hht, Hns, Hnt, Hna.
    split_and!; try done.
    + apply Forall_ids. rewrite alter_fmap_same by done.
      exact (proj1 (Forall_ids _ _ _) I3).
    + by rewrite alter_fmap_same.
  - by eapply test_update_back_linked.
  - by eapply test_update_registered.
  - by eapply test_update_capped.
  - by eapply test_update_all_listed.
Qed.

Lemma add_question_to_test_invariant tid text qt opts corr pts st :
  run_invariant st →
  run_invariant (TestingSystem.add_question_to_test tid text qt opts corr pts st).2.
Proof.
  intros Hinv. unfold TestingSystem.add_question_to_test.
  destruct (TestingSystem.find_test_by_id tid st) as [x|] eqn:Hx; [|done].
  apply find_test_by_id_Some in Hx as (_ & t & Ht & _).
  eapply (test_update_invariant st _ x); try done.
  destruct Hinv as (_ & (_ & _ & _ & _ & _ & _ & Hqb & Hqn) & _).
  eapply (question_ids_grow st _ x _ t); try done.
Qed.

Lemma delete_question_invariant tid qid st :
  run_invariant st → run_invariant (TestingSystem.delete_question tid qid st).2.
Proof.
  intros Hinv. unfold TestingSystem.delete_question.
  destruct (TestingSystem.find_test_by_id tid st) as [x|] eqn:Hx; [|done].
  apply find_test_by_id_Some in Hx as (_ & t & Ht & _).
  eapply (test_update_invariant st _ x); try done.
  destruct Hinv as (_ & (_ & _ & _ & _ & _ & _ & Hqb & Hqn) & _).
  eapply (question_ids_shrink st _ x _ t); try done.
  simpl. apply fmap_sublist, sublist_filter.
Qed.

Lemma toggle_test_status_invariant tid st :
  run_invariant st → run_invariant (TestingSystemApp.toggle_test_status tid st).
Proof.
  intros Hinv. unfold TestingSystemApp.toggle_test_status.
  destruct (TestingSystem.find_test_by_id tid st) as [x|] eqn:Hx; [|done].
  apply find_test_by_id_Some in Hx as (_ & t & Ht & _).
  eapply (test_update_invariant st _ x); try done.
  destruct Hinv as (_ & (_ & _ & _ & _ & _ & _ & Hqb & Hqn) & _).
  eapply (question_ids_shrink st _ x _ t); try done.
Qed.

Lemma toggle_question_status_invariant tid qid st :
  run_invariant st →
  run_invariant (TestingSystemApp.toggle_question_status tid qid st).
Proof.
  intros Hinv. unfold TestingSystemApp.toggle_question_status.
  destruct (TestingSystem.find_test_by_id tid st) as [x|] eqn:Hx; [|done].
  apply find_test_by_id_Some in Hx as (_ & t & Ht & _).
  rewrite Ht. simpl. destruct (Test.find_question qid t); [|done].
  eapply (test_update_invariant st _ x); try done.
  destruct Hinv as (_ & (_ & _ & _ & _ & _ & _ & Hqb & Hqn) & _).
  eapply (question_ids_shrink st _ x _ t); try done.
  simpl. by rewrite toggle_first_ids.
Qed.

Lemma filter_none {A} (P : A → Prop) `{!∀ x, Decision (P x)} (l : list A) :
  (∀ x, x ∈ l → ¬ P x) → filter P l = [].
Proof.
  induction l as [|x l IH]; intros Hno; [done|].
  rewrite filter_cons_False by (apply Hno; left).
  apply IH. intros y Hy. apply Hno. by right.
Qed.

(** In a well-formed state the attempts of the registry are allocated and
    refer to allocated students and tests. *)
Lemma well_formed_attempt (st : TestingSystem.t) (a : loc) :
  well_formed st → a ∈ TestingSystem.attempts st →
  ∃ ao, Heap.attempts (TestingSystem.heap st) !! a = Some ao
        ∧ (TestAttempt.student ao < length (Heap.students (TestingSystem.heap st)))%nat
        ∧ (TestAttempt.test ao < length (Heap.tests (TestingSystem.heap st)))%nat.
Proof.
  intros (_ & _ & Hwa & Hwr & _) Ha.
  rewrite Forall_forall in Hwa. specialize (Hwa _ Ha).
  apply lookup_lt_is_Some_2 in Hwa as [ao Hao]. exists ao. split; [done|].
  by eapply Forall_lookup_1 in Hwr.
Qed.

Lemma add_student_invariant full_name group email st :
  run_invariant st →
  run_invariant (TestingSystem.add_student full_name group email st).2.
Proof.
  intros (Hwf & Hids & Hback & Hreg & Hcap & Hall). split_and!.
  - by apply add_student_well_formed.
  - destruct Hids as (I1 & I2 & I3 & I4 & I5 & I6 & I7 & I8).
    unfold ids_in_use. simpl. split_and!; try done.
    + apply Forall_app. split; [by apply Forall_lt_succ|].
      apply Forall_singleton. simpl. lia.
    + rewrite fmap_app. simpl. apply NoDup_snoc_fresh; [|done].
      exact (proj1 (Forall_ids _ _ _) I1).
  - intros s so. simpl. intros Hs.
    apply lookup_app_Some in Hs as [Hs|[Hlen Hs]].
    + by apply Hback.
    + apply list_lookup_singleton_Some in Hs as [Hs0 <-]. simpl.
      symmetry. apply filter_none. intros a Ha.
      destruct (well_formed_attempt st a Hwf Ha) as (ao & -> & Hlt & _).
      simpl. intros [= Heq]. lia.
  - intros a ao. simpl. intros Ha Hao.
    destruct (Hreg a ao Ha Hao) as [Hs Ht]. split; [|done].
    apply elem_of_app. by left.
  - intros sid tid. specialize (Hcap sid tid).
    unfold TestingSystem.attempts_of_student_on_test in *. simpl.
    erewrite filter_ext_in; [exact Hcap|].
    intros a Ha. simpl.
    destruct (well_formed_attempt st a Hwf Ha) as (ao & Hao & Hlt & _).
    unfold Heap.attempt_student_id, Heap.attempt_test_id. simpl.
    rewrite Hao. simpl. by rewrite lookup_app_l.
  - destruct Hall as [Hs Ha]. unfold all_listed. simpl. split; [|done].
    rewrite length_app. simpl. rewrite Nat.add_1_r, seq_S. simpl. by rewrite Hs.
Qed.

Lemma add_test_invariant title subject time_limit st :
  run_invariant st →
  run_invariant (TestingSystem.add_test title subject time_limit st).2.
Proof.
  intros (Hwf & Hids & Hback & Hreg & Hcap & Hall). split_and!.
  - by apply add_test_well_formed.
  - destruct Hids as (I1 & I2 & I3 & I4 & I5 & I6 & I7 & I8).
    unfold ids_in_use, all_questions. simpl. split_and!; try done.
    + apply Forall_app. split; [by apply Forall_lt_succ|].
      apply Forall_singleton. simpl. lia.
    + rewrite fmap_app. simpl. apply NoDup_snoc_fresh; [|done].
      exact (proj1 (Forall_ids _ _ _) I3).
    + by rewrite fmap_app, concat_app, app_nil_r.
    + by rewrite fmap_app, concat_app, app_nil_r.
  - done.
  - intros a ao. simpl. intros Ha Hao.
    destruct (Hreg a ao Ha Hao) as [Hs Ht]. split; [done|].
    apply elem_of_app. by left.
  - intros sid tid. specialize (Hcap sid tid).
    unfold TestingSystem.attempts_of_student_on_test in *. simpl.
    erewrite filter_ext_in; [exact Hcap|].
    intros a Ha. simpl.
    destruct (well_formed_attempt st a Hwf Ha) as (ao & Hao & _ & Hlt).
    unfold Heap.attempt_student_id, Heap.attempt_test_id. simpl.
    rewrite Hao. simpl. by rewrite lookup_app_l.
  - done.
Qed.

Lemma delete_test_invariant tid st :
  run_invariant st → run_invariant (TestingSystem.delete_test tid st).2.
Proof.
  intros Hinv. pose proof Hinv as (Hwf & Hids & Hback & Hreg & Hcap & Hall).
  pose proof (delete_test_well_formed tid st Hwf) as Hwf'.
  unfold TestingSystem.delete_test in *.
  destruct (TestingSystem.find_test_by_id tid st) as [x|] eqn:Hx; [|done].
  destruct (TestingSystem.attempts_of_test tid st) as [|a0 rest] eqn:Hnone; [|done].
  split_and!; try done.
  intros a ao. simpl. intros Ha Hao.
  destruct (Hreg a ao Ha Hao) as [Hs Ht]. split; [done|].
  apply list_remove_keeps; [done|]. intros Heq.
  apply head_Some_elem_of, list_elem_of_filter in Hx as [Hid _].
  assert (a ∈ TestingSystem.attempts_of_test tid st) as Hin.
  { apply list_elem_of_filter. split; [|done].
    unfold Heap.attempt_test_id. rewrite Hao. simpl. by rewrite Heq. }
  rewrite Hnone in Hin. by apply elem_of_nil in Hin.
Qed.

Lemma run_call_attempt_id (tst : Test.t) (c : TestAttempt.call) (a : TestAttempt.t) :
  TestAttempt.attempt_id (TestAttempt.run_call tst c a) = TestAttempt.attempt_id a.
Proof.
  destruct c as [now|qid ua|now|manual]; simpl; try done.
  - unfold TestAttempt.submit_answer.
    destruct (Test.find_question qid tst) as [q|]; [|done].
    destruct (Question.question_type q); try done;
      by destruct (Question.check_answer q ua).
  - by destruct manual as [[|kv m]|].
Qed.

(** A call on an attempt changes no field that identifies or links it. *)
Lemma run_call_attempts_fmap {B} (g : TestAttempt.t → B) (l : loc)
    (c : TestAttempt.call) (h : Heap.t) :
  (∀ tst a, g (TestAttempt.run_call tst c a) = g a) →
  g <$> Heap.attempts (Heap.run_call l c h) = g <$> Heap.attempts h.
Proof.
  intros Hg. unfold Heap.run_call, Heap.call_attempt.
  destruct (Heap.attempts h !! l) as [a|] eqn:Ha; [|done].
  destruct (Heap.tests h !! TestAttempt.test a) as [tst|]; [|done].
  simpl. rewrite list_fmap_insert, Hg. apply list_insert_id.
  by rewrite list_lookup_fmap, Ha.
Qed.

Lemma run_call_attempts_lookup {B} (g : TestAttempt.t → B) (l j : loc)
    (c : TestAttempt.call) (h : Heap.t) :
  (∀ tst a, g (TestAttempt.run_call tst c a) = g a) →
  g <$> Heap.attempts (Heap.run_call l c h) !! j = g <$> Heap.attempts h !! j.
Proof.
  intros Hg. rewrite <- !list_lookup_fmap. by rewrite run_call_attempts_fmap.
Qed.

Lemma attempt_student_id_by_ref (h : Heap.t) (a : loc) :
  Heap.attempt_student_id h a
  = (TestAttempt.student <$> Heap.attempts h !! a)
      ≫= λ s, Student.student_id <$> Heap.students h !! s.
Proof. unfold Heap.attempt_student_id. by destruct (Heap.attempts h !! a). Qed.

Lemma attempt_test_id_by_ref (h : Heap.t) (a : loc) :
  Heap.attempt_test_id h a
  = (TestAttempt.test <$> Heap.attempts h !! a)
      ≫= λ x, Test.test_id <$> Heap.tests h !! x.
Proof. unfold Heap.attempt_test_id. by destruct (Heap.attempts h !! a). Qed.

Lemma on_heap_fields (f : Heap.t → Heap.t) (st : TestingSystem.t) :
  TestingSystem.heap (TestingSystem.on_heap f st) = f (TestingSystem.heap st)
  ∧ TestingSystem.students (TestingSystem.on_heap f st) = TestingSystem.students st
  ∧ TestingSystem.tests (TestingSystem.on_heap f st) = TestingSystem.tests st
  ∧ TestingSystem.attempts (TestingSystem.on_heap f st) = TestingSystem.attempts st
  ∧ TestingSystem.next_student_id (TestingSystem.on_heap f st)
    = TestingSystem.next_student_id st
  ∧ TestingSystem.next_test_id (TestingSystem.on_heap f st)
    = TestingSystem.next_test_id st
  ∧ TestingSystem.next_attempt_id (TestingSystem.on_heap f st)
    = TestingSystem.next_attempt_id st
  ∧ TestingSystem.next_question_id (TestingSystem.on_heap f st)
    = TestingSystem.next_question_id st.
Proof. by split_and!. Qed.

Lemma run_call_invariant l c st :
  run_invariant st → run_invariant (TestingSystem.on_heap (Heap.run_call l c) st).
Proof.
  intros (Hwf & Hids & Hback & Hreg & Hcap & Hall).
  pose proof (λ j, run_call_attempts_lookup TestAttempt.student l j c
                     (TestingSystem.heap st)
                     (λ tst a, proj1 (run_call_refs tst c a))) as Hstu.
  pose proof (λ j, run_call_attempts_lookup TestAttempt.test l j c
                     (TestingSystem.heap st)
                     (λ tst a, proj2 (run_call_refs tst c a))) as Htst.
  pose proof (run_call_attempts_fmap TestAttempt.attempt_id l c
                (TestingSystem.heap st) (λ tst a, run_call_attempt_id tst c a)) as Haid.
  pose proof (call_attempt_students (TestingSystem.heap st) l
                (λ tst, TestAttempt.run_call tst c)) as Hhs.
  pose proof (call_attempt_tests (TestingSystem.heap st) l
                (λ tst, TestAttempt.run_call tst c)) as Hht.
  fold (Heap.run_call l c (TestingSystem.heap st)) in Hhs, Hht.
  destruct (on_heap_fields (Heap.run_call l c) st)
    as (Eh & Es & Et & Ea & E1 & E2 & E3 & E4).
  split_and!.
  - by apply run_call_well_formed.
  - destruct Hids as (I1 & I2 & I3 & I4 & I5 & I6 & I7 & I8).
    unfold ids_in_use, all_questions. cbv zeta.
    rewrite E1, E2, E3, E4, Eh, Hhs, Hht.
    split_and!; try done.
    + apply (Forall_ids TestAttempt.attempt_id). rewrite Haid.
      exact (proj1 (Forall_ids _ _ _) I5).
    + by rewrite Haid.
  - intros s so. rewrite Eh, Ea, Hhs. intros Hs. rewrite (Hback s so Hs).
    apply list_filter_iff. intros a. by rewrite Hstu.
  - intros a ao'. rewrite Eh, Ea, Es, Et. intros Ha Hao'.
    pose proof (Hstu a) as Hs. pose proof (Htst a) as Ht.
    rewrite Hao' in Hs, Ht. simpl in Hs, Ht.
    destruct (Heap.attempts (TestingSystem.heap st) !! a) as [ao|] eqn:Hao;
      simplify_eq/=.
    destruct (Hreg a ao Ha Hao) as [? ?]. split; congruence.
  - intros sid tid. specialize (Hcap sid tid).
    unfold TestingSystem.attempts_of_student_on_test in *. rewrite Eh, Ea.
    erewrite list_filter_iff; [exact Hcap|].
    intros a. rewrite !attempt_student_id_by_ref, !attempt_test_id_by_ref.
    by rewrite Hstu, Htst, Hhs, Hht.
  - destruct Hall as [Hs Ha]. unfold all_listed. rewrite Eh, Es, Ea, Hhs.
    split; [done|]. rewrite Ha. f_equal.
    apply (f_equal length) in Haid. by rewrite !length_fmap in Haid.
Qed.

Lemma create_attempt_counters now sid tid st s x :
  TestingSystem.find_student_by_id sid st = Some s →
  TestingSystem.find_test_by_id tid st = Some x →
  (length (TestingSystem.attempts_of_student_on_test sid tid st) < 3)%nat →
  let st' := (TestingSystem.create_attempt now sid tid st).2 in
  TestingSystem.next_student_id st' = TestingSystem.next_student_id st
  ∧ TestingSystem.next_test_id st' = TestingSystem.next_test_id st
  ∧ TestingSystem.next_question_id st' = TestingSystem.next_question_id st.
Proof.
  intros Hs Hx Hn. unfold TestingSystem.create_attempt. rewrite Hs, Hx.
  rewrite bool_decide_eq_false_2 by lia. by split_and!.
Qed.

Lemma create_attempt_invariant now sid tid st :
  run_invariant st → run_invariant (TestingSystem.create_attempt now sid tid st).2.
Proof.
  intros Hinv. pose proof Hinv as (Hwf & Hids & Hback & Hreg & Hcap & Hall).
  destruct (TestingSystem.find_student_by_id sid st) as [s|] eqn:Hs;
    [|by unfold TestingSystem.create_attempt; rewrite Hs].
  destruct (TestingSystem.find_test_by_id tid st) as [x|] eqn:Hx;
    [|by unfold TestingSystem.create_attempt; rewrite Hs, Hx].
  destruct (decide (length (TestingSystem.attempts_of_student_on_test sid tid st) < 3)%nat)
    as [Hn|Hge];
    [|by rewrite (create_attempt_refused now sid tid st s x Hs Hx) by lia].
  destruct (create_attempt_fields now sid tid st s x Hs Hx Hn)
    as (Hat & Hss & Hts & Hnext & Hha & Hhs & Hht & _).
  destruct (create_attempt_counters now sid tid st s x Hs Hx Hn) as (Hc1 & Hc2 & Hc3).
  pose proof (create_attempt_new_ids now sid tid st s x Hs Hx Hn) as [Hnew_s Hnew_t].
  pose proof (create_attempt_old_ids now sid tid st s x Hs Hx Hn) as Hold.
  set (st' := (TestingSystem.create_attempt now sid tid st).2) in *.
  set (l := length (Heap.attempts (TestingSystem.heap st))) in *.
  assert (∀ a, a ∈ TestingSystem.attempts st → (a < l)%nat) as Hlt.
  { destruct Hwf as (_ & _ & Hwa & _). by apply Forall_forall. }
  assert (∀ a, a ∈ TestingSystem.attempts st →
               Heap.attempts (TestingSystem.heap st') !! a
               = Heap.attempts (TestingSystem.heap st) !! a) as Hsame.
  { intros a Ha. rewrite Hha. apply lookup_app_l. by apply Hlt. }
  assert (Heap.attempts (TestingSystem.heap st') !! l
          = Some (TestAttempt.new now (TestingSystem.next_attempt_id st) s x)) as Hl.
  { rewrite Hha. by apply list_lookup_middle. }
  split_and!.
  - exact (create_attempt_well_formed now sid tid st s x Hwf Hs Hx Hn).
  - destruct Hids as (I1 & I2 & I3 & I4 & I5 & I6 & I7 & I8).
    unfold ids_in_use, all_questions. cbv zeta.
    rewrite Hc1, Hc2, Hc3, Hnext, Hha, Hhs, Hht.
    split_and!; try done.
    + apply (Forall_ids Student.student_id). rewrite alter_fmap_same by done.
      exact (proj1 (Forall_ids _ _ _) I1).
    + by rewrite alter_fmap_same.
    + apply Forall_app. split; [by apply Forall_lt_succ|].
      apply Forall_singleton. simpl. lia.
    + rewrite fmap_app. simpl. apply NoDup_snoc_fresh; [|done].
      exact (proj1 (Forall_ids _ _ _) I5).
  - intros s' so'. rewrite Hhs, Hat, filter_app. intros Hso'.
    rewrite (filter_ext_in _
               (λ a, TestAttempt.student
                     <$> Heap.attempts (TestingSystem.heap st) !! a = Some s')
               (TestingSystem.attempts st))
      by (intros a Ha; by rewrite Hsame).
    rewrite list_lookup_alter in Hso'. case_decide as Heq.
    + subst s'. destruct (Heap.students (TestingSystem.heap st) !! s) as [so|] eqn:Hso;
        simplify_eq/=.
      rewrite (Hback s so Hso).
      rewrite filter_cons_True, filter_nil; [done|]. by rewrite Hl.
    + rewrite (Hback s' so' Hso').
      rewrite filter_cons_False, filter_nil, app_nil_r; [done|].
      rewrite Hl. simpl. congruence.
  - intros a ao. rewrite Hat, Hss, Hts. intros Ha Hao.
    apply elem_of_app in Ha as [Ha|Ha].
    + rewrite Hsame in Hao by done. by apply (Hreg a ao).
    + apply list_elem_of_singleton in Ha. subst a. rewrite Hl in Hao.
      simplify_eq/=.
      apply find_student_by_id_Some in Hs as [? _].
      apply find_test_by_id_Some in Hx as [? _]. done.
  - intros sid' tid'. pose proof (Hcap sid' tid') as Hc.
    unfold TestingSystem.attempts_of_student_on_test in *.
    rewrite Hat, filter_app, length_app.
    rewrite (filter_ext_in _
               (λ a, Heap.attempt_student_id (TestingSystem.heap st) a = Some sid'
                     ∧ Heap.attempt_test_id (TestingSystem.heap st) a = Some tid')
               (TestingSystem.attempts st)).
    2:{ intros a Ha. by destruct (Hold a (Hlt a Ha)) as [-> ->]. }
    rewrite filter_cons, filter_nil. case_decide as Hmatch; simpl; [|lia].
    rewrite Hnew_s, Hnew_t in Hmatch. destruct Hmatch as [[= <-] [= <-]]. lia.
  - destruct Hall as [Ha1 Ha2]. unfold all_listed.
    rewrite Hss, Hat, Hhs, Hha, length_alter, length_app. split; [done|].
    simpl. rewrite Nat.add_1_r, seq_S. simpl. by rewrite Ha2.
Qed.


(** ** The first start *)

Lemma new_attempts_nil name :
  TestingSystem.attempts (TestingSystem.new name None) = [].
Proof. vm_compute. reflexivity. Qed.

Lemma new_well_formed name : well_formed (TestingSystem.new name None).
Proof. apply (bool_decide_unpack _). vm_compute. exact I. Qed.

Lemma new_ids_in_use name : ids_in_use (TestingSystem.new name None).
Proof.
  unfold ids_in_use. cbv zeta.
  repeat apply conj; (apply (bool_decide_unpack _); vm_compute; exact I).
Qed.

Lemma new_back_linked name : back_linked (TestingSystem.new name None).
Proof.
  intros s so Hs. rewrite new_attempts_nil, filter_nil. vm_compute in Hs.
  destruct s as [|[|[|s]]]; simplify_eq; reflexivity.
Qed.

Lemma new_registered name : registered (TestingSystem.new name None).
Proof.
  intros a ao Ha. rewrite new_attempts_nil in Ha. apply elem_of_nil in Ha.
  destruct Ha.
Qed.

Lemma new_capped name : capped (TestingSystem.new name None).
Proof.
  intros sid tid. unfold TestingSystem.attempts_of_student_on_test.
  rewrite new_attempts_nil, filter_nil. simpl. lia.
Qed.

Lemma new_all_listed name : all_listed (TestingSystem.new name None).
Proof. split; vm_compute; reflexivity. Qed.

(** Every state of a run keeps all of it. *)
Lemma reachable_invariant (st : TestingSystem.t) : reachable st → run_invariant st.
Proof.
  induction 1 as [name | st ? ? ? _ IH | st ? ? ? _ IH | st tid ? ? ? ? ? _ IH
                 | st ? _ IH | st tid qid _ IH | st tid _ IH | st tid qid _ IH
                 | st ? ? ? _ IH | st l c _ IH Hl].
  - exact (conj (new_well_formed name) (conj (new_ids_in_use name)
            (conj (new_back_linked name) (conj (new_registered name)
              (conj (new_capped name) (new_all_listed name)))))).
  - by apply add_student_invariant.
  - by apply add_test_invariant.
  - by apply add_question_to_test_invariant.
  - by apply delete_test_invariant.
  - by apply delete_question_invariant.
  - by apply toggle_test_status_invariant.
  - by apply toggle_question_status_invariant.
  - by apply create_attempt_invariant.
  - by apply run_call_invariant.
Qed.

(** * Properties of every run *)

Lemma demo_evaluated_reachable : reachable demo_evaluated.
Proof.
  unfold demo_evaluated, demo_answered, demo. cbv zeta.
  apply (reach_call _ 2%nat (TestAttempt.Finish 400000000)); [|vm_compute; set_solver].
  apply reach_create_attempt.
  apply (reach_call _ 1%nat (TestAttempt.Evaluate None)); [|vm_compute; set_solver].
  apply (reach_call _ 1%nat (TestAttempt.Finish 250000000)); [|vm_compute; set_solver].
  apply (reach_call _ 1%nat (TestAttempt.SubmitAnswer 1 ["8"])); [|vm_compute; set_solver].
  apply (reach_call _ 1%nat (TestAttempt.Start 70000000)); [|vm_compute; set_solver].
  apply reach_create_attempt.
  apply (reach_call _ 0%nat (TestAttempt.Evaluate (Some [(KInt 3, 3%Q)])));
    [|vm_compute; set_solver].
  apply (reach_call _ 0%nat (TestAttempt.Finish 62000000)); [|vm_compute; set_solver].
  apply (reach_call _ 0%nat (TestAttempt.SubmitAnswer 2 ["7"; "2"; "11"]));
    [|vm_compute; set_solver].
  apply (reach_call _ 0%nat (TestAttempt.SubmitAnswer 1 ["6"])); [|vm_compute; set_solver].
  apply (reach_call _ 0%nat (TestAttempt.Start 2000)); [|vm_compute; set_solver].
  apply reach_create_attempt. apply reach_new.
Qed.

Lemma head_filter_unique {A} (P : A → Prop) `{!∀ x, Decision (P x)} (l : list A) (s : A) :
  s ∈ l → P s → (∀ y, y ∈ l → P y → y = s) → head (filter P l) = Some s.
Proof.
  induction l as [|z l IH]; intros Hin HP Huniq; [by apply elem_of_nil in Hin|].
  rewrite filter_cons. case_decide as Hz.
  - simpl. f_equal. apply Huniq; [left | done].
  - apply IH; [|done|].
    + apply elem_of_cons in Hin as [->|Hin]; [by destruct Hz | done].
    + intros y Hy. apply Huniq. by right.
Qed.

Lemma NoDup_fmap_lookup {A B} (f : A → B) (l : list A) (i j : nat) (a b : A) :
  NoDup (f <$> l) → l !! i = Some a → l !! j = Some b → f a = f b → i = j.
Proof.
  intros Hnd Hi Hj Hab. eapply (NoDup_lookup (f <$> l)); [done|..].
  - by rewrite list_lookup_fmap, Hi.
  - by rewrite list_lookup_fmap, Hj, Hab.
Qed.


(** In a run an id resolves to the one object that carries it. *)
Lemma run_find_student (st : TestingSystem.t) (s : loc) (so : Student.t) :
  run_invariant st →
  s ∈ TestingSystem.students st →
  Heap.students (TestingSystem.heap st) !! s = Some so →
  TestingSystem.find_student_by_id (Student.student_id so) st = Some s.
Proof.
  intros (_ & (_ & I2 & _) & _) Hin Hso. apply head_filter_unique; [done| |].
  - by rewrite Hso.
  - intros y _ Hy.
    destruct (Heap.students (TestingSystem.heap st) !! y) as [yo|] eqn:Hyo; [|done].
    injection Hy as Hy.
    by apply (NoDup_fmap_lookup Student.student_id _ y s yo so I2).
Qed.

Lemma run_find_test (st : TestingSystem.t) (x : loc) (xo : Test.t) :
  run_invariant st →
  x ∈ TestingSystem.tests st →
  Heap.tests (TestingSystem.heap st) !! x = Some xo →
  TestingSystem.find_test_by_id (Test.test_id xo) st = Some x.
Proof.
  intros (_ & (_ & _ & _ & I4 & _) & _) Hin Hxo. apply head_filter_unique; [done| |].
  - by rewrite Hxo.
  - intros y _ Hy.
    destruct (Heap.tests (TestingSystem.heap st) !! y) as [yo|] eqn:Hyo; [|done].
    injection Hy as Hy.
    by apply (NoDup_fmap_lookup Test.test_id _ y x yo xo I4).
Qed.

(** In a run, comparing the student id of an attempt is comparing the
    student it refers to. *)
Lemma run_attempt_student (st : TestingSystem.t) (a s : loc) (so : Student.t) :
  run_invariant st →
  a ∈ TestingSystem.attempts st →
  Heap.students (TestingSystem.heap st) !! s = Some so →
  Heap.attempt_student_id (TestingSystem.heap st) a = Some (Student.student_id so)
  ↔ TestAttempt.student <$> Heap.attempts (TestingSystem.heap st) !! a = Some s.
Proof.
  intros (Hwf & (_ & I2 & _) & _) Ha Hso.
  destruct (well_formed_attempt st a Hwf Ha) as (ao & Hao & Hlt & _).
  apply lookup_lt_is_Some_2 in Hlt as [so' Hso'].
  unfold Heap.attempt_student_id. rewrite Hao. cbn [mbind option_bind fmap option_fmap option_map].
  rewrite Hso'. cbn [fmap option_fmap option_map]. split.
  - intros [= Heq]. f_equal.
    by apply (NoDup_fmap_lookup Student.student_id _ _ _ so' so I2).
  - intros [= Heq]. rewrite Heq in Hso'. congruence.
Qed.

(** * Properties of every run of the application *)









(** * Registering students and tests *)

Lemma filter_lookup_app {A B} `{!EqDecision B} (g : A → B) (b : B) (h1 h2 : list A) (l : list loc) :
  Forall (λ j, (j < length h1)%nat) l →
  filter (λ j, g <$> (h1 ++ h2) !! j = Some b) l
  = filter (λ j, g <$> h1 !! j = Some b) l.
Proof.
  intros Hlt. apply filter_ext_in. intros j Hj.
  rewrite Forall_forall in Hlt. by rewrite lookup_app_l by by apply Hlt.
Qed.





(** * Entities through the file *)

Lemma Students_roundtrip (ss : list Student.t) :
  mapM Student.from_dict (map json_load (student_record <$> ss))
  = Some ((λ s, Student.new (Student.student_id s) (Student.full_name s)
                  (Student.group s) (Student.email s)) <$> ss).
Proof.
  induction ss as [|s ss IH]; [done|].
  rewrite (fmap_cons student_record). cbn [map]. cbn [mapM].
  rewrite <- json_dump_student, Student_roundtrip. cbn [mbind option_bind].
  rewrite IH. done.
Qed.

(** X7. What [to_dict] writes of a question or a test, [from_dict] reads back
    from the file as the same object, questions, flags and threshold
    included; of a student the attempt list is not written and comes back
    empty.  A test record without a [passing_score] member, as an earlier
    format had it, is read with the threshold 60. *)
Theorem entities_read_back :
  (∀ q, Question.from_dict (json_load (json_dump (Question.to_dict q))) = Some q)
  ∧ (∀ x, Test.from_dict (json_load (json_dump (Test.to_dict x))) = Some x)
  ∧ (∀ s, Student.from_dict (json_load (json_dump (Student.to_dict s)))
          = Some (Student.mk (Student.student_id s) (Student.full_name s)
                    (Student.group s) (Student.email s) []))
  ∧ (∀ x, Test.from_dict (json_load (JObj [
              ("test_id", JInt (Test.test_id x));
              ("title", JStr (Test.title x));
              ("subject", JStr (Test.subject x));
              ("time_limit", JInt (Test.time_limit x));
              ("questions", JArr (question_record <$> Test.questions x));
              ("is_active", JBool (Test.is_active x))]))
          = Some (Test.mk (Test.test_id x) (Test.title x) (Test.subject x)
                    (Test.time_limit x) (Test.questions x) (Test.is_active x) 60)).
Proof.
  split_and!.
  - apply Question_roundtrip.
  - apply Test_roundtrip.
  - apply Student_roundtrip.
  - intros [tid ttl sbj lim qs act pass].
    cbn [Test.test_id Test.title Test.subject Test.time_limit Test.questions
         Test.is_active Test.passing_score].
    rewrite <- json_dump_questions.
    cbn [json_load fold_left]. unfold dict_set.
    repeat (rewrite decide_False by (intros [= ?]; done)).
    unfold Test.from_dict. read_fields.
    fold (fmap (M := list) Question.to_dict qs). rewrite Questions_roundtrip.
    cbn [mbind option_bind]. unfold field. cbn [dict_get].
    repeat (rewrite decide_False by (intros [= ?]; done)). done.
Qed.

(** * Questions of a test: deleting and switching *)

Lemma filter_all {A} (P : A → Prop) `{!∀ x, Decision (P x)} (l : list A) :
  (∀ x, x ∈ l → P x) → filter P l = l.
Proof.
  induction l as [|x l IH]; intros Hall; [done|].
  rewrite filter_cons_True by (apply Hall; left).
  f_equal. apply IH. intros y Hy. apply Hall. by right.
Qed.

Lemma set_questions_same (x : Test.t) : Test.set_questions (Test.questions x) x = x.
Proof. by destruct x. Qed.

Lemma find_question_None (question_id : Z) (x : Test.t) :
  Test.find_question question_id x = None
  ↔ ∀ q, q ∈ Test.questions x → Question.question_id q ≠ question_id.
Proof.
  unfold Test.find_question. rewrite head_None. split.
  - intros Hnil q Hq Hid.
    assert (q ∈ filter (λ q, Question.question_id q = question_id) (Test.questions x))
      as Hin by by apply list_elem_of_filter.
    rewrite Hnil in Hin. by apply elem_of_nil in Hin.
  - intros Hno. apply filter_none. intros q Hq. by apply Hno.
Qed.

Lemma remove_question_absent (question_id : Z) (x : Test.t) :
  Test.find_question question_id x = None → Test.remove_question question_id x = x.
Proof.
  intros Hno. unfold Test.remove_question.
  rewrite filter_all; [apply set_questions_same|].
  by apply find_question_None.
Qed.

Lemma heap_update_test_same (x : loc) (f : Test.t → Test.t) (h : Heap.t) :
  (∀ t, Heap.tests h !! x = Some t → f t = t) → Heap.update_test x f h = h.
Proof.
  intros Hf. unfold Heap.update_test. destruct h as [ss ts az]. simpl in *.
  f_equal. apply list_eq. intros j. rewrite list_lookup_alter.
  case_decide as Hj; [subst j|done].
  destruct (ts !! x) as [t|] eqn:Ht; [|done]. simpl. f_equal. by apply Hf.
Qed.

(** X8. [delete_question] answers [False] and changes nothing when the test
    id does not resolve.  When it resolves the answer is [True] in every
    case, also when the test has no question with that id: then no object
    changes, and the file is written again.  Otherwise exactly the questions
    with that id leave the test, the other tests and all attempts, with the
    answers and scores they recorded for the question, stay as they were,
    and the file holds the new state. *)
Theorem delete_question_reports_success (st : TestingSystem.t)
    (test_id question_id : Z) :
  let r := TestingSystem.delete_question test_id question_id st in
  (TestingSystem.find_test_by_id test_id st = None → r = (false, st))
  ∧ (∀ x xo,
       TestingSystem.find_test_by_id test_id st = Some x →
       Heap.tests (TestingSystem.heap st) !! x = Some xo →
       r.1 = true
       ∧ Heap.tests (TestingSystem.heap r.2) !! x
         = Some (Test.remove_question question_id xo)
       ∧ (∀ y, y ≠ x → Heap.tests (TestingSystem.heap r.2) !! y
                       = Heap.tests (TestingSystem.heap st) !! y)
       ∧ Test.find_question question_id (Test.remove_question question_id xo) = None
       ∧ (∀ q, q ∈ Test.questions (Test.remove_question question_id xo)
               ↔ q ∈ Test.questions xo ∧ Question.question_id q ≠ question_id)
       ∧ (Test.find_question question_id xo = None →
          TestingSystem.heap r.2 = TestingSystem.heap st)
       ∧ Heap.attempts (TestingSystem.heap r.2) = Heap.attempts (TestingSystem.heap st)
       ∧ Heap.students (TestingSystem.heap r.2) = Heap.students (TestingSystem.heap st)
       ∧ saved r.2).
Proof.
  intros r. subst r. unfold TestingSystem.delete_question. split.
  - by intros ->.
  - intros x xo -> Hxo. cbn [fst snd]. split_and!; try done.
    + simpl. by rewrite list_lookup_alter_eq, Hxo.
    + intros y Hy. simpl. by rewrite list_lookup_alter_ne.
    + apply find_question_None. intros q Hq.
      by apply list_elem_of_filter in Hq as [Hne _].
    + intros q. simpl. rewrite list_elem_of_filter. tauto.
    + intros Hno. cbn [TestingSystem.heap TestingSystem.save_data
                       TestingSystem.with_disk TestingSystem.with_heap].
      apply heap_update_test_same. intros t Ht.
      assert (t = xo) as -> by congruence. by apply remove_question_absent.
    + apply save_data_saved.
Qed.

Lemma delete_question_reports_success_witness :
  let r := TestingSystem.delete_question 1 99 demo in
  r.1 = true
  ∧ Heap.tests (TestingSystem.heap r.2) !! 0%nat = Some (Test.remove_question 99 demo_test)
  ∧ TestingSystem.heap r.2 = TestingSystem.heap demo
  ∧ saved r.2.
Proof.
  destruct (delete_question_reports_success demo 1 99) as [_ Hfound].
  destruct (Hfound 0%nat demo_test) as (H1 & H2 & _ & _ & _ & H6 & _ & _ & H9).
  - vm_compute. reflexivity.
  - vm_compute. reflexivity.
  - split_and!; [exact H1 | exact H2 | | exact H9].
    apply H6. vm_compute. reflexivity.
Defined.

Lemma toggle_first_twice (question_id : Z) (qs : list Question.t) :
  Test.toggle_first question_id (Test.toggle_first question_id qs) = qs.
Proof.
  induction qs as [|q qs IH]; [done|]. cbn [Test.toggle_first].
  case_decide as Hq; cbn [Test.toggle_first].
  - rewrite decide_True by done. f_equal. destruct q as [? ? ? ? ? ? act].
    unfold Question.toggle_active. simpl. by rewrite negb_involutive.
  - rewrite decide_False by done. by rewrite IH.
Qed.

Lemma find_question_is_Some (question_id : Z) (x : Test.t) :
  is_Some (Test.find_question question_id x)
  ↔ question_id ∈ Question.question_id <$> Test.questions x.
Proof.
  rewrite <- not_eq_None_Some, find_question_None, list_elem_of_fmap. split.
  - intros Hex. destruct (decide (Exists (λ q, Question.question_id q = question_id)
                                         (Test.questions x))) as [He|Hne].
    + apply Exists_exists in He as (q & Hq & Hid). by exists q.
    + destruct Hex. intros q Hq Hid. apply Hne, Exists_exists. by exists q.
  - intros (q & Hid & Hq) Hno. by apply (Hno q).
Qed.

Lemma alter_twice {A} (f : A → A) (l : list A) (i : nat) :
  (∀ x, l !! i = Some x → f (f x) = x) → alter f i (alter f i l) = l.
Proof.
  intros Hf. apply list_eq. intros j.
  destruct (decide (i = j)) as [->|Hne].
  - rewrite !list_lookup_alter_eq. destruct (l !! j) as [x|] eqn:Hx; [|done].
    simpl. f_equal. by apply Hf.
  - by rewrite !list_lookup_alter_ne.
Qed.

Lemma heap_update_test_twice (x : loc) (f : Test.t → Test.t) (h : Heap.t) :
  (∀ t, f (f t) = t) → Heap.update_test x f (Heap.update_test x f h) = h.
Proof.
  intros Hf. destruct h as [ss ts az]. unfold Heap.update_test. simpl. f_equal.
  apply alter_twice. intros t _. apply Hf.
Qed.

Lemma save_data_same (sta stb : TestingSystem.t) :
  TestingSystem.system_name sta = TestingSystem.system_name stb →
  TestingSystem.students sta = TestingSystem.students stb →
  TestingSystem.tests sta = TestingSystem.tests stb →
  TestingSystem.attempts sta = TestingSystem.attempts stb →
  TestingSystem.next_student_id sta = TestingSystem.next_student_id stb →
  TestingSystem.next_test_id sta = TestingSystem.next_test_id stb →
  TestingSystem.next_attempt_id sta = TestingSystem.next_attempt_id stb →
  TestingSystem.next_question_id sta = TestingSystem.next_question_id stb →
  TestingSystem.heap sta = TestingSystem.heap stb →
  TestingSystem.shown sta = TestingSystem.shown stb →
  TestingSystem.save_data sta = TestingSystem.save_data stb.
Proof.
  destruct sta, stb. simpl. intros. subst. reflexivity.
Qed.

Lemma find_test_by_id_update (st : TestingSystem.t) (x : loc) (f : Test.t → Test.t)
    (test_id : Z) :
  (∀ t, Test.test_id (f t) = Test.test_id t) →
  TestingSystem.find_test_by_id test_id
    (TestingSystem.save_data (TestingSystem.on_heap (Heap.update_test x f) st))
  = TestingSystem.find_test_by_id test_id st.
Proof.
  intros Hid. unfold TestingSystem.find_test_by_id. f_equal.
  apply list_filter_iff. intros j.
  pose proof (test_update_test_id st
                (TestingSystem.save_data
                   (TestingSystem.on_heap (Heap.update_test x f) st))
                x f eq_refl Hid j) as Hj.
  by rewrite Hj.
Qed.

(** X9. Switching a test, or a question of a test, off and on again brings
    back the state there was: the registry is as if only [save_data] had
    been called.  With an id that does not resolve nothing happens. *)
Theorem toggle_twice_restores (st : TestingSystem.t) (test_id question_id : Z) :
  TestingSystemApp.toggle_test_status test_id
    (TestingSystemApp.toggle_test_status test_id st)
  = match TestingSystem.find_test_by_id test_id st with
    | Some _ => TestingSystem.save_data st
    | None => st
    end
  ∧ TestingSystemApp.toggle_question_status test_id question_id
      (TestingSystemApp.toggle_question_status test_id question_id st)
    = match x ← TestingSystem.find_test_by_id test_id st;
            t ← Heap.tests (TestingSystem.heap st) !! x;
            Test.find_question question_id t with
      | Some _ => TestingSystem.save_data st
      | None => st
      end.
Proof.
  split.
  - unfold TestingSystemApp.toggle_test_status at 2.
    destruct (TestingSystem.find_test_by_id test_id st) as [x|] eqn:Hx.
    + unfold TestingSystemApp.toggle_test_status.
      rewrite find_test_by_id_update, Hx by done.
      apply save_data_same; try done. simpl.
      apply heap_update_test_twice. intros [? ? ? ? ? act ?].
      unfold Test.toggle_active. simpl. by rewrite negb_involutive.
    + unfold TestingSystemApp.toggle_test_status. by rewrite Hx.
  - unfold TestingSystemApp.toggle_question_status at 2.
    destruct (TestingSystem.find_test_by_id test_id st) as [x|] eqn:Hx;
      cbn [mbind option_bind].
    + destruct (Heap.tests (TestingSystem.heap st) !! x) as [t|] eqn:Ht;
        cbn [mbind option_bind].
      * destruct (Test.find_question question_id t) as [q|] eqn:Hq.
        -- unfold TestingSystemApp.toggle_question_status.
           rewrite find_test_by_id_update, Hx by done.
           assert (is_Some (Heap.tests
                      (TestingSystem.heap
                         (TestingSystem.save_data
                            (TestingSystem.on_heap
                               (Heap.update_test x (Test.toggle_question question_id))
                               st))) !! x
                    ≫= Test.find_question question_id)) as [q' ->].
           { simpl. rewrite list_lookup_alter_eq, Ht. simpl.
             apply find_question_is_Some. simpl. rewrite toggle_first_ids.
             apply find_question_is_Some. by rewrite Hq. }
           apply save_data_same; try done. simpl.
           apply heap_update_test_twice. intros [? ? ? ? qs ? ?].
           unfold Test.toggle_question, Test.set_questions. simpl.
           by rewrite toggle_first_twice.
        -- unfold TestingSystemApp.toggle_question_status.
           rewrite Hx, Ht. cbn [mbind option_bind]. by rewrite Hq.
      * unfold TestingSystemApp.toggle_question_status.
        rewrite Hx, Ht. done.
    + unfold TestingSystemApp.toggle_question_status. by rewrite Hx.
Qed.

(** * Answers and scores of an attempt *)

Lemma submit_answer_fields (tst : Test.t) (question_id : Z) (user_answers : list string)
    (a : TestAttempt.t) :
  let a' := TestAttempt.submit_answer tst question_id user_answers a in
  TestAttempt.answers a' = dict_set (KInt question_id) user_answers (TestAttempt.answers a)
  ∧ TestAttempt.status a' = TestAttempt.status a
  ∧ TestAttempt.final_score a' = TestAttempt.final_score a
  ∧ TestAttempt.percentage a' = TestAttempt.percentage a
  ∧ TestAttempt.is_passed a' = TestAttempt.is_passed a
  ∧ TestAttempt.start_time a' = TestAttempt.start_time a
  ∧ TestAttempt.end_time a' = TestAttempt.end_time a.
Proof.
  intros a'. subst a'. unfold TestAttempt.submit_answer.
  destruct (Test.find_question question_id tst) as [q|]; [|done].
  destruct (Question.question_type q); try done;
    by destruct (Question.check_answer q user_answers).
Qed.

(** X10. [submit_answer] is accepted in every state of the attempt.  It
    records the answers under the id of the question, in place of what was
    recorded there before, and leaves the answers and scores of the other
    questions alone.  A choice question gets a score in the same way: all of
    its points or none.  For a text question, and for an id that is no
    question of the test, the answers are recorded and no score changes.
    The status, the times and the outcome of the attempt stay as they are:
    the final score and the percentage follow only at the next [finish] or
    [evaluate]. *)
Theorem submit_answer_records (tst : Test.t) (question_id : Z)
    (user_answers : list string) (a : TestAttempt.t) :
  let a' := TestAttempt.submit_answer tst question_id user_answers a in
  dict_get (KInt question_id) (TestAttempt.answers a') = Some user_answers
  ∧ (∀ k, k ≠ KInt question_id →
          dict_get k (TestAttempt.answers a') = dict_get k (TestAttempt.answers a)
          ∧ dict_get k (TestAttempt.scores a') = dict_get k (TestAttempt.scores a))
  ∧ match Test.find_question question_id tst with
    | Some q =>
        match Question.question_type q with
        | TEXT_ANSWER => TestAttempt.scores a' = TestAttempt.scores a
        | _ => dict_get (KInt question_id) (TestAttempt.scores a')
               = Some (if Question.check_answer q user_answers
                       then inject_Z (Question.max_points q) else 0%Q)
        end
    | None => TestAttempt.scores a' = TestAttempt.scores a
    end
  ∧ TestAttempt.status a' = TestAttempt.status a
  ∧ TestAttempt.final_score a' = TestAttempt.final_score a
  ∧ TestAttempt.percentage a' = TestAttempt.percentage a
  ∧ TestAttempt.is_passed a' = TestAttempt.is_passed a
  ∧ TestAttempt.start_time a' = TestAttempt.start_time a
  ∧ TestAttempt.end_time a' = TestAttempt.end_time a.
Proof.
  intros a'.
  destruct (submit_answer_fields tst question_id user_answers a)
    as (Hans & Hrest). fold a' in Hans, Hrest.
  split; [by rewrite Hans, dict_get_set_eq|].
  split; [|split; [|exact Hrest]].
  - intros k Hk. rewrite Hans. split; [by apply dict_get_set_ne|].
    subst a'. unfold TestAttempt.submit_answer.
    destruct (Test.find_question question_id tst) as [q|]; [|done].
    destruct (Question.question_type q); try done;
      destruct (Question.check_answer q user_answers); simpl;
      by apply dict_get_set_ne.
  - subst a'. unfold TestAttempt.submit_answer.
    destruct (Test.find_question question_id tst) as [q|]; [|done].
    destruct (Question.question_type q); try done;
      destruct (Question.check_answer q user_answers); simpl;
      by apply dict_get_set_eq.
Qed.

(** * Bounds of the statistics *)

Lemma fold_left_Qplus (l : list Q) (acc : Q) :
  (fold_left Qplus l acc == acc + sum_Q l)%Q.
Proof.
  unfold sum_Q. revert acc. induction l as [|x l IH]; intros acc; simpl.
  - by rewrite Qplus_0_r.
  - rewrite IH, (IH (0 + x)%Q). ring.
Qed.

Lemma sum_Q_cons (x : Q) (l : list Q) : (sum_Q (x :: l) == x + sum_Q l)%Q.
Proof. unfold sum_Q at 1. simpl. rewrite fold_left_Qplus. ring. Qed.

Lemma sum_Q_bounds (lo hi : Q) (l : list Q) :
  Forall (λ x, (lo <= x)%Q ∧ (x <= hi)%Q) l →
  (inject_Z (Z.of_nat (length l)) * lo <= sum_Q l)%Q
  ∧ (sum_Q l <= inject_Z (Z.of_nat (length l)) * hi)%Q.
Proof.
  induction 1 as [|x l [Hlo Hhi] _ [IHlo IHhi]].
  - split; by compute.
  - cbn [length]. rewrite Nat2Z.inj_succ, <- Z.add_1_r, inject_Z_plus, sum_Q_cons.
    split.
    + setoid_replace ((inject_Z (Z.of_nat (length l)) + inject_Z 1) * lo)%Q
        with (lo + inject_Z (Z.of_nat (length l)) * lo)%Q using relation Qeq by ring.
      by apply Qplus_le_compat.
    + setoid_replace ((inject_Z (Z.of_nat (length l)) + inject_Z 1) * hi)%Q
        with (hi + inject_Z (Z.of_nat (length l)) * hi)%Q using relation Qeq by ring.
      by apply Qplus_le_compat.
Qed.

Lemma mean_bounds (lo hi : Q) (l : list Q) :
  l ≠ [] →
  Forall (λ x, (lo <= x)%Q ∧ (x <= hi)%Q) l →
  (lo <= sum_Q l / inject_Z (Z.of_nat (length l)))%Q
  ∧ (sum_Q l / inject_Z (Z.of_nat (length l)) <= hi)%Q.
Proof.
  intros Hne Hall. destruct (sum_Q_bounds lo hi l Hall) as [Hlo Hhi].
  assert (0 < inject_Z (Z.of_nat (length l)))%Q as Hpos.
  { change 0%Q with (inject_Z 0). rewrite <- Zlt_Qlt.
    destruct l; [done|]. simpl. lia. }
  split.
  - apply Qle_shift_div_l; [done|]. by rewrite Qmult_comm.
  - apply Qle_shift_div_r; [done|]. by rewrite Qmult_comm.
Qed.

(** X11. A statistic that [get_test_statistics] returns counts at least one
    attempt, and no more passed attempts than attempts; its pass rate lies
    between 0 and 100, and is 100 exactly when all counted attempts passed;
    its mean score lies between any two bounds that hold for the percentages
    of all evaluated attempts of the test. *)
Theorem statistics_bounds (test_id : Z) (st : TestingSystem.t) (r : Statistics) :
  TestingSystem.get_test_statistics test_id st = Some r →
  (0 < total_attempts r)%nat
  ∧ (passed_attempts r ≤ total_attempts r)%nat
  ∧ (0 <= success_rate r)%Q
  ∧ (success_rate r <= 100)%Q
  ∧ (success_rate r == 100 ↔ passed_attempts r = total_attempts r)%Q
  ∧ (∀ lo hi,
       (∀ ao, ao ∈ TestingSystem.evaluated_attempts test_id st →
              (lo <= TestAttempt.percentage ao)%Q ∧ (TestAttempt.percentage ao <= hi)%Q) →
       (lo <= avg_score r)%Q ∧ (avg_score r <= hi)%Q).
Proof.
  unfold TestingSystem.get_test_statistics.
  destruct (TestingSystem.evaluated_attempts test_id st) as [|a0 rest] eqn:Hev; [done|].
  intros [= <-]. cbn [total_attempts passed_attempts success_rate avg_score].
  set (evaluated := a0 :: rest).
  set (t := length evaluated).
  set (p := length (filter (λ a, TestAttempt.is_passed a = true) evaluated)).
  assert (0 < t)%nat as Ht by (unfold t; simpl; lia).
  assert (p ≤ t)%nat as Hp by apply length_filter.
  change (S (length rest)) with t.
  change (TestAttempt.percentage a0 :: list_fmap _ _ TestAttempt.percentage rest)
    with (TestAttempt.percentage <$> evaluated).
  assert (0 < inject_Z (Z.of_nat t))%Q as Hpos.
  { change 0%Q with (inject_Z 0). rewrite <- Zlt_Qlt. lia. }
  assert (0 <= inject_Z (Z.of_nat p))%Q as Hp0.
  { change 0%Q with (inject_Z 0). rewrite <- Zle_Qle. lia. }
  split_and!; try done.
  - apply Qmult_le_0_compat; [|by compute].
    apply Qle_shift_div_l; [done|]. by rewrite Qmult_0_l.
  - setoid_replace (100 : Q) with (1 * 100)%Q using relation Qeq at 2 by ring.
    apply Qmult_le_compat_r; [|by compute].
    apply Qle_shift_div_r; [done|]. rewrite Qmult_1_l, <- Zle_Qle. lia.
  - assert (¬ inject_Z (Z.of_nat t) == 0)%Q as Hnz.
    { intros Hz. apply Qlt_not_eq in Hpos. by rewrite Hz in Hpos. }
    split.
    + intros Heq.
      assert (inject_Z (Z.of_nat p)
              == inject_Z (Z.of_nat p) / inject_Z (Z.of_nat t) * 100
                 * (inject_Z (Z.of_nat t) / 100))%Q as Hp1 by by field.
      rewrite Heq in Hp1.
      assert (inject_Z (Z.of_nat p) == inject_Z (Z.of_nat t))%Q as Hp2
        by (rewrite Hp1; field).
      apply Nat2Z.inj. exact (proj1 (inject_Z_injective _ _) Hp2).
    + intros ->. by field.
  - intros lo hi Hall. unfold t.
    rewrite <- (length_fmap TestAttempt.percentage evaluated).
    apply mean_bounds.
    + done.
    + apply Forall_fmap, Forall_forall. intros ao Hao. by apply Hall.
Qed.

Lemma statistics_bounds_witness :
  ∃ r, TestingSystem.get_test_statistics 1 demo_evaluated = Some r
       ∧ (0 < total_attempts r)%nat
       ∧ (passed_attempts r ≤ total_attempts r)%nat
       ∧ (0 <= success_rate r)%Q
       ∧ (success_rate r <= 100)%Q.
Proof.
  assert (is_Some (TestingSystem.get_test_statistics 1 demo_evaluated)) as [r Hr]
    by (vm_compute; eexists; reflexivity).
  exists r. split; [exact Hr|].
  destruct (statistics_bounds 1 demo_evaluated r Hr) as (H1 & H2 & H3 & H4 & _).
  exact (conj H1 (conj H2 (conj H3 H4))).
Defined.

(** * Method calls on an attempt and the file *)

Lemma omap_eq_pointwise {A B} (f g : A → option B) (l : list A) :
  Forall (λ a, is_Some (f a) ∧ is_Some (g a)) l →
  omap f l = omap g l → ∀ a, a ∈ l → f a = g a.
Proof.
  induction 1 as [|x l [[u Hu] [v Hv]] _ IH]; intros Heq a Ha.
  - by apply elem_of_nil in Ha.
  - simpl in Heq. rewrite Hu, Hv in Heq. injection Heq as Huv Heq.
    apply elem_of_cons in Ha as [->|Ha]; [congruence | by apply IH].
Qed.

Lemma attempt_record_at_Some (st : TestingSystem.t) (a : loc) :
  well_formed st → a ∈ TestingSystem.attempts st →
  ∃ ao so xo,
    Heap.attempts (TestingSystem.heap st) !! a = Some ao
    ∧ attempt_record_at (TestingSystem.heap st) a
      = Some (attempt_record (Student.student_id so) (Test.test_id xo) ao).
Proof.
  intros Hwf Ha. destruct (well_formed_attempt st a Hwf Ha) as (ao & Hao & Hls & Hlx).
  apply lookup_lt_is_Some_2 in Hls as [so Hso].
  apply lookup_lt_is_Some_2 in Hlx as [xo Hxo].
  exists ao, so, xo. split; [done|].
  unfold attempt_record_at. rewrite Hao. cbn [mbind option_bind].
  rewrite Hso. cbn [mbind option_bind]. by rewrite Hxo.
Qed.

Lemma TestStatus_name_inj (s1 s2 : TestStatus) :
  TestStatus_name s1 = TestStatus_name s2 → s1 = s2.
Proof.
  intros Heq. apply (f_equal TestStatus_of_name) in Heq.
  rewrite !TestStatus_of_name_name in Heq. congruence.
Qed.

(** X12. A method call on an attempt ([start_attempt], [submit_answer],
    [finish_attempt], [evaluate_attempt]) changes that one attempt and nothing
    else: not the registry, not a student or a test, not another attempt, and
    not the file.  So when the file held the state before and the call
    changes the status of the attempt, the file no longer holds the state:
    the change is on disk only after a later operation of the registry has
    saved. *)
Theorem attempt_calls_do_not_save (st : TestingSystem.t) (l : loc)
    (c : TestAttempt.call) :
  let st' := TestingSystem.on_heap (Heap.run_call l c) st in
  TestingSystem.disk st' = TestingSystem.disk st
  ∧ TestingSystem.students st' = TestingSystem.students st
  ∧ TestingSystem.tests st' = TestingSystem.tests st
  ∧ TestingSystem.attempts st' = TestingSystem.attempts st
  ∧ Heap.students (TestingSystem.heap st') = Heap.students (TestingSystem.heap st)
  ∧ Heap.tests (TestingSystem.heap st') = Heap.tests (TestingSystem.heap st)
  ∧ (∀ j, j ≠ l → Heap.attempts (TestingSystem.heap st') !! j
                  = Heap.attempts (TestingSystem.heap st) !! j)
  ∧ (reachable st → saved st → l ∈ TestingSystem.attempts st →
     TestAttempt.status <$> Heap.attempts (TestingSystem.heap st') !! l
     ≠ TestAttempt.status <$> Heap.attempts (TestingSystem.heap st) !! l →
     ¬ saved st').
Proof.
  intros st'. split_and!; try done.
  - apply call_attempt_students.
  - apply call_attempt_tests.
  - intros j Hj. subst st'. simpl. unfold Heap.run_call, Heap.call_attempt.
    destruct (Heap.attempts (TestingSystem.heap st) !! l) as [a|]; [|done].
    destruct (Heap.tests (TestingSystem.heap st) !! TestAttempt.test a); [|done].
    simpl. by apply list_lookup_insert_ne.
  - intros Hreach Hsaved Hl Hstatus Hsaved'.
    pose proof (reachable_well_formed st Hreach) as Hwf.
    pose proof (run_call_well_formed l c st Hwf) as Hwf'. fold st' in Hwf'.
    unfold saved in Hsaved, Hsaved'.
    change (TestingSystem.disk st') with (TestingSystem.disk st) in Hsaved'.
    rewrite Hsaved in Hsaved'. injection Hsaved' as _ _ Hattempts.
    change (TestingSystem.attempts st') with (TestingSystem.attempts st) in Hattempts.
    assert (attempt_record_at (TestingSystem.heap st) l
            = attempt_record_at (TestingSystem.heap st') l) as Hrec.
    { apply (omap_eq_pointwise _ _ (TestingSystem.attempts st)); [|done..].
      apply Forall_forall. intros a Ha. split.
      - destruct (attempt_record_at_Some st a Hwf Ha) as (? & ? & ? & _ & ->). eauto.
      - destruct (attempt_record_at_Some st' a Hwf' Ha) as (? & ? & ? & _ & ->). eauto. }
    destruct (attempt_record_at_Some st l Hwf Hl) as (ao & so & xo & Hao & Hr).
    destruct (attempt_record_at_Some st' l Hwf' Hl) as (ao' & so' & xo' & Hao' & Hr').
    rewrite Hr, Hr' in Hrec. rewrite Hao, Hao' in Hstatus. simpl in Hstatus.
    injection Hrec. intros.
    match goal with
    | Hname : TestStatus_name _ = TestStatus_name _ |- _ =>
        apply TestStatus_name_inj in Hname; congruence
    end.
Qed.

Lemma attempt_calls_do_not_save_witness :
  let st := (TestingSystem.create_attempt 1000 1 1 demo).2 in
  let st' := TestingSystem.on_heap (Heap.run_call 0%nat (TestAttempt.Start 2000)) st in
  saved st ∧ TestingSystem.disk st' = TestingSystem.disk st ∧ ¬ saved st'.
Proof.
  intros st st'.
  assert (saved st) as Hsaved by (vm_compute; reflexivity).
  split; [exact Hsaved|].
  destruct (attempt_calls_do_not_save st 0%nat (TestAttempt.Start 2000))
    as (H1 & _ & _ & _ & _ & _ & _ & H8).
  split; [exact H1|]. apply H8.
  - apply reach_create_attempt, reach_new.
  - exact Hsaved.
  - vm_compute. left.
  - vm_compute. intros Heq. discriminate Heq.
Defined.

(** * Durations *)

(** X13. The duration of an attempt is 0 until it is finished.  Finished after
    a start, it is the time between the two calls in minutes, and later
    answers or an evaluation do not change it.  A [start_attempt] after the
    [finish_attempt] sets a start time later than the end time, and the
    duration is then negative. *)
Theorem duration_of_an_attempt (tst : Test.t) (a : TestAttempt.t) :
  (∀ now attempt_id student test,
     TestAttempt.get_duration (TestAttempt.new now attempt_id student test) = 0%Q)
  ∧ (∀ now, TestAttempt.end_time a = None →
            TestAttempt.get_duration (TestAttempt.start_attempt now a) = 0%Q)
  ∧ (∀ t0 t1,
       TestAttempt.get_duration
         (TestAttempt.finish_attempt t1 tst (TestAttempt.start_attempt t0 a))
       == inject_Z (t1 - t0) / 60000000)%Q
  ∧ (∀ c, match c with
          | TestAttempt.SubmitAnswer _ _ | TestAttempt.Evaluate _ => True
          | _ => False
          end →
          TestAttempt.get_duration (TestAttempt.run_call tst c a)
          = TestAttempt.get_duration a)
  ∧ (∀ t1 t2, t1 < t2 →
       (TestAttempt.get_duration
          (TestAttempt.start_attempt t2 (TestAttempt.finish_attempt t1 tst a)) < 0)%Q).
Proof.
  split_and!.
  - done.
  - intros now Hend. unfold TestAttempt.get_duration. simpl. by rewrite Hend.
  - intros t0 t1. unfold TestAttempt.get_duration. simpl. by field.
  - intros [now|qid ua|now|manual] Hc; try done.
    + destruct (submit_answer_fields tst qid ua a) as (_ & _ & _ & _ & _ & Hs & He).
      unfold TestAttempt.get_duration. simpl. by rewrite Hs, He.
    + unfold TestAttempt.get_duration. simpl. by destruct manual as [[|kv m]|].
  - intros t1 t2 Hlt. unfold TestAttempt.get_duration. simpl.
    unfold Qdiv. apply Qlt_shift_div_r; [done|]. apply Qlt_shift_div_r; [done|].
    rewrite !Qmult_0_l. change 0%Q with (inject_Z 0). rewrite <- Zlt_Qlt. lia.
Qed.

Lemma duration_of_an_attempt_witness :
  TestAttempt.get_duration (TestAttempt.start_attempt 2000 demo_attempt) = 0%Q
  ∧ (TestAttempt.get_duration
       (TestAttempt.start_attempt 90000000%Z
          (TestAttempt.finish_attempt 62000000%Z demo_test demo_attempt)) < 0)%Q.
Proof.
  destruct (duration_of_an_attempt demo_test demo_attempt) as (_ & H2 & _ & _ & H5).
  split.
  - apply H2. vm_compute. reflexivity.
  - apply H5. lia.
Defined.

(** * Groups, and tests that are switched off *)



Lemma attempts_of_student_on_test_update (st : TestingSystem.t) (x : loc)
    (f : Test.t → Test.t) (student_id test_id : Z) :
  (∀ t, Test.test_id (f t) = Test.test_id t) →
  TestingSystem.attempts_of_student_on_test student_id test_id
    (TestingSystem.save_data (TestingSystem.on_heap (Heap.update_test x f) st))
  = TestingSystem.attempts_of_student_on_test student_id test_id st.
Proof.
  intros Hid. unfold TestingSystem.attempts_of_student_on_test.
  apply list_filter_iff. intros a.
  destruct (test_update_attempt_ids st
              (TestingSystem.save_data (TestingSystem.on_heap (Heap.update_test x f) st))
              x f eq_refl eq_refl eq_refl Hid a) as [Hs Ht].
  by rewrite Hs, Ht.
Qed.

(** X15. [create_attempt] does not look at the flag of the test: switching a
    test off or on changes nothing in what a later [create_attempt] answers,
    and a test that is switched off is given a new attempt like any other,
    as long as the student has fewer than three on it. *)
Theorem create_attempt_ignores_activity (st : TestingSystem.t) (now : datetime)
    (student_id test_id : Z) :
  (∀ other,
     (TestingSystem.create_attempt now student_id test_id
        (TestingSystemApp.toggle_test_status other st)).1
     = (TestingSystem.create_attempt now student_id test_id st).1)
  ∧ (∀ s x xo,
       TestingSystem.find_student_by_id student_id st = Some s →
       TestingSystem.find_test_by_id test_id st = Some x →
       Heap.tests (TestingSystem.heap st) !! x = Some xo →
       Test.is_active xo = false →
       (length (TestingSystem.attempts_of_student_on_test student_id test_id st) < 3)%nat →
       (TestingSystem.create_attempt now student_id test_id st).1
       = Some (length (Heap.attempts (TestingSystem.heap st)))).
Proof.
  split.
  - intros other. unfold TestingSystemApp.toggle_test_status.
    destruct (TestingSystem.find_test_by_id other st) as [y|]; [|done].
    unfold TestingSystem.create_attempt.
    rewrite find_test_by_id_update, attempts_of_student_on_test_update by done.
    change (TestingSystem.find_student_by_id student_id
              (TestingSystem.save_data
                 (TestingSystem.on_heap (Heap.update_test y Test.toggle_active) st)))
      with (TestingSystem.find_student_by_id student_id st).
    destruct (TestingSystem.find_student_by_id student_id st) as [s|]; [|done].
    destruct (TestingSystem.find_test_by_id test_id st) as [x|]; [|done].
    by case_bool_decide.
  - intros s x xo Hs Hx _ _ Hn.
    by rewrite (create_attempt_accepted now student_id test_id st s x Hs Hx Hn).
Qed.

Lemma create_attempt_ignores_activity_witness :
  let st := TestingSystemApp.toggle_test_status 2 demo in
  (Test.is_active <$> Heap.tests (TestingSystem.heap st) !! 1%nat) = Some false
  ∧ (TestingSystem.create_attempt 1000 3 2 st).1
    = Some (length (Heap.attempts (TestingSystem.heap st))).
Proof.
  intros st. split; [vm_compute; reflexivity|].
  destruct (create_attempt_ignores_activity st 1000 3 2) as [_ H2].
  apply (H2 2%nat 1%nat (Test.toggle_active
                            (default demo_test
                               (Heap.tests (TestingSystem.heap demo) !! 1%nat)))).
  - vm_compute. reflexivity.
  - vm_compute. reflexivity.
  - vm_compute. reflexivity.
  - vm_compute. reflexivity.
  - vm_compute. lia.
Defined.

(** * Scores within the maximum *)

Lemma dict_get_Some_elem {V} (k : key) (v : V) (d : dict V) :
  dict_get k d = Some v → (k, v) ∈ d.
Proof.
  induction d as [|[k' v'] d IH]; simpl; [done|].
  case_decide as Hk.
  - intros [= ->]. subst k'. left.
  - intros Hget. right. by apply IH.
Qed.

Lemma dict_get_None_key {V} (k : key) (d : dict V) :
  k ∉ d.*1 → dict_get k d = None.
Proof.
  induction d as [|[k' v'] d IH]; simpl; [done|].
  rewrite not_elem_of_cons. intros [Hne Hnin]. rewrite decide_False by done.
  by apply IH.
Qed.

Lemma dict_set_NoDup {V} (k : key) (v : V) (d : dict V) :
  NoDup d.*1 → NoDup (dict_set k v d).*1.
Proof.
  induction d as [|[k' v'] d IH]; simpl.
  - intros _. apply NoDup_singleton.
  - rewrite NoDup_cons. intros [Hnin Hnd]. case_decide as Hk; simpl.
    + by apply NoDup_cons.
    + apply NoDup_cons. split; [|by apply IH].
      intros Hin. apply dict_set_keys in Hin as [->|Hin]; done.
Qed.

Lemma dict_set_Forall {V} (P : key * V → Prop) (k : key) (v : V) (d : dict V) :
  (∀ v', P (k, v') → P (k, v)) → P (k, v) → Forall P d → Forall P (dict_set k v d).
Proof.
  intros Hsame Hnew. induction 1 as [|[k' v'] d Hkv Hd IH]; simpl.
  - by apply Forall_singleton.
  - case_decide as Hk.
    + subst k'. by apply Forall_cons.
    + by apply Forall_cons.
Qed.

Lemma dict_set_scored (qs : list Question.t) (q : Question.t) (v : Q) (d : dict Q) :
  q ∈ qs → (0 <= v)%Q → (v <= inject_Z (Question.max_points q))%Q →
  scored_by qs d → scored_by qs (dict_set (KInt (Question.question_id q)) v d).
Proof.
  intros Hq H0 Hv [Hnd Hall]. split; [by apply dict_set_NoDup|].
  apply dict_set_Forall; [| |done]; intros; exists q; by split_and!.
Qed.

Lemma run_call_scored (tst : Test.t) (c : TestAttempt.call) (a : TestAttempt.t) :
  Forall (λ q, 0 ≤ Question.max_points q) (Test.questions tst) →
  automatic c →
  scored_by (Test.questions tst) (TestAttempt.scores a) →
  scored_by (Test.questions tst) (TestAttempt.scores (TestAttempt.run_call tst c a)).
Proof.
  intros Hpts Hc Hsc. destruct c as [now|qid ua|now|manual]; simpl; try done.
  - unfold TestAttempt.submit_answer.
    destruct (Test.find_question qid tst) as [q|] eqn:Hq; [|done].
    apply head_Some_elem_of, list_elem_of_filter in Hq as [<- Hq].
    assert (0 <= inject_Z (Question.max_points q))%Q as Hq0.
    { change 0%Q with (inject_Z 0). rewrite <- Zle_Qle.
      rewrite Forall_forall in Hpts. by apply Hpts. }
    destruct (Question.question_type q); try done;
      destruct (Question.check_answer q ua); simpl;
      apply dict_set_scored; try done; apply Qle_refl.
  - by destruct manual as [[|kv m]|].
Qed.

Lemma run_calls_scored (tst : Test.t) (calls : list TestAttempt.call)
    (a : TestAttempt.t) :
  Forall (λ q, 0 ≤ Question.max_points q) (Test.questions tst) →
  Forall automatic calls →
  scored_by (Test.questions tst) (TestAttempt.scores a) →
  scored_by (Test.questions tst) (TestAttempt.scores (run_calls tst calls a)).
Proof.
  intros Hpts Hcalls. revert a.
  induction Hcalls as [|c calls Hc _ IH]; intros a Hsc; [done|].
  apply IH. by apply run_call_scored.
Qed.

Lemma sum_Q_split_key (k : key) (d : dict Q) :
  NoDup d.*1 →
  (sum_Q (dict_values d)
   == default 0 (dict_get k d)
      + sum_Q (dict_values (filter (λ kv, kv.1 ≠ k) d)))%Q.
Proof.
  unfold dict_values, dict in *. induction d as [|[k' v'] d IH].
  - intros _. by compute.
  - rewrite fmap_cons, NoDup_cons. intros [Hnin Hnd].
    pose proof (filter_cons (λ kv : key * Q, kv.1 ≠ k) (k', v') d) as Hf.
    cbn [fst] in Hf, Hnin. cbn [map snd dict_get].
    destruct (decide (k = k')) as [<-|Hk].
    + rewrite decide_False in Hf by (intros Hne; by apply Hne).
      rewrite Hf, sum_Q_cons. rewrite filter_all; [done|].
      intros [k0 v0] Hin. cbn [fst]. intros ->. apply Hnin.
      apply list_elem_of_fmap. by exists (k, v0).
    + rewrite decide_True in Hf by congruence.
      rewrite Hf. cbn [map snd]. rewrite !sum_Q_cons, (IH Hnd). ring.
Qed.

Lemma sum_Q_nonneg (l : list Q) : Forall (λ x, (0 <= x)%Q) l → (0 <= sum_Q l)%Q.
Proof.
  induction 1 as [|x l Hx _ IH]; [by compute|].
  rewrite sum_Q_cons. setoid_replace (0 : Q) with (0 + 0)%Q using relation Qeq by ring.
  by apply Qplus_le_compat.
Qed.

(** The scores of distinct questions add up to no more than their points. *)
Lemma scored_by_bound (qs : list Question.t) (d : dict Q) :
  NoDup (Question.question_id <$> qs) →
  Forall (λ q, 0 ≤ Question.max_points q) qs →
  scored_by qs d →
  (sum_Q (dict_values d) <= inject_Z (sum_Z (Question.max_points <$> qs)))%Q.
Proof.
  revert d. induction qs as [|q qs IH]; intros d Hnd Hpts [Hkeys Hall].
  - destruct d as [|kv d]; [by compute|].
    apply Forall_cons in Hall as [(q & Hq & _) _]. by apply elem_of_nil in Hq.
  - rewrite fmap_cons in Hnd. apply NoDup_cons in Hnd as [Hfresh Hnd].
    apply Forall_cons in Hpts as [Hq0 Hpts].
    rewrite (sum_Q_split_key (KInt (Question.question_id q)) d Hkeys).
    rewrite fmap_cons, sum_Z_cons, inject_Z_plus.
    apply Qplus_le_compat.
    + destruct (dict_get (KInt (Question.question_id q)) d) as [v|] eqn:Hget; simpl.
      * apply dict_get_Some_elem in Hget. rewrite Forall_forall in Hall.
        destruct (Hall _ Hget) as (q' & Hq' & Hid & _ & Hv). simpl in Hid, Hv.
        injection Hid as Hid.
        apply elem_of_cons in Hq' as [->|Hq']; [done|].
        destruct Hfresh. rewrite Hid. apply list_elem_of_fmap. by exists q'.
      * change 0%Q with (inject_Z 0). by rewrite <- Zle_Qle.
    + apply IH; [done..|]. split.
      * apply (sublist_NoDup _ d.*1); [exact Hkeys|].
        apply fmap_sublist, sublist_filter.
      * apply Forall_forall. intros kv Hkv.
        apply list_elem_of_filter in Hkv as [Hne Hkv]. rewrite Forall_forall in Hall.
        destruct (Hall _ Hkv) as (q' & Hq' & Hid & H0 & Hv).
        exists q'. split_and!; try done.
        apply elem_of_cons in Hq' as [->|Hq']; [|done]. by destruct Hne.
Qed.

(** X16. While the questions of a test have distinct ids and non-negative
    points, the scores an attempt collects from any sequence of method calls
    without manual scores, starting with none, add up to at least 0 and at
    most the points of all questions of the test.  With all questions
    active that sum of points is the maximum score, so finishing the attempt
    gives a final score of at most the maximum and a percentage between 0
    and 100. *)
Theorem score_within_maximum (tst : Test.t) (calls : list TestAttempt.call)
    (a : TestAttempt.t) :
  NoDup (Question.question_id <$> Test.questions tst) →
  Forall (λ q, 0 ≤ Question.max_points q) (Test.questions tst) →
  TestAttempt.scores a = [] →
  Forall automatic calls →
  let a' := run_calls tst calls a in
  let total := sum_Q (dict_values (TestAttempt.scores a')) in
  (0 <= total)%Q
  ∧ (total <= inject_Z (sum_Z (Question.max_points <$> Test.questions tst)))%Q
  ∧ (Forall (λ q, Question.is_active q = true) (Test.questions tst) →
     ∀ now,
       let finished := TestAttempt.finish_attempt now tst a' in
       (TestAttempt.final_score finished <= inject_Z (Test.get_max_score tst))%Q
       ∧ (0 <= TestAttempt.percentage finished)%Q
       ∧ (TestAttempt.percentage finished <= 100)%Q).
Proof.
  intros Hnd Hpts Hempty Hcalls a' total.
  assert (scored_by (Test.questions tst) (TestAttempt.scores a')) as Hsc.
  { apply run_calls_scored; try done. rewrite Hempty. split; [apply NoDup_nil_2|done]. }
  assert (0 <= total)%Q as H0.
  { apply sum_Q_nonneg. unfold dict_values. apply Forall_fmap.
    destruct Hsc as [_ Hall]. eapply Forall_impl; [exact Hall|].
    by intros kv (_ & _ & _ & Hkv & _). }
  pose proof (scored_by_bound _ _ Hnd Hpts Hsc) as Hle. fold total in Hle.
  split; [done|]. split; [done|].
  intros Hact now finished.
  assert (Test.get_max_score tst = sum_Z (Question.max_points <$> Test.questions tst))
    as Hmax.
  { unfold Test.get_max_score, Test.get_active_questions. rewrite filter_all; [done|].
    by apply Forall_forall. }
  subst finished. unfold TestAttempt.finish_attempt, TestAttempt.calculate_score.
  cbn [TestAttempt.final_score TestAttempt.percentage TestAttempt.with_outcome
       TestAttempt.scores TestAttempt.with_end_time TestAttempt.with_status].
  fold total. rewrite Hmax. split; [done|].
  case_bool_decide as Hpos; [|by split; compute].
  assert (0 < inject_Z (sum_Z (Question.max_points <$> Test.questions tst)))%Q as Hq.
  { change 0%Q with (inject_Z 0). by rewrite <- Zlt_Qlt. }
  split.
  - apply Qmult_le_0_compat; [|by compute].
    apply Qle_shift_div_l; [done|]. by rewrite Qmult_0_l.
  - setoid_replace (100 : Q) with (1 * 100)%Q using relation Qeq at 2 by ring.
    apply Qmult_le_compat_r; [|by compute].
    apply Qle_shift_div_r; [done|]. by rewrite Qmult_1_l.
Qed.

Lemma score_within_maximum_witness :
  let a := TestAttempt.new 1000 1 0%nat 0%nat in
  let calls := [TestAttempt.Start 2000; TestAttempt.SubmitAnswer 1 ["8"];
                TestAttempt.SubmitAnswer 2 ["7"; "2"; "11"];
                TestAttempt.SubmitAnswer 1 ["6"]; TestAttempt.Evaluate None] in
  let finished := TestAttempt.finish_attempt 3000 demo_test (run_calls demo_test calls a) in
  (TestAttempt.final_score finished <= inject_Z (Test.get_max_score demo_test))%Q
  ∧ (0 <= TestAttempt.percentage finished)%Q
  ∧ (TestAttempt.percentage finished <= 100)%Q.
Proof.
  intros a calls finished.
  destruct (score_within_maximum demo_test calls a) as (_ & _ & H3).
  - apply (bool_decide_unpack _). vm_compute. exact I.
  - apply (bool_decide_unpack _). vm_compute. exact I.
  - reflexivity.
  - repeat constructor.
  - apply H3. apply (bool_decide_unpack _). vm_compute. exact I.
Defined.

(** * Manual scores *)

Lemma dict_update_cons {V} (d : dict V) (k : key) (v : V) (m : dict V) :
  dict_update d ((k, v) :: m) = dict_update (dict_set k v d) m.
Proof. reflexivity. Qed.

Lemma dict_get_update {V} (k : key) (d m : dict V) :
  NoDup m.*1 →
  dict_get k (dict_update d m)
  = match dict_get k m with
    | Some v => Some v
    | None => dict_get k d
    end.
Proof.
  revert d. induction m as [|[k1 v1] m IH]; intros d Hnd; [done|].
  rewrite fmap_cons in Hnd. apply NoDup_cons in Hnd as [Hfresh Hnd].
  rewrite dict_update_cons, IH by done. cbn [dict_get].
  destruct (decide (k = k1)) as [->|Hne].
  - rewrite dict_get_None_key by done. apply dict_get_set_eq.
  - destruct (dict_get k m); [done|]. apply dict_get_set_ne. congruence.
Qed.

(** X17. [evaluate_attempt] with manual scores replaces the score of every
    question the manual scores name, adds a score for a key that had none,
    whether it is a question of the test or not, and keeps the other scores;
    the answers stay as they are, and the final score is the sum of the
    scores after that.  An empty dictionary of manual scores is the same as
    none. *)
Theorem evaluate_attempt_manual_scores (tst : Test.t) (manual_scores : dict Q)
    (a : TestAttempt.t) :
  let a' := TestAttempt.evaluate_attempt tst (Some manual_scores) a in
  (NoDup manual_scores.*1 →
   ∀ k, dict_get k (TestAttempt.scores a')
        = match dict_get k manual_scores with
          | Some v => Some v
          | None => dict_get k (TestAttempt.scores a)
          end)
  ∧ TestAttempt.scores a' = dict_update (TestAttempt.scores a) manual_scores
  ∧ TestAttempt.answers a' = TestAttempt.answers a
  ∧ TestAttempt.final_score a'
    = sum_Q (dict_values (dict_update (TestAttempt.scores a) manual_scores))
  ∧ TestAttempt.status a' = EVALUATED
  ∧ TestAttempt.evaluate_attempt tst (Some []) a = TestAttempt.evaluate_attempt tst None a.
Proof.
  intros a'.
  assert (TestAttempt.scores a' = dict_update (TestAttempt.scores a) manual_scores)
    as Hsc by (subst a'; by destruct manual_scores).
  split_and!; try done.
  - intros Hnd k. rewrite Hsc. by apply dict_get_update.
  - subst a'. by destruct manual_scores.
  - subst a'. by destruct manual_scores.
  - subst a'. by destruct manual_scores.
Qed.

Lemma evaluate_attempt_manual_scores_witness :
  let a := TestAttempt.finish_attempt 62000000 demo_test demo_attempt in
  let a' := TestAttempt.evaluate_attempt demo_test
              (Some [(KInt 3, 2%Q); (KInt 1, 0%Q)]) a in
  dict_get (KInt 1) (TestAttempt.scores a') = Some 0%Q
  ∧ dict_get (KInt 2) (TestAttempt.scores a') = Some 1%Q
  ∧ dict_get (KInt 3) (TestAttempt.scores a') = Some 2%Q.
Proof.
  intros a a'.
  destruct (evaluate_attempt_manual_scores demo_test [(KInt 3, 2%Q); (KInt 1, 0%Q)] a)
    as [H1 _].
  assert (NoDup [(KInt 3, 2%Q); (KInt 1, 0%Q)].*1) as Hnd
    by (apply (bool_decide_unpack _); vm_compute; exact I).
  split_and!.
  - exact (H1 Hnd (KInt 1)).
  - exact (H1 Hnd (KInt 2)).
  - exact (H1 Hnd (KInt 3)).
Defined.
